(** * A Transformer encoder-decoder (src/transformer.py), embedded in Rocq

    The development follows the Python source module by module.

    Tensors are modelled as the tensor library stores them: a shape and a
    flat, row-major list of elements.  Floating-point elements are
    idealised as real numbers: every statement about values below is a
    statement about exact real arithmetic (the sentinel [-1e20] is the real
    number [-10^20], [softmax] is the mathematical softmax), not about
    rounding, overflow or underflow.  Integer tensors (token batches) hold
    [Z], boolean tensors hold [bool].

    Python exceptions and warnings are explicit: a computation returns the
    list of warnings it emitted together with either an exception or a
    value. *)

From Stdlib Require Import String.
From Stdlib Require Import List Arith ZArith Bool Lia.
From Stdlib Require Import Reals Lra.
From Stdlib Require DecimalString.
Import ListNotations.

Set Implicit Arguments.

(* ===================================================================== *)
(** ** Python outcomes: exceptions and warnings *)
(* ===================================================================== *)

Module Py.

Inductive Exception : Type :=
| AssertionError (msg : string)
| ZeroDivisionError
| ValueError
| IndexError
| RuntimeError.

(** What a call leaves behind: the warnings emitted, and an exception or
    the returned value. *)
Definition M (A : Type) : Type := (list string * (Exception + A))%type.

Definition ret {A} (a : A) : M A := ([], inr a).
Definition raise {A} (e : Exception) : M A := ([], inl e).

(** [warnings.warn(w)].  The source never calls it: the warning list of
    every call of the model stays empty. *)
Definition warn (w : string) : M unit := ([w], inr tt).

Definition bind {A B} (m : M A) (f : A -> M B) : M B :=
  match m with
  | (w, inl e) => (w, inl e)
  | (w, inr a) => let r := f a in (w ++ fst r, snd r)
  end.

Definition warnings {A} (m : M A) : list string := fst m.

Definition value {A} (m : M A) : option A :=
  match snd m with inr a => Some a | inl _ => None end.

Definition failed {A} (m : M A) : bool :=
  match snd m with inr _ => false | inl _ => true end.

End Py.

Declare Scope py_scope.
Delimit Scope py_scope with py.
Notation "x <- m ;; k" := (Py.bind m (fun x => k))
  (at level 61, m at next level, right associativity) : py_scope.
Notation "'check' b 'else' e ;; k" := (if b then k else Py.raise e)
  (at level 61, b at next level, e at next level, right associativity) : py_scope.
Local Open Scope py_scope.

(* ===================================================================== *)
(** ** Tensors: shape and row-major storage *)
(* ===================================================================== *)

Record Tensor (A : Type) : Type := mkTensor { shape : list nat; data : list A }.

Arguments mkTensor {A} shape data.

(** Number of elements of a shape. *)
Definition numel (s : list nat) : nat := fold_right Nat.mul 1 s.

(** Row-major position of a multi-index. *)
Fixpoint offset (s idx : list nat) : nat :=
  match s, idx with
  | _ :: s', i :: idx' => i * numel s' + offset s' idx'
  | _, _ => 0
  end.

(** [t[idx]], with [d] read outside the storage. *)
Definition get {A} (d : A) (t : Tensor A) (idx : list nat) : A :=
  nth (offset (shape t) idx) (data t) d.

(** The elements [f idx] for every index of shape [s], in row-major
    order. *)
Fixpoint tabulate {A} (s : list nat) (f : list nat -> A) : list A :=
  match s with
  | [] => [f []]
  | d :: s' => flat_map (fun i => tabulate s' (fun idx => f (i :: idx))) (seq 0 d)
  end.

Definition build {A} (s : list nat) (f : list nat -> A) : Tensor A :=
  mkTensor s (tabulate s f).

(** An index addresses an element of shape [s]. *)
Definition in_range (s idx : list nat) : Prop := Forall2 lt idx s.

(** Reading real, integer and boolean tensors. *)
Definition getR (t : Tensor R) (idx : list nat) : R := get 0%R t idx.
Definition getZ (t : Tensor Z) (idx : list nat) : Z := get 0%Z t idx.
Definition getB (t : Tensor bool) (idx : list nat) : bool := get false t idx.

(** [t.reshape(s)]: the same storage under a new shape; the element counts
    must agree. *)
Definition reshape {A} (t : Tensor A) (s : list nat) : Py.M (Tensor A) :=
  check (numel (shape t) =? numel s) else Py.RuntimeError ;;
  Py.ret (mkTensor s (data t)).

(** [t.unsqueeze(dim)]: a dimension of size one inserted at [dim]. *)
Definition unsqueeze {A} (dim : nat) (t : Tensor A) : Py.M (Tensor A) :=
  check (dim <=? length (shape t)) else Py.IndexError ;;
  Py.ret (mkTensor (firstn dim (shape t) ++ 1 :: skipn dim (shape t)) (data t)).

(** *** Broadcasting *)

(** Two sizes of one dimension broadcast when they agree or one is 1. *)
Definition bdim (a b : nat) : option nat :=
  if a =? b then Some a
  else if a =? 1 then Some b
  else if b =? 1 then Some a
  else None.

(** Index into a dimension of size [size] from a broadcast index. *)
Definition bi (size i : nat) : nat := if size =? 1 then 0 else i.

(** Shapes are aligned at their last dimension. *)
Fixpoint broadcast_rev (a b : list nat) : option (list nat) :=
  match a, b with
  | [], _ => Some b
  | _, [] => Some a
  | x :: a', y :: b' =>
      match bdim x y, broadcast_rev a' b' with
      | Some z, Some r => Some (z :: r)
      | _, _ => None
      end
  end.

Definition broadcast_shapes (a b : list nat) : option (list nat) :=
  option_map (@rev nat) (broadcast_rev (rev a) (rev b)).

(** The index of a tensor of shape [s] that a broadcast index [idx] (of at
    least the same rank) reads. *)
Definition bindex (s idx : list nat) : list nat :=
  map (fun p => bi (fst p) (snd p))
      (combine s (skipn (length idx - length s) idx)).

(** *** Sums *)

Definition Rsum (l : list R) : R := fold_right Rplus 0%R l.

(** [sum_n n f] is [f 0 + ... + f (n-1)]. *)
Definition sum_n (n : nat) (f : nat -> R) : R := Rsum (map f (seq 0 n)).

(** *** Element types *)

(** What the model needs of an element type: a value read outside the
    storage, and the comparison [x == 0]. *)
Class Dtype (A : Type) : Type := { dzero : A; is_zero : A -> bool }.

#[global] Instance Dtype_bool : Dtype bool :=
  {| dzero := false; is_zero := negb |}.
#[global] Instance Dtype_Z : Dtype Z :=
  {| dzero := 0%Z; is_zero := Z.eqb 0 |}.
#[global] Instance Dtype_R : Dtype R :=
  {| dzero := 0%R; is_zero := fun r => if Req_dec_T r 0 then true else false |}.

(** *** Tensor operations of the library *)

Module torch.
Import Py.

(** [torch.ones(s)] *)
Definition ones (s : list nat) : Tensor R := build s (fun _ => 1%R).

(** [torch.tril(t)]: the elements above the main diagonal of the last
    two dimensions are zeroed. *)
Definition tril (t : Tensor R) : Tensor R :=
  build (shape t)
    (fun idx =>
       match rev idx with
       | j :: i :: _ => if j <=? i then getR t idx else 0%R
       | _ => getR t idx
       end).

(** [torch.arange(0, n)] *)
Definition arange (n : nat) : Tensor Z :=
  build [n] (fun idx => Z.of_nat (nth 0 idx 0)).

(** [t.expand(s)]: dimensions of size one are repeated. *)
Definition expand {A} `{Dtype A} (t : Tensor A) (s : list nat) : M (Tensor A) :=
  check (length (shape t) <=? length s) else RuntimeError ;;
  match broadcast_shapes (shape t) s with
  | Some s' =>
      check (list_eq_dec Nat.eq_dec s' s) else RuntimeError ;;
      ret (build s (fun idx => get dzero t (bindex (shape t) idx)))
  | None => raise RuntimeError
  end.

(** [t != c] on an integer tensor. *)
Definition ne (t : Tensor Z) (c : Z) : Tensor bool :=
  build (shape t) (fun idx => negb (getZ t idx =? c)%Z).

(** [t == 0] *)
Definition eq0 {A} `{Dtype A} (t : Tensor A) : Tensor bool :=
  build (shape t) (fun idx => is_zero (get dzero t idx)).

(** [t.masked_fill(m, v)]: [v] where [m] holds, [t] elsewhere; the two
    are broadcast to a common shape. *)
Definition masked_fill (t : Tensor R) (m : Tensor bool) (v : R) : M (Tensor R) :=
  match broadcast_shapes (shape t) (shape m) with
  | Some s =>
      ret (build s (fun idx =>
             if getB m (bindex (shape m) idx) then v
             else getR t (bindex (shape t) idx)))
  | None => raise RuntimeError
  end.

(** [a + b], broadcast. *)
Definition add (a b : Tensor R) : M (Tensor R) :=
  match broadcast_shapes (shape a) (shape b) with
  | Some s =>
      ret (build s (fun idx =>
             (getR a (bindex (shape a) idx) + getR b (bindex (shape b) idx))%R))
  | None => raise RuntimeError
  end.

(** [t / c] for a scalar [c]. *)
Definition div_scalar (t : Tensor R) (c : R) : Tensor R :=
  build (shape t) (fun idx => (getR t idx / c)%R).

(** An index with position [dim] replaced by [j]. *)
Definition set_dim (dim j : nat) (idx : list nat) : list nat :=
  firstn dim idx ++ j :: skipn (S dim) idx.

(** [torch.softmax(t, dim)] *)
Definition softmax (t : Tensor R) (dim : nat) : M (Tensor R) :=
  check (dim <? length (shape t)) else IndexError ;;
  ret (build (shape t) (fun idx =>
         (exp (getR t idx)
          / sum_n (nth dim (shape t) 0%nat)
              (fun j => exp (getR t (set_dim dim j idx))))%R)).

(** [torch.einsum("nqhd, nkhd -> nhqk", [a, b])]: dimensions carrying the
    same letter must agree or be 1. *)
Definition einsum_nqhd_nkhd_nhqk (a b : Tensor R) : M (Tensor R) :=
  match shape a, shape b with
  | [n1; q; h1; d1], [n2; k; h2; d2] =>
      match bdim n1 n2, bdim h1 h2, bdim d1 d2 with
      | Some n, Some h, Some d =>
          ret (build [n; h; q; k] (fun idx =>
                 match idx with
                 | [i; j; x; y] =>
                     sum_n d (fun c =>
                       (getR a [bi n1 i; x; bi h1 j; bi d1 c]
                        * getR b [bi n2 i; y; bi h2 j; bi d2 c])%R)
                 | _ => 0%R
                 end))
      | _, _, _ => raise RuntimeError
      end
  | _, _ => raise RuntimeError
  end.

(** [torch.einsum("nhql, nlhd -> nqhd", [a, b])] *)
Definition einsum_nhql_nlhd_nqhd (a b : Tensor R) : M (Tensor R) :=
  match shape a, shape b with
  | [n1; h1; q; l1], [n2; l2; h2; d] =>
      match bdim n1 n2, bdim h1 h2, bdim l1 l2 with
      | Some n, Some h, Some l =>
          ret (build [n; q; h; d] (fun idx =>
                 match idx with
                 | [i; x; j; c] =>
                     sum_n l (fun y =>
                       (getR a [bi n1 i; bi h1 j; x; bi l1 y]
                        * getR b [bi n2 i; bi l2 y; bi h2 j; c])%R)
                 | _ => 0%R
                 end))
      | _, _, _ => raise RuntimeError
      end
  | _, _ => raise RuntimeError
  end.

(** [t.shape[i]] *)
Definition size {A} (t : Tensor A) (i : nat) : M nat :=
  match nth_error (shape t) i with
  | Some n => ret n
  | None => raise IndexError
  end.

(** [a, b = t.shape] *)
Definition unpack2 {A} (t : Tensor A) : M (nat * nat) :=
  match shape t with
  | [a; b] => ret (a, b)
  | _ => raise ValueError
  end.

End torch.

(** Monadic iteration over a list. *)
Fixpoint mapM {A B} (f : A -> Py.M B) (l : list A) : Py.M (list B) :=
  match l with
  | [] => Py.ret []
  | a :: l' => b <- f a ;; bs <- mapM f l' ;; Py.ret (b :: bs)
  end.

Fixpoint foldM {A S} (f : S -> A -> Py.M S) (s : S) (l : list A) : Py.M S :=
  match l with
  | [] => Py.ret s
  | a :: l' => s' <- f s a ;; foldM f s' l'
  end.

(* ===================================================================== *)
(** ** Learned parameters and the layers of the library *)
(* ===================================================================== *)

(** The value of every named parameter at every index (the model's
    [state_dict]).  Construction draws the parameters from it, so every
    statement below holds for arbitrary parameter values. *)
Definition StateDict : Type := string -> list nat -> R.

Definition sub (prefix name : string) : string :=
  if String.eqb prefix "" then name else (prefix ++ "." ++ name)%string.

Definition string_of_nat (n : nat) : string :=
  DecimalString.NilEmpty.string_of_uint (Nat.to_uint n).

Module nn.
Import Py.

(** *** [nn.Linear] *)
Record Linear : Type := mkLinear {
  in_features : nat;
  out_features : nat;
  weight : Tensor R;            (* [out_features, in_features] *)
  bias : option (Tensor R)      (* [out_features] *)
}.

Definition Linear_init (theta : StateDict) (name : string)
    (in_f out_f : nat) (with_bias : bool) : Linear :=
  {| in_features := in_f;
     out_features := out_f;
     weight := build [out_f; in_f] (theta (sub name "weight"));
     bias := if with_bias then Some (build [out_f] (theta (sub name "bias")))
             else None |}.

(** [y[.., j] = sum_i x[.., i] * weight[j, i] + bias[j]] *)
Definition Linear_forward (l : Linear) (x : Tensor R) : M (Tensor R) :=
  check (match shape x with
         | [] => false
         | _ => last (shape x) 0 =? in_features l
         end) else RuntimeError ;;
  ret (build (removelast (shape x) ++ [out_features l]) (fun idx =>
         let pre := removelast idx in
         let j := last idx 0 in
         (sum_n (in_features l)
            (fun i => getR x (pre ++ [i]) * getR (weight l) [j; i])
          + match bias l with Some b => getR b [j] | None => 0 end)%R)).

(** *** [nn.LayerNorm] over the last dimension *)
Record LayerNorm : Type := mkLayerNorm {
  normalized_shape : nat;
  eps : R;
  ln_weight : Tensor R;
  ln_bias : Tensor R
}.

Definition LayerNorm_init (theta : StateDict) (name : string) (n : nat) : LayerNorm :=
  {| normalized_shape := n;
     eps := (1 / 100000)%R;
     ln_weight := build [n] (theta (sub name "weight"));
     ln_bias := build [n] (theta (sub name "bias")) |}.

Definition LayerNorm_forward (l : LayerNorm) (x : Tensor R) : M (Tensor R) :=
  check (match shape x with
         | [] => false
         | _ => last (shape x) 0 =? normalized_shape l
         end) else RuntimeError ;;
  let n := normalized_shape l in
  ret (build (shape x) (fun idx =>
         let pre := removelast idx in
         let j := last idx 0 in
         let mean := (sum_n n (fun i => getR x (pre ++ [i])) / INR n)%R in
         let var := (sum_n n (fun i => (getR x (pre ++ [i]) - mean) ^ 2) / INR n)%R in
         ((getR x idx - mean) / sqrt (var + eps l) * getR (ln_weight l) [j]
          + getR (ln_bias l) [j])%R)).

(** *** [nn.Embedding] *)
Record Embedding : Type := mkEmbedding {
  num_embeddings : nat;
  embedding_dim : nat;
  emb_weight : Tensor R         (* [num_embeddings, embedding_dim] *)
}.

Definition Embedding_init (theta : StateDict) (name : string)
    (num dim : nat) : Embedding :=
  {| num_embeddings := num;
     embedding_dim := dim;
     emb_weight := build [num; dim] (theta (sub name "weight")) |}.

Definition Embedding_forward (e : Embedding) (x : Tensor Z) : M (Tensor R) :=
  check (forallb (fun i => (0 <=? i)%Z && (i <? Z.of_nat (num_embeddings e))%Z)
           (data x)) else IndexError ;;
  ret (build (shape x ++ [embedding_dim e]) (fun idx =>
         getR (emb_weight e) [Z.to_nat (getZ x (removelast idx)); last idx 0])).

(** *** [nn.Dropout]

    The constructor rejects a rate outside [[0, 1]] with a value error.

    The forward pass is modelled where it is deterministic: with rate 0
    (the default of the model) in either mode, and with any rate in
    inference mode, it returns its input.  In training mode with a positive
    rate the library zeroes random elements and rescales the others: the
    shape of the result and the exceptions are those of the model, the
    values are not. *)
Record Dropout : Type := mkDropout { p : R }.

Definition Dropout_init (p : R) : M Dropout :=
  if Rlt_dec p 0 then raise ValueError
  else if Rlt_dec 1 p then raise ValueError
  else ret (mkDropout p).

Definition Dropout_forward (d : Dropout) (x : Tensor R) : Tensor R := x.

(** *** [nn.ReLU] and [nn.Sequential] *)
Inductive Layer : Type :=
| LinearLayer (l : Linear)
| ReLU.

Definition ReLU_forward (x : Tensor R) : Tensor R :=
  build (shape x) (fun idx => Rmax 0 (getR x idx)).

Definition Layer_forward (x : Tensor R) (l : Layer) : M (Tensor R) :=
  match l with
  | LinearLayer lin => Linear_forward lin x
  | ReLU => ret (ReLU_forward x)
  end.

Definition Sequential : Type := list Layer.

Definition Sequential_forward (s : Sequential) (x : Tensor R) : M (Tensor R) :=
  foldM Layer_forward x s.

End nn.

(* ===================================================================== *)
(** ** class SelfAttention *)
(* ===================================================================== *)

(** The sentinel [float("-1e20")]. *)
Definition sentinel : R := (- 10 ^ 20)%R.

Module SelfAttention.
Import Py.

Record t : Type := mk {
  embed_size : nat;
  heads : nat;
  head_dim : nat;
  values : nn.Linear;
  keys : nn.Linear;
  queries : nn.Linear;
  fc_out : nn.Linear
}.

(** [__init__]: [embed_size // heads] raises on a zero divisor; the
    assertion rejects an embed size that the heads do not divide. *)
Definition init (theta : StateDict) (name : string)
    (embed_size heads : nat) : M t :=
  check (negb (heads =? 0)) else ZeroDivisionError ;;
  let head_dim := embed_size / heads in
  check (head_dim * heads =? embed_size)
    else AssertionError "Embed size needs to be div by heads" ;;
  ret {| embed_size := embed_size;
         heads := heads;
         head_dim := head_dim;
         values := nn.Linear_init theta (sub name "values") head_dim head_dim false;
         keys := nn.Linear_init theta (sub name "keys") head_dim head_dim false;
         queries := nn.Linear_init theta (sub name "queries") head_dim head_dim false;
         fc_out := nn.Linear_init theta (sub name "fc_out") (heads * head_dim) embed_size true |}.

(** What [forward] has computed when it reaches the einsum of line 31. *)
Record Scores : Type := mkScores {
  N : nat;
  query_len : nat;
  projected_values : Tensor R;  (* [N, value_len, heads, head_dim] *)
  energy : Tensor R             (* [N, heads, query_len, key_len] *)
}.

(** [forward], lines 19 to 31: head splitting, projections and raw
    scores. *)
Definition scores (self : t) (values keys queries : Tensor R) : M Scores :=
  N <- torch.size queries 0 ;;
  value_len <- torch.size values 1 ;;
  key_len <- torch.size keys 1 ;;
  query_len <- torch.size queries 1 ;;
  values <- reshape values [N; value_len; heads self; head_dim self] ;;
  keys <- reshape keys [N; key_len; heads self; head_dim self] ;;
  queries <- reshape queries [N; query_len; heads self; head_dim self] ;;
  values <- nn.Linear_forward (SelfAttention.values self) values ;;
  keys <- nn.Linear_forward (SelfAttention.keys self) keys ;;
  queries <- nn.Linear_forward (SelfAttention.queries self) queries ;;
  energy <- torch.einsum_nqhd_nkhd_nhqk queries keys ;;
  ret {| N := N; query_len := query_len;
         projected_values := values; energy := energy |}.

(** [forward], lines 36 to 39: mask fill, scaling by the square root of
    the embed size, softmax over the keys. *)
Definition weights {A} `{Dtype A} (self : t) (energy : Tensor R)
    (mask : option (Tensor A)) : M (Tensor R) :=
  energy <- match mask with
            | Some m => torch.masked_fill energy (torch.eq0 m) sentinel
            | None => ret energy
            end ;;
  torch.softmax (torch.div_scalar energy (sqrt (INR (embed_size self)))) 3.

(** The attention weights that [forward] computes on its way. *)
Definition attention {A} `{Dtype A} (self : t) (values keys queries : Tensor R)
    (mask : option (Tensor A)) : M (Tensor R) :=
  s <- scores self values keys queries ;;
  weights self (energy s) mask.

Definition forward {A} `{Dtype A} (self : t) (values keys queries : Tensor R)
    (mask : option (Tensor A)) : M (Tensor R) :=
  s <- scores self values keys queries ;;
  attention <- weights self (energy s) mask ;;
  out <- torch.einsum_nhql_nlhd_nqhd attention (projected_values s) ;;
  out <- reshape out [N s; query_len s; heads self * head_dim self] ;;
  nn.Linear_forward (fc_out self) out.

End SelfAttention.

(* ===================================================================== *)
(** ** class TransformerBlock *)
(* ===================================================================== *)

Module TransformerBlock.
Import Py.

Record t : Type := mk {
  attention : SelfAttention.t;
  norm1 : nn.LayerNorm;
  norm2 : nn.LayerNorm;
  feed_forward : nn.Sequential;
  dropout : nn.Dropout
}.

Definition init (theta : StateDict) (name : string)
    (embed_size heads : nat) (dropout : R) (forward_expansion : nat) : M t :=
  attention <- SelfAttention.init theta (sub name "attention") embed_size heads ;;
  dropout <- nn.Dropout_init dropout ;;
  ret {| attention := attention;
         norm1 := nn.LayerNorm_init theta (sub name "norm1") embed_size;
         norm2 := nn.LayerNorm_init theta (sub name "norm2") embed_size;
         feed_forward :=
           [ nn.LinearLayer (nn.Linear_init theta (sub name "feed_forward.0")
                               embed_size (forward_expansion * embed_size) true);
             nn.ReLU;
             nn.LinearLayer (nn.Linear_init theta (sub name "feed_forward.2")
                               (forward_expansion * embed_size) embed_size true) ];
         dropout := dropout |}.

Definition forward {A} `{Dtype A} (self : t) (values keys queries : Tensor R)
    (mask : option (Tensor A)) : M (Tensor R) :=
  attention <- SelfAttention.forward (attention self) values keys queries mask ;;
  s <- torch.add attention queries ;;
  n <- nn.LayerNorm_forward (norm1 self) s ;;
  let x := nn.Dropout_forward (dropout self) n in
  forward <- nn.Sequential_forward (feed_forward self) x ;;
  s <- torch.add forward x ;;
  n <- nn.LayerNorm_forward (norm2 self) s ;;
  ret (nn.Dropout_forward (dropout self) n).

End TransformerBlock.

(* ===================================================================== *)
(** ** class Encoder *)
(* ===================================================================== *)

(** The [device] arguments of the source place tensors on an accelerator
    and do not change any value; they are left out. *)

Module Encoder.
Import Py.

Record t : Type := mk {
  embed_size : nat;
  word_embedding : nn.Embedding;
  position_embedding : nn.Embedding;
  layers : list TransformerBlock.t;
  dropout : nn.Dropout
}.

Definition init (theta : StateDict) (name : string)
    (src_vocab_size embed_size num_layers heads forward_expansion : nat)
    (dropout : R) (max_length : nat) : M t :=
  layers <- mapM (fun i =>
              TransformerBlock.init theta
                (sub name (sub "layers" (string_of_nat i)))
                embed_size heads dropout forward_expansion)
            (seq 0 num_layers) ;;
  dropout <- nn.Dropout_init dropout ;;
  ret {| embed_size := embed_size;
         word_embedding :=
           nn.Embedding_init theta (sub name "word_embedding") src_vocab_size embed_size;
         position_embedding :=
           nn.Embedding_init theta (sub name "position_embedding") max_length embed_size;
         layers := layers;
         dropout := dropout |}.

Definition forward {A} `{Dtype A} (self : t) (x : Tensor Z)
    (mask : option (Tensor A)) : M (Tensor R) :=
  sh <- torch.unpack2 x ;;
  let '(N, seq_length) := sh in
  positions <- torch.expand (torch.arange seq_length) [N; seq_length] ;;
  w <- nn.Embedding_forward (word_embedding self) x ;;
  p <- nn.Embedding_forward (position_embedding self) positions ;;
  s <- torch.add w p ;;
  let out := nn.Dropout_forward (dropout self) s in
  foldM (fun out layer => TransformerBlock.forward layer out out out mask)
        out (layers self).

End Encoder.

(* ===================================================================== *)
(** ** class DecoderBLock *)
(* ===================================================================== *)

Module DecoderBLock.
Import Py.

Record t : Type := mk {
  attention : SelfAttention.t;
  norm : nn.LayerNorm;
  transformer_block : TransformerBlock.t;
  dropout : nn.Dropout
}.

Definition init (theta : StateDict) (name : string)
    (embed_size heads forward_expansion : nat) (dropout : R) : M t :=
  attention <- SelfAttention.init theta (sub name "attention") embed_size heads ;;
  transformer_block <-
    TransformerBlock.init theta (sub name "transformer_block")
      embed_size heads dropout forward_expansion ;;
  dropout <- nn.Dropout_init dropout ;;
  ret {| attention := attention;
         norm := nn.LayerNorm_init theta (sub name "norm") embed_size;
         transformer_block := transformer_block;
         dropout := dropout |}.

Definition forward {A B} `{Dtype A} `{Dtype B} (self : t)
    (x values keys : Tensor R)
    (src_mask : option (Tensor A)) (trg_mask : option (Tensor B)) : M (Tensor R) :=
  attention <- SelfAttention.forward (attention self) x x x trg_mask ;;
  s <- torch.add attention x ;;
  n <- nn.LayerNorm_forward (norm self) s ;;
  let queries := nn.Dropout_forward (dropout self) n in
  TransformerBlock.forward (transformer_block self) values keys queries src_mask.

End DecoderBLock.

(* ===================================================================== *)
(** ** class Decoder *)
(* ===================================================================== *)

Module Decoder.
Import Py.

Record t : Type := mk {
  word_embedding : nn.Embedding;
  position_embedding : nn.Embedding;
  layers : list DecoderBLock.t;
  fc_out : nn.Linear;
  dropout : nn.Dropout
}.

Definition init (theta : StateDict) (name : string)
    (trg_vocab_size embed_size num_layers heads forward_expansion : nat)
    (dropout : R) (max_length : nat) : M t :=
  layers <- mapM (fun i =>
              DecoderBLock.init theta
                (sub name (sub "layers" (string_of_nat i)))
                embed_size heads forward_expansion dropout)
            (seq 0 num_layers) ;;
  dropout <- nn.Dropout_init dropout ;;
  ret {| word_embedding :=
           nn.Embedding_init theta (sub name "word_embedding") trg_vocab_size embed_size;
         position_embedding :=
           nn.Embedding_init theta (sub name "position_embedding") max_length embed_size;
         layers := layers;
         fc_out := nn.Linear_init theta (sub name "fc_out") embed_size trg_vocab_size true;
         dropout := dropout |}.

(** [forward], lines 146 to 151: the output of the last decoder block. *)
Definition hidden {A B} `{Dtype A} `{Dtype B} (self : t) (x : Tensor Z)
    (enc_out : Tensor R)
    (src_mask : option (Tensor A)) (trg_mask : option (Tensor B)) : M (Tensor R) :=
  sh <- torch.unpack2 x ;;
  let '(N, seq_length) := sh in
  positions <- torch.expand (torch.arange seq_length) [N; seq_length] ;;
  w <- nn.Embedding_forward (word_embedding self) x ;;
  p <- nn.Embedding_forward (position_embedding self) positions ;;
  s <- torch.add w p ;;
  let x := nn.Dropout_forward (dropout self) s in
  foldM (fun x layer => DecoderBLock.forward layer x enc_out enc_out src_mask trg_mask)
        x (layers self).

Definition forward {A B} `{Dtype A} `{Dtype B} (self : t) (x : Tensor Z)
    (enc_out : Tensor R)
    (src_mask : option (Tensor A)) (trg_mask : option (Tensor B)) : M (Tensor R) :=
  x <- hidden self x enc_out src_mask trg_mask ;;
  nn.Linear_forward (fc_out self) x.

End Decoder.

(* ===================================================================== *)
(** ** class Transformer *)
(* ===================================================================== *)

Module Transformer.
Import Py.

Record t : Type := mk {
  encoder : Encoder.t;
  decoder : Decoder.t;
  src_pad_idx : Z;
  trg_pad_idx : Z
}.

Definition init (theta : StateDict)
    (src_vocab_size trg_vocab_size : nat) (src_pad_idx trg_pad_idx : Z)
    (embed_size num_layers forward_expansion heads : nat) (dropout : R)
    (max_length : nat) : M t :=
  encoder <- Encoder.init theta "encoder" src_vocab_size embed_size num_layers
               heads forward_expansion dropout max_length ;;
  decoder <- Decoder.init theta "decoder" trg_vocab_size embed_size num_layers
               heads forward_expansion dropout max_length ;;
  ret {| encoder := encoder; decoder := decoder;
         src_pad_idx := src_pad_idx; trg_pad_idx := trg_pad_idx |}.

(** The defaults of [__init__]: embed size 256, 6 layers, expansion 4,
    8 heads, dropout 0, at most 100 positions. *)
Definition init_default (theta : StateDict)
    (src_vocab_size trg_vocab_size : nat) (src_pad_idx trg_pad_idx : Z) : M t :=
  init theta src_vocab_size trg_vocab_size src_pad_idx trg_pad_idx
    256 6 4 8 0%R 100.

Definition make_src_mask (self : t) (src : Tensor Z) : M (Tensor bool) :=
  m <- unsqueeze 1 (torch.ne src (src_pad_idx self)) ;;
  unsqueeze 2 m.

Definition make_trg_mask (self : t) (trg : Tensor Z) : M (Tensor R) :=
  sh <- torch.unpack2 trg ;;
  let '(N, trg_len) := sh in
  torch.expand (torch.tril (torch.ones [trg_len; trg_len])) [N; 1; trg_len; trg_len].

Definition forward (self : t) (src trg : Tensor Z) : M (Tensor R) :=
  src_mask <- make_src_mask self src ;;
  trg_mask <- make_trg_mask self trg ;;
  enc_src <- Encoder.forward (encoder self) src (Some src_mask) ;;
  Decoder.forward (decoder self) trg enc_src (Some src_mask) (Some trg_mask).

End Transformer.

(** The batches of the script at the end of the source. *)
Definition scenario_src : Tensor Z :=
  mkTensor [2; 9] [1; 5; 6; 4; 3; 9; 5; 2; 0;  1; 8; 7; 3; 4; 5; 6; 7; 2]%Z.

(** [trg[:, :-1]]: the target batch without its last column. *)
Definition scenario_trg : Tensor Z :=
  mkTensor [2; 7] [1; 7; 4; 3; 5; 9; 2;  1; 5; 6; 2; 4; 7; 6]%Z.

(* ===================================================================== *)
(** ** The attention weights in the words of the specification *)
(* ===================================================================== *)

Module Spec.

(** Step 4 of the algorithm: the score at [n, h, q, k] after masking;
    the mask is read at the index it is broadcast from. *)
Definition masked_score {A} `{Dtype A} (energy : Tensor R)
    (mask : option (Tensor A)) (n h q k : nat) : R :=
  match mask with
  | Some m =>
      if is_zero (get dzero m (bindex (shape m) [n; h; q; k])) then sentinel
      else getR energy [n; h; q; k]
  | None => getR energy [n; h; q; k]
  end.

(** Softmax along the key axis of the masked scores divided by
    [scale]. *)
Definition softmax_weight {A} `{Dtype A} (scale : R) (energy : Tensor R)
    (mask : option (Tensor A)) (key_len n h q k : nat) : R :=
  (exp (masked_score energy mask n h q k / scale)
   / sum_n key_len (fun j => exp (masked_score energy mask n h q j / scale)))%R.

(** Step 5: the scale is the square root of the embed size. *)
Definition attention_weight {A} `{Dtype A} (embed_size : nat) (energy : Tensor R)
    (mask : option (Tensor A)) (key_len n h q k : nat) : R :=
  softmax_weight (sqrt (INR embed_size)) energy mask key_len n h q k.

(** A key position the mask forbids for the query at [n, h, q]. *)
Definition masked_at {A} `{Dtype A} (mask : option (Tensor A)) (n h q k : nat) : bool :=
  match mask with
  | Some m => is_zero (get dzero m (bindex (shape m) [n; h; q; k]))
  | None => false
  end.

End Spec.

(** A mask that [masked_fill] broadcasts to the shape [s] of the scores:
    four-dimensional, each dimension of size 1 or of the size of [s]. *)
Definition mask_fits {A} (mask : option (Tensor A)) (s : list nat) : Prop :=
  match mask with
  | Some m => length (shape m) = 4%nat /\ broadcast_shapes s (shape m) = Some s
  | None => True
  end.

(** What [SelfAttention.__init__] establishes: the heads split the embed
    size exactly, and the four projections have the matching sizes. *)
Definition SelfAttention_wf (self : SelfAttention.t) : Prop :=
  (SelfAttention.head_dim self * SelfAttention.heads self
   = SelfAttention.embed_size self)%nat
  /\ nn.in_features (SelfAttention.values self) = SelfAttention.head_dim self
  /\ nn.out_features (SelfAttention.values self) = SelfAttention.head_dim self
  /\ nn.in_features (SelfAttention.keys self) = SelfAttention.head_dim self
  /\ nn.out_features (SelfAttention.keys self) = SelfAttention.head_dim self
  /\ nn.in_features (SelfAttention.queries self) = SelfAttention.head_dim self
  /\ nn.out_features (SelfAttention.queries self) = SelfAttention.head_dim self
  /\ nn.in_features (SelfAttention.fc_out self)
     = (SelfAttention.heads self * SelfAttention.head_dim self)%nat
  /\ nn.out_features (SelfAttention.fc_out self) = SelfAttention.embed_size self.

(** What the other constructors establish, for embed size [E]. *)
Definition TransformerBlock_wf (E : nat) (b : TransformerBlock.t) : Prop :=
  SelfAttention_wf (TransformerBlock.attention b)
  /\ SelfAttention.embed_size (TransformerBlock.attention b) = E
  /\ nn.normalized_shape (TransformerBlock.norm1 b) = E
  /\ nn.normalized_shape (TransformerBlock.norm2 b) = E
  /\ exists l1 l2,
       TransformerBlock.feed_forward b = [nn.LinearLayer l1; nn.ReLU; nn.LinearLayer l2]
       /\ nn.in_features l1 = E
       /\ nn.in_features l2 = nn.out_features l1
       /\ nn.out_features l2 = E.

Definition DecoderBLock_wf (E : nat) (d : DecoderBLock.t) : Prop :=
  SelfAttention_wf (DecoderBLock.attention d)
  /\ SelfAttention.embed_size (DecoderBLock.attention d) = E
  /\ nn.normalized_shape (DecoderBLock.norm d) = E
  /\ TransformerBlock_wf E (DecoderBLock.transformer_block d).

Definition Encoder_wf (E vocab max_length : nat) (e : Encoder.t) : Prop :=
  nn.num_embeddings (Encoder.word_embedding e) = vocab
  /\ nn.embedding_dim (Encoder.word_embedding e) = E
  /\ nn.num_embeddings (Encoder.position_embedding e) = max_length
  /\ nn.embedding_dim (Encoder.position_embedding e) = E
  /\ Forall (TransformerBlock_wf E) (Encoder.layers e).

Definition Decoder_wf (E vocab max_length : nat) (d : Decoder.t) : Prop :=
  nn.num_embeddings (Decoder.word_embedding d) = vocab
  /\ nn.embedding_dim (Decoder.word_embedding d) = E
  /\ nn.num_embeddings (Decoder.position_embedding d) = max_length
  /\ nn.embedding_dim (Decoder.position_embedding d) = E
  /\ Forall (DecoderBLock_wf E) (Decoder.layers d)
  /\ nn.in_features (Decoder.fc_out d) = E
  /\ nn.out_features (Decoder.fc_out d) = vocab.

(** Every token of a batch is an index into a vocabulary of [vocab]
    entries. *)
Definition tokens_in (vocab : nat) (x : Tensor Z) : Prop :=
  Forall (fun i => (0 <= i < Z.of_nat vocab)%Z) (data x).

(* ===================================================================== *)
(** ** Small concrete instances *)
(* ===================================================================== *)

(** Parameters: the weight of the query projection is -1, every other
    parameter is 1. *)
Definition example_theta : StateDict :=
  fun name _ => if String.eqb name "queries.weight" then (-1)%R else 1%R.

(** [SelfAttention(embed_size=1, heads=1)] with these parameters. *)
Definition example_attention : SelfAttention.t :=
  {| SelfAttention.embed_size := 1;
     SelfAttention.heads := 1;
     SelfAttention.head_dim := 1;
     SelfAttention.values := nn.Linear_init example_theta "values" 1 1 false;
     SelfAttention.keys := nn.Linear_init example_theta "keys" 1 1 false;
     SelfAttention.queries := nn.Linear_init example_theta "queries" 1 1 false;
     SelfAttention.fc_out := nn.Linear_init example_theta "fc_out" 1 1 true |}.

(** [Transformer(3, 3, 0, 0, embed_size=1, num_layers=0, heads=1,
    max_length=10)] with these parameters. *)
Definition example_transformer : Transformer.t :=
  {| Transformer.encoder :=
       {| Encoder.embed_size := 1;
          Encoder.word_embedding :=
            nn.Embedding_init example_theta "encoder.word_embedding" 3 1;
          Encoder.position_embedding :=
            nn.Embedding_init example_theta "encoder.position_embedding" 10 1;
          Encoder.layers := [];
          Encoder.dropout := nn.mkDropout 0 |};
     Transformer.decoder :=
       {| Decoder.word_embedding :=
            nn.Embedding_init example_theta "decoder.word_embedding" 3 1;
          Decoder.position_embedding :=
            nn.Embedding_init example_theta "decoder.position_embedding" 10 1;
          Decoder.layers := [];
          Decoder.fc_out := nn.Linear_init example_theta "decoder.fc_out" 1 3 true;
          Decoder.dropout := nn.mkDropout 0 |};
     Transformer.src_pad_idx := 0;
     Transformer.trg_pad_idx := 0 |}.

(** An input of large magnitude, [2e10]. *)
Definition big : R := (2 * 10 ^ 10)%R.

(** One sentence of two positions, embed size 1. *)
Definition example_x : Tensor R := mkTensor [1; 2; 1] [big; 0%R].
Definition example_y : Tensor R := mkTensor [1; 2; 1] [3%R; 5%R].
Definition example_query : Tensor R := mkTensor [1; 1; 1] [1%R].

(** Token batches: one without padding, one made of padding only. *)
Definition example_trg : Tensor Z := mkTensor [1; 2] [1; 2]%Z.
Definition example_padded : Tensor Z := mkTensor [1; 2] [0; 0]%Z.

(** A source batch whose second position is padding, and the source masks
    of the two source batches. *)
Definition example_src : Tensor Z := mkTensor [1; 2] [1; 0]%Z.
Definition example_src_mask : Tensor bool := mkTensor [1; 1; 1; 2] [true; false].
Definition example_padded_mask : Tensor bool := mkTensor [1; 1; 1; 2] [false; false].

(** Scores [0, 1] for one query and two keys, and a mask allowing both. *)
Definition example_energy : Tensor R := mkTensor [1; 1; 1; 2] [0%R; 1%R].
Definition example_open_mask : Tensor bool := mkTensor [1; 1; 1; 2] [true; true].

(** [SelfAttention(embed_size=4, heads=2)], and a call whose value
    sequence has length 1 while the key sequence has length 5. *)
Definition example_heads : SelfAttention.t :=
  {| SelfAttention.embed_size := 4;
     SelfAttention.heads := 2;
     SelfAttention.head_dim := 2;
     SelfAttention.values := nn.Linear_init example_theta "values" 2 2 false;
     SelfAttention.keys := nn.Linear_init example_theta "keys" 2 2 false;
     SelfAttention.queries := nn.Linear_init example_theta "queries" 2 2 false;
     SelfAttention.fc_out := nn.Linear_init example_theta "fc_out" 4 4 true |}.

Definition short_values : Tensor R := build [2; 1; 4] (fun _ => 1%R).
Definition long_keys : Tensor R := build [2; 5; 4] (fun _ => 1%R).
Definition some_queries : Tensor R := build [2; 3; 4] (fun _ => 1%R).

(** [SelfAttention(embed_size=4, heads=4)]: head dimension 1; and scores
    [0, 2] for one query and two keys in each of the four heads. *)
Definition example_four_heads : SelfAttention.t :=
  {| SelfAttention.embed_size := 4;
     SelfAttention.heads := 4;
     SelfAttention.head_dim := 1;
     SelfAttention.values := nn.Linear_init example_theta "values" 1 1 false;
     SelfAttention.keys := nn.Linear_init example_theta "keys" 1 1 false;
     SelfAttention.queries := nn.Linear_init example_theta "queries" 1 1 false;
     SelfAttention.fc_out := nn.Linear_init example_theta "fc_out" 4 4 true |}.

Definition example_energy4 : Tensor R :=
  mkTensor [1; 4; 1; 2] [0; 2; 0; 2; 0; 2; 0; 2]%R.

(** Values of batch size 3 against queries of batch size 2. *)
Definition other_batch_values : Tensor R := build [3; 5; 4] (fun _ => 1%R).

(** The model of the script: [Transformer(10, 10, 0, 0)] with the default
    hyperparameters, for arbitrary parameter values. *)
Definition scenario_model (theta : StateDict) : Transformer.t :=
  match Py.value (Transformer.init_default theta 10 10 0 0) with
  | Some model => model
  | None => example_transformer
  end.

(** Further instances: a source batch without padding, a batch longer than
    ten positions, a batch with a token outside a vocabulary of three and a
    single sequence without a batch dimension. *)
Definition example_unpadded : Tensor Z := mkTensor [1; 2] [1; 2]%Z.
Definition example_long : Tensor Z :=
  mkTensor [1; 11] [1; 1; 1; 1; 1; 1; 1; 1; 1; 1; 1]%Z.
Definition example_unknown : Tensor Z := mkTensor [1; 2] [1; 7]%Z.
Definition example_flat : Tensor Z := mkTensor [2] [1; 2]%Z.

(** A source mask for two sentences of five positions, the second one
    padded from its fourth position on. *)
Definition example_keys_mask : Tensor bool :=
  mkTensor [2; 1; 1; 5]
    [true; true; true; true; true;  true; true; true; false; false].
Definition example_pair : Tensor Z := mkTensor [2; 2] [1; 2; 2; 1]%Z.

(** A mask of the full shape of the scores of two heads, three queries and
    five keys: it forbids the last key in the second head only. *)
Definition example_head_mask : Tensor bool :=
  build [2; 2; 3; 5] (fun idx =>
    match idx with
    | [_; h; _; k] => negb ((h =? 1) && (k =? 4))
    | _ => true
    end).

(** Activations for a block of embed size 4: two sentences of three
    target positions, and an encoder output of five source positions. *)
Definition example_target_state : Tensor R := build [2; 3; 4] (fun _ => 1%R).
Definition example_encoded : Tensor R := build [2; 5; 4] (fun _ => 1%R).
Definition example_src25 : Tensor Z :=
  mkTensor [2; 5] [1; 2; 1; 2; 1;  2; 1; 2; 0; 0]%Z.
Definition example_trg23 : Tensor Z := mkTensor [2; 3] [1; 2; 1;  2; 1; 0]%Z.

(** [TransformerBlock(4, 2, 0, 4)], [DecoderBLock(4, 2, 4, 0)],
    [Encoder(3, 4, 2, 2, ., 4, 0, 10)] and [Transformer(3, 3, 0, 0,
    embed_size=4, num_layers=1, forward_expansion=4, heads=2, dropout=0,
    max_length=10)] with the parameters above. *)
Definition example_block : TransformerBlock.t :=
  {| TransformerBlock.attention :=
       {| SelfAttention.embed_size := 4;
          SelfAttention.heads := 2;
          SelfAttention.head_dim := 2;
          SelfAttention.values :=
            nn.Linear_init example_theta "block.attention.values" 2 2 false;
          SelfAttention.keys :=
            nn.Linear_init example_theta "block.attention.keys" 2 2 false;
          SelfAttention.queries :=
            nn.Linear_init example_theta "block.attention.queries" 2 2 false;
          SelfAttention.fc_out :=
            nn.Linear_init example_theta "block.attention.fc_out" 4 4 true |};
     TransformerBlock.norm1 := nn.LayerNorm_init example_theta "block.norm1" 4;
     TransformerBlock.norm2 := nn.LayerNorm_init example_theta "block.norm2" 4;
     TransformerBlock.feed_forward :=
       [ nn.LinearLayer (nn.Linear_init example_theta "block.feed_forward.0" 4 16 true);
         nn.ReLU;
         nn.LinearLayer (nn.Linear_init example_theta "block.feed_forward.2" 16 4 true) ];
     TransformerBlock.dropout := nn.mkDropout 0 |}.

Definition example_decoder_block : DecoderBLock.t :=
  match Py.value (DecoderBLock.init example_theta "layer" 4 2 4 0) with
  | Some d => d
  | None =>
      {| DecoderBLock.attention := example_heads;
         DecoderBLock.norm := nn.LayerNorm_init example_theta "norm" 4;
         DecoderBLock.transformer_block := example_block;
         DecoderBLock.dropout := nn.mkDropout 0 |}
  end.

Definition example_encoder : Encoder.t :=
  match Py.value (Encoder.init example_theta "encoder" 3 4 2 2 4 0 10) with
  | Some e => e
  | None => Transformer.encoder example_transformer
  end.

Definition example_model : Transformer.t :=
  match Py.value (Transformer.init example_theta 3 3 0 0 4 1 4 2 0 10) with
  | Some m => m
  | None => example_transformer
  end.

(* ===================================================================== *)
(** * Properties *)
(* ===================================================================== *)

Local Open Scope R_scope.
Unset Implicit Arguments.

(** ** Storage and indexing *)

Lemma length_flat_map_blocks {A} (g : nat -> list A) (m a d : nat) :
  (forall i, length (g i) = m) ->
  length (flat_map g (seq a d)) = (d * m)%nat.
Proof.
  intros Hg. revert a. induction d as [|d IH]; intros a; simpl.
  - reflexivity.
  - rewrite length_app, Hg, IH. reflexivity.
Qed.

Lemma length_tabulate {A} (s : list nat) (f : list nat -> A) :
  length (tabulate s f) = numel s.
Proof.
  revert f. induction s as [|d s IH]; intros f; simpl.
  - reflexivity.
  - apply length_flat_map_blocks. intros i. apply IH.
Qed.

Lemma nth_flat_map_blocks {A} (g : nat -> list A) (m a d i r : nat) (x : A) :
  (forall j, length (g j) = m) ->
  (i < d)%nat -> (r < m)%nat ->
  nth (i * m + r) (flat_map g (seq a d)) x = nth r (g (a + i)%nat) x.
Proof.
  intros Hg. revert a i. induction d as [|d IH]; intros a i Hi Hr.
  - lia.
  - simpl. destruct i as [|i].
    + simpl. rewrite app_nth1 by (rewrite Hg; exact Hr).
      now rewrite Nat.add_0_r.
    + rewrite app_nth2 by (rewrite Hg; simpl; lia).
      rewrite Hg. replace (S i * m + r - m)%nat with (i * m + r)%nat by (simpl; lia).
      rewrite IH by lia. f_equal. f_equal. lia.
Qed.

Lemma offset_lt (s idx : list nat) :
  in_range s idx -> (offset s idx < numel s)%nat.
Proof.
  unfold in_range. induction 1 as [|i d idx s Hid _ IH]; simpl.
  - lia.
  - fold (numel s). nia.
Qed.

Lemma nth_tabulate {A} (s idx : list nat) (f : list nat -> A) (x : A) :
  in_range s idx -> nth (offset s idx) (tabulate s f) x = f idx.
Proof.
  unfold in_range. intros H. revert f.
  induction H as [|i d idx s Hid Hr IH]; intros f; simpl.
  - reflexivity.
  - fold (numel s).
    rewrite (nth_flat_map_blocks _ (numel s)).
    + simpl. apply IH.
    + intros j. apply length_tabulate.
    + exact Hid.
    + apply offset_lt. exact Hr.
Qed.

Lemma get_build {A} (x : A) (s idx : list nat) (f : list nat -> A) :
  in_range s idx -> get x (build s f) idx = f idx.
Proof. intros H. unfold get, build. simpl. now apply nth_tabulate. Qed.

Lemma getR_build (s idx : list nat) (f : list nat -> R) :
  in_range s idx -> getR (build s f) idx = f idx.
Proof. apply get_build. Qed.

Lemma getB_build (s idx : list nat) (f : list nat -> bool) :
  in_range s idx -> getB (build s f) idx = f idx.
Proof. apply get_build. Qed.

Lemma in_range4 (a b c d i j k l : nat) :
  (i < a)%nat -> (j < b)%nat -> (k < c)%nat -> (l < d)%nat ->
  in_range [a; b; c; d] [i; j; k; l].
Proof. intros. repeat constructor; assumption. Qed.

Lemma in_range3 (a b c i j k : nat) :
  (i < a)%nat -> (j < b)%nat -> (k < c)%nat -> in_range [a; b; c] [i; j; k].
Proof. intros. unfold in_range. auto using Forall2_cons, Forall2_nil. Qed.

Lemma in_range2 (a b i j : nat) :
  (i < a)%nat -> (j < b)%nat -> in_range [a; b] [i; j].
Proof. intros. unfold in_range. auto using Forall2_cons, Forall2_nil. Qed.

Lemma in_range1 (a i : nat) : (i < a)%nat -> in_range [a] [i].
Proof. intros. unfold in_range. auto using Forall2_cons, Forall2_nil. Qed.

Lemma in_range4_inv (a b c d i j k l : nat) :
  in_range [a; b; c; d] [i; j; k; l] ->
  (i < a)%nat /\ (j < b)%nat /\ (k < c)%nat /\ (l < d)%nat.
Proof.
  intros H. inversion H as [|? ? ? ? H1 H2]; subst.
  inversion H2 as [|? ? ? ? H3 H4]; subst.
  inversion H4 as [|? ? ? ? H5 H6]; subst.
  inversion H6; subst. tauto.
Qed.

(** ** Broadcasting *)

Lemma bdim_refl (x : nat) : bdim x x = Some x.
Proof. unfold bdim. now rewrite Nat.eqb_refl. Qed.

Lemma bdim_keeps (x y : nat) : bdim x y = Some x -> y = x \/ y = 1%nat.
Proof.
  unfold bdim.
  destruct (Nat.eqb_spec x y); [auto|].
  destruct (Nat.eqb_spec x 1).
  - intros [= ->]. auto.
  - destruct (Nat.eqb_spec y 1); [auto | discriminate].
Qed.

Lemma bi_lt (size bound i : nat) :
  size = bound \/ size = 1%nat -> (i < bound)%nat -> (bi size i < size)%nat.
Proof.
  unfold bi. intros [-> | ->] Hi.
  - destruct (Nat.eqb_spec bound 1); lia.
  - simpl. lia.
Qed.

Lemma bi_id (size i : nat) : (i < size)%nat -> bi size i = i.
Proof. unfold bi. intros Hi. destruct (Nat.eqb_spec size 1); lia. Qed.

(** ** Sums *)

Lemma Rsum_map_ext (f g : nat -> R) (a n : nat) :
  (forall i, (a <= i < a + n)%nat -> f i = g i) ->
  Rsum (map f (seq a n)) = Rsum (map g (seq a n)).
Proof.
  revert a. induction n as [|n IH]; intros a H; simpl.
  - reflexivity.
  - rewrite H by lia. rewrite IH; [reflexivity|]. intros i Hi. apply H. lia.
Qed.

Lemma sum_n_ext (n : nat) (f g : nat -> R) :
  (forall i, (i < n)%nat -> f i = g i) -> sum_n n f = sum_n n g.
Proof. intros H. apply Rsum_map_ext. intros i Hi. apply H. lia. Qed.

Lemma Rsum_map_pos (f : nat -> R) (a n : nat) :
  (0 < n)%nat -> (forall i, 0 < f i) -> 0 < Rsum (map f (seq a n)).
Proof.
  intros Hn Hf. revert a. induction n as [|n IH]; intros a; [lia|].
  simpl. destruct n as [|n].
  - simpl. specialize (Hf a). lra.
  - specialize (IH ltac:(lia) (S a)). specialize (Hf a). lra.
Qed.

Lemma sum_n_pos (n : nat) (f : nat -> R) :
  (0 < n)%nat -> (forall i, 0 < f i) -> 0 < sum_n n f.
Proof. apply Rsum_map_pos. Qed.

Lemma Rsum_map_scale (f : nat -> R) (c : R) (a n : nat) :
  Rsum (map (fun i => f i * c) (seq a n)) = Rsum (map f (seq a n)) * c.
Proof.
  revert a. induction n as [|n IH]; intros a; simpl.
  - ring.
  - rewrite IH. ring.
Qed.

Lemma sum_n_div (n : nat) (f : nat -> R) (c : R) :
  sum_n n (fun i => f i / c) = sum_n n f / c.
Proof. unfold sum_n, Rdiv. apply Rsum_map_scale. Qed.

Lemma Rsum_map_const (c : R) (a n : nat) :
  Rsum (map (fun _ => c) (seq a n)) = INR n * c.
Proof.
  revert a. induction n as [|n IH]; intros a.
  - simpl. ring.
  - rewrite S_INR. simpl. rewrite IH. ring.
Qed.

Lemma sum_n_const (n : nat) (c : R) : sum_n n (fun _ => c) = INR n * c.
Proof. apply Rsum_map_const. Qed.

Lemma Rsum_map_ge_term (f : nat -> R) (a n j : nat) :
  (forall i, 0 <= f i) -> (a <= j < a + n)%nat ->
  f j <= Rsum (map f (seq a n)).
Proof.
  intros Hf. revert a. induction n as [|n IH]; intros a Hj; [lia|].
  simpl. destruct (Nat.eq_dec j a) as [-> | Hne].
  - assert (0 <= Rsum (map f (seq (S a) n))).
    { clear - Hf. generalize (S a). induction n as [|n IHn]; intros b; simpl.
      - lra.
      - specialize (IHn (S b)). specialize (Hf b). lra. }
    lra.
  - specialize (IH (S a) ltac:(lia)). specialize (Hf a). lra.
Qed.

Lemma sum_n_ge_term (n j : nat) (f : nat -> R) :
  (forall i, 0 <= f i) -> (j < n)%nat -> f j <= sum_n n f.
Proof. intros Hf Hj. apply Rsum_map_ge_term; [exact Hf | lia]. Qed.

(** ** The outcome monad *)

Lemma bind_ret_l {A B} (a : A) (f : A -> Py.M B) : Py.bind (Py.ret a) f = f a.
Proof. unfold Py.bind, Py.ret. simpl. now destruct (f a). Qed.

Lemma bind_ret_inv {A B} (m : Py.M A) (f : A -> Py.M B) (b : B) :
  Py.bind m f = Py.ret b -> exists a, m = Py.ret a /\ f a = Py.ret b.
Proof.
  unfold Py.bind, Py.ret. destruct m as [w [e|a]]; [discriminate|].
  destruct (f a) as [w' r] eqn:E. simpl. intros [= Hw ->].
  apply app_eq_nil in Hw as [-> ->]. eauto.
Qed.

(** ** The rate check of [nn.Dropout] *)

Lemma Dropout_init_valid (p : R) :
  0 <= p <= 1 -> nn.Dropout_init p = Py.ret (nn.mkDropout p).
Proof.
  intros [H0 H1]. unfold nn.Dropout_init.
  destruct (Rlt_dec p 0) as [Hlt|_]; [lra|].
  destruct (Rlt_dec 1 p) as [Hgt|_]; [lra|]. reflexivity.
Qed.

Lemma Dropout_init_invalid (p : R) :
  p < 0 \/ 1 < p -> nn.Dropout_init p = Py.raise Py.ValueError.
Proof.
  intros Hp. unfold nn.Dropout_init.
  destruct (Rlt_dec p 0) as [_|H0]; [reflexivity|].
  destruct (Rlt_dec 1 p) as [_|H1]; [reflexivity|]. lra.
Qed.

(** ** Masked softmax: lines 36 to 39 of [SelfAttention.forward] *)

Lemma broadcast4_keeps (n1 n2 n3 n4 a b c d : nat) :
  broadcast_shapes [n1; n2; n3; n4] [a; b; c; d] = Some [n1; n2; n3; n4] ->
  (a = n1 \/ a = 1%nat) /\ (b = n2 \/ b = 1%nat) /\
  (c = n3 \/ c = 1%nat) /\ (d = n4 \/ d = 1%nat).
Proof.
  unfold broadcast_shapes. simpl.
  destruct (bdim n4 d) eqn:E4; [|discriminate].
  destruct (bdim n3 c) eqn:E3; [|discriminate].
  destruct (bdim n2 b) eqn:E2; [|discriminate].
  destruct (bdim n1 a) eqn:E1; [|discriminate].
  simpl. intros [= -> -> -> ->].
  auto using bdim_keeps.
Qed.

Lemma mask_fits_inv {A} (m : Tensor A) (n1 n2 n3 n4 : nat) :
  mask_fits (Some m) [n1; n2; n3; n4] ->
  exists a b c d, shape m = [a; b; c; d] /\
    (a = n1 \/ a = 1%nat) /\ (b = n2 \/ b = 1%nat) /\
    (c = n3 \/ c = 1%nat) /\ (d = n4 \/ d = 1%nat).
Proof.
  intros [Hlen Hb].
  destruct (shape m) as [|a [|b [|c [|d [|? ?]]]]]; try discriminate.
  exists a, b, c, d. split; [reflexivity|]. now apply broadcast4_keeps.
Qed.

Lemma bindex4 (a b c d i j k l : nat) :
  bindex [a; b; c; d] [i; j; k; l] = [bi a i; bi b j; bi c k; bi d l].
Proof. reflexivity. Qed.

Lemma bindex4_id (a b c d i j k l : nat) :
  in_range [a; b; c; d] [i; j; k; l] ->
  bindex [a; b; c; d] [i; j; k; l] = [i; j; k; l].
Proof.
  intros H. apply in_range4_inv in H as (? & ? & ? & ?).
  rewrite bindex4, !bi_id by assumption. reflexivity.
Qed.

(** The mask-filled scores. *)
Lemma masked_fill_eq0 {A} {DA : Dtype A} (e : Tensor R) (m : Tensor A) (N H Q K : nat) :
  shape e = [N; H; Q; K] ->
  mask_fits (Some m) [N; H; Q; K] ->
  exists e', torch.masked_fill e (torch.eq0 m) sentinel = Py.ret e' /\
    shape e' = [N; H; Q; K] /\
    forall n h q k, in_range [N; H; Q; K] [n; h; q; k] ->
      getR e' [n; h; q; k] = Spec.masked_score e (Some m) n h q k.
Proof.
  intros He Hm.
  destruct (mask_fits_inv _ _ _ _ _ Hm) as (a & b & c & d & Hs & Ha & Hb & Hc & Hd).
  destruct Hm as [_ Hbr].
  unfold torch.masked_fill. rewrite He. simpl shape. rewrite Hbr.
  eexists. split; [reflexivity|]. split; [reflexivity|].
  intros n h q k Hin.
  rewrite getR_build by exact Hin.
  rewrite (bindex4_id _ _ _ _ _ _ _ _ Hin).
  unfold Spec.masked_score. rewrite Hs, bindex4.
  unfold torch.eq0. rewrite Hs.
  apply in_range4_inv in Hin as (Hn & Hh & Hq & Hk).
  rewrite getB_build.
  - reflexivity.
  - apply in_range4; eapply bi_lt; eassumption.
Qed.

Lemma weights_spec {A} {DA : Dtype A} (self : SelfAttention.t) (e : Tensor R)
    (mask : option (Tensor A)) (N H Q K : nat) :
  shape e = [N; H; Q; K] ->
  mask_fits mask [N; H; Q; K] ->
  exists w, SelfAttention.weights self e mask = Py.ret w /\
    shape w = [N; H; Q; K] /\
    forall n h q k, in_range [N; H; Q; K] [n; h; q; k] ->
      getR w [n; h; q; k]
      = Spec.attention_weight (SelfAttention.embed_size self) e mask K n h q k.
Proof.
  intros He Hm.
  assert (Hfill : exists e',
    match mask with
    | Some m => torch.masked_fill e (torch.eq0 m) sentinel
    | None => Py.ret e
    end = Py.ret e' /\ shape e' = [N; H; Q; K] /\
    forall n h q k, in_range [N; H; Q; K] [n; h; q; k] ->
      getR e' [n; h; q; k] = Spec.masked_score e mask n h q k).
  { destruct mask as [m|].
    - now apply masked_fill_eq0.
    - exists e. repeat split; auto. }
  destruct Hfill as (e' & Hfill & Hs' & Hv').
  unfold SelfAttention.weights. rewrite Hfill, bind_ret_l.
  unfold torch.softmax. simpl shape. rewrite Hs'. simpl.
  eexists. split; [reflexivity|]. split; [reflexivity|].
  intros n h q k Hin.
  rewrite getR_build by exact Hin.
  unfold Spec.attention_weight, Spec.softmax_weight.
  unfold torch.div_scalar. rewrite Hs'.
  rewrite getR_build by exact Hin. rewrite Hv' by exact Hin.
  f_equal. apply sum_n_ext. intros j Hj.
  assert (Hin' : in_range [N; H; Q; K] [n; h; q; j]).
  { apply in_range4_inv in Hin as (? & ? & ? & ?). now apply in_range4. }
  change (torch.set_dim 3 j [n; h; q; k]) with [n; h; q; j].
  rewrite getR_build by exact Hin'. now rewrite Hv'.
Qed.

(** ** Construction of the attention module *)

Lemma init_inv (theta : StateDict) (name : string) (E H : nat) (self : SelfAttention.t) :
  SelfAttention.init theta name E H = Py.ret self ->
  SelfAttention_wf self
  /\ SelfAttention.embed_size self = E
  /\ SelfAttention.heads self = H
  /\ SelfAttention.head_dim self = (E / H)%nat.
Proof.
  unfold SelfAttention.init.
  destruct (Nat.eqb_spec H 0) as [|Hnz]; [discriminate|]. simpl.
  destruct (Nat.eqb_spec (E / H * H) E) as [Hdiv|]; [|discriminate].
  intros [= <-]. unfold SelfAttention_wf. simpl. repeat split; auto.
Qed.

(** ** Shapes through [SelfAttention.forward] *)

Lemma Linear_forward_shape (l : nn.Linear) (x : Tensor R) (pre : list nat) (d : nat) :
  shape x = pre ++ [d] ->
  nn.in_features l = d ->
  exists y, nn.Linear_forward l x = Py.ret y
    /\ shape y = pre ++ [nn.out_features l].
Proof.
  intros Hs Hin. unfold nn.Linear_forward. rewrite Hs.
  rewrite last_last, removelast_last, Hin, Nat.eqb_refl.
  destruct pre; simpl; eexists; split; reflexivity.
Qed.

Lemma reshape_ok {A} (x : Tensor A) (s : list nat) :
  numel (shape x) = numel s ->
  reshape x s = Py.ret (mkTensor s (data x)).
Proof. intros H. unfold reshape. rewrite H, Nat.eqb_refl. reflexivity. Qed.

Lemma reshape_fails {A} (x : Tensor A) (s : list nat) :
  numel (shape x) <> numel s ->
  reshape x s = Py.raise Py.RuntimeError.
Proof.
  intros H. unfold reshape.
  destruct (Nat.eqb_spec (numel (shape x)) (numel s)); [contradiction | reflexivity].
Qed.

Lemma numel_split (N L H D E : nat) :
  (D * H = E)%nat -> numel [N; L; E] = numel [N; L; H; D].
Proof. intros <-. simpl. ring. Qed.

Lemma size_ok {A} (x : Tensor A) (i n : nat) :
  nth_error (shape x) i = Some n -> torch.size x i = Py.ret n.
Proof. intros H. unfold torch.size. now rewrite H. Qed.

(** Lines 19 to 31 succeed on tensors of the contracted shapes. *)
Lemma scores_ok (self : SelfAttention.t) (v k q : Tensor R) (N Lv Lk Lq : nat) :
  SelfAttention_wf self ->
  shape v = [N; Lv; SelfAttention.embed_size self] ->
  shape k = [N; Lk; SelfAttention.embed_size self] ->
  shape q = [N; Lq; SelfAttention.embed_size self] ->
  exists s, SelfAttention.scores self v k q = Py.ret s
    /\ SelfAttention.N s = N
    /\ SelfAttention.query_len s = Lq
    /\ shape (SelfAttention.projected_values s)
       = [N; Lv; SelfAttention.heads self; SelfAttention.head_dim self]
    /\ shape (SelfAttention.energy s) = [N; SelfAttention.heads self; Lq; Lk].
Proof.
  intros (Hdiv & Hvi & Hvo & Hki & Hko & Hqi & Hqo & _) Hv Hk Hq.
  unfold SelfAttention.scores.
  rewrite (size_ok q 0 N) by (rewrite Hq; reflexivity). rewrite bind_ret_l.
  rewrite (size_ok v 1 Lv) by (rewrite Hv; reflexivity). rewrite bind_ret_l.
  rewrite (size_ok k 1 Lk) by (rewrite Hk; reflexivity). rewrite bind_ret_l.
  rewrite (size_ok q 1 Lq) by (rewrite Hq; reflexivity). rewrite bind_ret_l.
  rewrite (reshape_ok v) by (rewrite Hv; now apply numel_split). rewrite bind_ret_l.
  rewrite (reshape_ok k) by (rewrite Hk; now apply numel_split). rewrite bind_ret_l.
  rewrite (reshape_ok q) by (rewrite Hq; now apply numel_split). rewrite bind_ret_l.
  set (H := SelfAttention.heads self) in *.
  set (D := SelfAttention.head_dim self) in *.
  destruct (Linear_forward_shape (SelfAttention.values self)
              (mkTensor [N; Lv; H; D] (data v)) [N; Lv; H] D eq_refl Hvi)
    as (pv & -> & Hpv).
  rewrite bind_ret_l.
  destruct (Linear_forward_shape (SelfAttention.keys self)
              (mkTensor [N; Lk; H; D] (data k)) [N; Lk; H] D eq_refl Hki)
    as (pk & -> & Hpk).
  rewrite bind_ret_l.
  destruct (Linear_forward_shape (SelfAttention.queries self)
              (mkTensor [N; Lq; H; D] (data q)) [N; Lq; H] D eq_refl Hqi)
    as (pq & -> & Hpq).
  rewrite bind_ret_l.
  unfold torch.einsum_nqhd_nkhd_nhqk.
  rewrite Hpq, Hpk, Hqo, Hko. simpl app. cbv beta iota. rewrite !bdim_refl.
  rewrite bind_ret_l.
  eexists. split; [reflexivity|]. simpl.
  rewrite Hpv, Hvo. repeat split; reflexivity.
Qed.

(** The attention weights of a call on tensors of the contracted shapes:
    the raw scores exist, and every weight is the scaled, masked softmax of
    the specification. *)
Lemma attention_spec {A} {DA : Dtype A} (self : SelfAttention.t) (v k q : Tensor R)
    (mask : option (Tensor A)) (N Lv Lk Lq : nat) :
  SelfAttention_wf self ->
  shape v = [N; Lv; SelfAttention.embed_size self] ->
  shape k = [N; Lk; SelfAttention.embed_size self] ->
  shape q = [N; Lq; SelfAttention.embed_size self] ->
  mask_fits mask [N; SelfAttention.heads self; Lq; Lk] ->
  exists s w,
    SelfAttention.scores self v k q = Py.ret s
    /\ shape (SelfAttention.energy s) = [N; SelfAttention.heads self; Lq; Lk]
    /\ SelfAttention.attention self v k q mask = Py.ret w
    /\ shape w = [N; SelfAttention.heads self; Lq; Lk]
    /\ forall n h qi ki,
         in_range [N; SelfAttention.heads self; Lq; Lk] [n; h; qi; ki] ->
         getR w [n; h; qi; ki]
         = Spec.attention_weight (SelfAttention.embed_size self)
             (SelfAttention.energy s) mask Lk n h qi ki.
Proof.
  intros Hwf Hv Hk Hq Hm.
  destruct (scores_ok self v k q N Lv Lk Lq Hwf Hv Hk Hq) as (s & Hs & _ & _ & _ & He).
  destruct (weights_spec self _ mask _ _ _ _ He Hm) as (w & Hw & Hsw & Hval).
  exists s, w. unfold SelfAttention.attention.
  rewrite Hs, bind_ret_l. auto.
Qed.

(** ** Softmax arithmetic *)

Section Softmax.
Variables (K : nat) (x : nat -> R).

Let total := sum_n K (fun j => exp (x j)).

Lemma softmax_denominator_pos : (0 < K)%nat -> 0 < total.
Proof. intros HK. apply sum_n_pos; [exact HK | intros; apply exp_pos]. Qed.

Lemma softmax_sums_to_one :
  (0 < K)%nat -> sum_n K (fun k => exp (x k) / total) = 1.
Proof.
  intros HK. rewrite sum_n_div. fold total.
  pose proof (softmax_denominator_pos HK). now field_simplify_eq; [|lra].
Qed.

Lemma softmax_weight_pos (k : nat) : (0 < K)%nat -> 0 < exp (x k) / total.
Proof.
  intros HK. apply Rdiv_lt_0_compat; [apply exp_pos | now apply softmax_denominator_pos].
Qed.

(** A weight is at most the exponential of the distance of its score to
    any other score of the row. *)
Lemma softmax_weight_le (k j : nat) :
  (j < K)%nat -> exp (x k) / total <= exp (x k - x j).
Proof.
  intros Hj.
  assert (HZ : exp (x j) <= total).
  { unfold total. apply (sum_n_ge_term K j (fun i => exp (x i))); [|exact Hj].
    intros i. left. apply exp_pos. }
  pose proof (exp_pos (x j)) as Hpj. pose proof (exp_pos (x k)) as Hpk.
  unfold Rminus. rewrite exp_plus, exp_Ropp.
  unfold Rdiv. apply Rmult_le_compat_l; [lra|].
  apply Rinv_le_contravar; assumption.
Qed.

(** All scores equal: the weights are uniform. *)
Lemma softmax_uniform (c : R) (k : nat) :
  (0 < K)%nat -> (forall j, (j < K)%nat -> x j = c) -> (k < K)%nat ->
  exp (x k) / total = / INR K.
Proof.
  intros HK Hc Hk. unfold total.
  rewrite (sum_n_ext K _ (fun _ => exp c)) by (intros j Hj; now rewrite Hc).
  rewrite sum_n_const, (Hc k Hk).
  pose proof (exp_pos c). assert (0 < INR K) by (apply lt_0_INR; lia).
  field. split; lra.
Qed.

End Softmax.

(** ** The concrete instances *)

Lemma example_attention_init :
  SelfAttention.init example_theta "" 1 1 = Py.ret example_attention.
Proof. reflexivity. Qed.

Lemma example_transformer_init :
  Transformer.init example_theta 3 3 0 0 1 0 4 1 0 10 = Py.ret example_transformer.
Proof.
  unfold Transformer.init, Encoder.init, Decoder.init.
  rewrite (Dropout_init_valid 0) by lra. reflexivity.
Qed.

Lemma example_attention_wf : SelfAttention_wf example_attention.
Proof. unfold SelfAttention_wf. simpl. repeat split; reflexivity. Defined.

(** ** Scaling and softmax (C3, C4) *)

(** C3.  For every call of the attention module on value, key and query
    tensors of shapes [N, value_len, E], [N, key_len, E], [N, query_len, E]
    and a mask that broadcasts to the scores (or no mask), the attention
    weights are the softmax, along the key axis (the last of
    [N, H, query_len, key_len]), of the masked scores divided by the square
    root of the embed size [E]. *)
Theorem attention_scaled_by_sqrt_embed_size {A} {DA : Dtype A}
    (self : SelfAttention.t) (v k q : Tensor R) (mask : option (Tensor A))
    (N Lv Lk Lq : nat) :
  SelfAttention_wf self ->
  shape v = [N; Lv; SelfAttention.embed_size self] ->
  shape k = [N; Lk; SelfAttention.embed_size self] ->
  shape q = [N; Lq; SelfAttention.embed_size self] ->
  mask_fits mask [N; SelfAttention.heads self; Lq; Lk] ->
  exists s w,
    SelfAttention.scores self v k q = Py.ret s
    /\ SelfAttention.attention self v k q mask = Py.ret w
    /\ shape w = [N; SelfAttention.heads self; Lq; Lk]
    /\ forall n h qi ki,
         (n < N)%nat -> (h < SelfAttention.heads self)%nat ->
         (qi < Lq)%nat -> (ki < Lk)%nat ->
         getR w [n; h; qi; ki]
         = exp (Spec.masked_score (SelfAttention.energy s) mask n h qi ki
                / sqrt (INR (SelfAttention.embed_size self)))
           / sum_n Lk (fun j =>
               exp (Spec.masked_score (SelfAttention.energy s) mask n h qi j
                    / sqrt (INR (SelfAttention.embed_size self)))).
Proof.
  intros Hwf Hv Hk Hq Hm.
  destruct (attention_spec self v k q mask N Lv Lk Lq Hwf Hv Hk Hq Hm)
    as (s & w & Hs & _ & Hw & Hsw & Hval).
  exists s, w. repeat split; try assumption.
  intros n h qi ki Hn Hh Hqi Hki.
  rewrite Hval by now apply in_range4. reflexivity.
Qed.

Lemma attention_scaled_by_sqrt_embed_size_witness :
  exists s w,
    SelfAttention.scores example_attention example_y example_y example_query = Py.ret s
    /\ SelfAttention.attention example_attention example_y example_y example_query
         (@None (Tensor bool)) = Py.ret w
    /\ shape w = [1; 1; 1; 2]%nat
    /\ forall n h qi ki,
         (n < 1)%nat -> (h < 1)%nat -> (qi < 1)%nat -> (ki < 2)%nat ->
         getR w [n; h; qi; ki]
         = exp (Spec.masked_score (SelfAttention.energy s) (@None (Tensor bool)) n h qi ki
                / sqrt (INR 1))
           / sum_n 2 (fun j =>
               exp (Spec.masked_score (SelfAttention.energy s) (@None (Tensor bool)) n h qi j
                    / sqrt (INR 1))).
Proof.
  apply (@attention_scaled_by_sqrt_embed_size bool _ example_attention
           example_y example_y example_query None 1 2 2 1).
  - exact example_attention_wf.
  - reflexivity.
  - reflexivity.
  - reflexivity.
  - exact I.
Defined.

(** C4.  For every such call, every batch entry, head and query position,
    the attention weights over a non-empty key axis sum to 1; this covers
    every row with a key that the mask allows. *)
Theorem attention_rows_sum_to_one {A} {DA : Dtype A}
    (self : SelfAttention.t) (v k q : Tensor R) (mask : option (Tensor A))
    (N Lv Lk Lq n h qi : nat) :
  SelfAttention_wf self ->
  shape v = [N; Lv; SelfAttention.embed_size self] ->
  shape k = [N; Lk; SelfAttention.embed_size self] ->
  shape q = [N; Lq; SelfAttention.embed_size self] ->
  mask_fits mask [N; SelfAttention.heads self; Lq; Lk] ->
  (n < N)%nat -> (h < SelfAttention.heads self)%nat -> (qi < Lq)%nat ->
  (0 < Lk)%nat ->
  exists w,
    SelfAttention.attention self v k q mask = Py.ret w
    /\ sum_n Lk (fun ki => getR w [n; h; qi; ki]) = 1.
Proof.
  intros Hwf Hv Hk Hq Hm Hn Hh Hqi HLk.
  destruct (attention_spec self v k q mask N Lv Lk Lq Hwf Hv Hk Hq Hm)
    as (s & w & _ & _ & Hw & _ & Hval).
  exists w. split; [exact Hw|].
  rewrite (sum_n_ext Lk _ (fun ki =>
             Spec.attention_weight (SelfAttention.embed_size self)
               (SelfAttention.energy s) mask Lk n h qi ki)).
  - unfold Spec.attention_weight, Spec.softmax_weight.
    now apply softmax_sums_to_one.
  - intros ki Hki. apply Hval. now apply in_range4.
Qed.

Lemma attention_rows_sum_to_one_witness :
  exists w,
    SelfAttention.attention example_attention example_y example_y example_query
      (@None (Tensor bool)) = Py.ret w
    /\ sum_n 2 (fun ki => getR w [0; 0; 0; ki]%nat) = 1.
Proof.
  apply (@attention_rows_sum_to_one bool _ example_attention
           example_y example_y example_query None 1 2 2 1 0 0 0).
  - exact example_attention_wf.
  - reflexivity.
  - reflexivity.
  - reflexivity.
  - exact I.
  - lia.
  - simpl; lia.
  - lia.
  - lia.
Defined.

(** The scale of C3 is not the square root of the head dimension: with
    embed size 4 and four heads of dimension 1, the weights of the scores
    [0, 2] are those of [0, 1], not those of [0, 2]. *)
Lemma scaling_by_head_dim_differs :
  SelfAttention.init example_theta "" 4 4 = Py.ret example_four_heads
  /\ exists w,
       SelfAttention.weights example_four_heads example_energy4 (@None (Tensor bool))
       = Py.ret w
       /\ getR w [0; 0; 0; 0]%nat = 1 / (1 + exp 1)
       /\ Spec.softmax_weight (sqrt (INR (SelfAttention.head_dim example_four_heads)))
            example_energy4 (@None (Tensor bool)) 2 0 0 0 0 = 1 / (1 + exp 2)
       /\ 1 / (1 + exp 1) <> 1 / (1 + exp 2).
Proof.
  split; [reflexivity|].
  destruct (weights_spec example_four_heads example_energy4 (@None (Tensor bool))
              1 4 1 2 eq_refl I) as (w & Hw & _ & Hval).
  exists w. split; [exact Hw|].
  assert (Hsqrt4 : sqrt (INR 4) = 2).
  { replace (INR 4) with (2 * 2) by (simpl; ring). apply sqrt_square. lra. }
  pose proof (exp_pos 1) as He1. pose proof (exp_pos 2) as He2.
  split; [|split].
  - rewrite Hval by (apply in_range4; lia).
    unfold Spec.attention_weight, Spec.softmax_weight.
    cbv [sum_n seq map Rsum fold_right Spec.masked_score].
    change (getR example_energy4 [0; 0; 0; 0]%nat) with 0.
    change (getR example_energy4 [0; 0; 0; 1]%nat) with 2.
    change (SelfAttention.embed_size example_four_heads) with 4%nat.
    rewrite Hsqrt4.
    replace (0 / 2) with 0 by lra. replace (2 / 2) with 1 by lra.
    rewrite exp_0. f_equal. ring.
  - unfold Spec.softmax_weight.
    cbv [sum_n seq map Rsum fold_right Spec.masked_score].
    change (getR example_energy4 [0; 0; 0; 0]%nat) with 0.
    change (getR example_energy4 [0; 0; 0; 1]%nat) with 2.
    change (INR (SelfAttention.head_dim example_four_heads)) with 1.
    rewrite sqrt_1, !Rdiv_1_r, exp_0. f_equal. ring.
  - intros Heq.
    assert (H12 : exp 1 = exp 2).
    { apply (f_equal (fun t => 1 / t - 1)) in Heq.
      field_simplify in Heq; lra. }
    apply exp_inv in H12. lra.
Qed.

(** ** The mask builders *)

Lemma bdim_one_r (x : nat) : bdim x 1 = Some x.
Proof.
  unfold bdim. destruct (Nat.eqb_spec x 1) as [->|]; reflexivity.
Qed.

Lemma make_trg_mask_spec (self : Transformer.t) (trg : Tensor Z) (N T : nat) :
  shape trg = [N; T] ->
  exists m, Transformer.make_trg_mask self trg = Py.ret m
    /\ shape m = [N; 1; T; T]%nat
    /\ forall n q k, (n < N)%nat -> (q < T)%nat -> (k < T)%nat ->
         getR m [n; 0; q; k]%nat = if (k <=? q)%nat then 1 else 0.
Proof.
  intros Hs. unfold Transformer.make_trg_mask, torch.unpack2.
  rewrite Hs, bind_ret_l. unfold torch.expand.
  change (shape (torch.tril (torch.ones [T; T]))) with [T; T].
  change (length [T; T] <=? length [N; 1; T; T])%nat with true. cbv iota.
  assert (Hb : broadcast_shapes [T; T] [N; 1; T; T]%nat = Some [N; 1; T; T]%nat).
  { unfold broadcast_shapes. simpl rev. simpl broadcast_rev.
    rewrite !bdim_refl. reflexivity. }
  rewrite Hb.
  destruct (list_eq_dec Nat.eq_dec [N; 1; T; T]%nat [N; 1; T; T]%nat) as [_|Hne];
    [|contradiction].
  eexists. split; [reflexivity|]. split; [reflexivity|].
  intros n q k Hn Hq Hk.
  rewrite getR_build by (apply in_range4; lia).
  change (bindex [T; T] [n; 0; q; k]%nat) with [bi T q; bi T k].
  rewrite !bi_id by assumption.
  change (get dzero ?t ?i) with (getR t i).
  unfold torch.tril. change (shape (torch.ones [T; T])) with [T; T].
  rewrite getR_build by (repeat constructor; assumption).
  simpl rev. cbv iota.
  destruct (k <=? q)%nat; [|reflexivity].
  unfold torch.ones. apply getR_build. repeat constructor; assumption.
Qed.

Lemma make_src_mask_spec (self : Transformer.t) (src : Tensor Z) (N S : nat) :
  shape src = [N; S] ->
  exists m, Transformer.make_src_mask self src = Py.ret m
    /\ shape m = [N; 1; 1; S]%nat
    /\ forall n k, (n < N)%nat -> (k < S)%nat ->
         getB m [n; 0; 0; k]%nat
         = negb (getZ src [n; k] =? Transformer.src_pad_idx self)%Z.
Proof.
  intros Hs. unfold Transformer.make_src_mask, unsqueeze.
  change (shape (torch.ne src (Transformer.src_pad_idx self))) with (shape src).
  rewrite Hs. simpl.
  eexists. split; [reflexivity|]. split; [reflexivity|].
  intros n k Hn Hk.
  unfold getB, get. simpl shape. simpl data. rewrite Hs.
  replace (offset [N; 1; 1; S]%nat [n; 0; 0; k]%nat) with (offset [N; S] [n; k])
    by (simpl; lia).
  rewrite nth_tabulate by (repeat constructor; assumption). reflexivity.
Qed.

Lemma trg_mask_fits (m : Tensor R) (N H T : nat) :
  shape m = [N; 1; T; T]%nat -> mask_fits (Some m) [N; H; T; T].
Proof.
  intros Hs. unfold mask_fits. rewrite Hs. split; [reflexivity|].
  unfold broadcast_shapes. simpl rev. simpl broadcast_rev.
  rewrite !bdim_refl, bdim_one_r. reflexivity.
Qed.

Lemma src_mask_fits (m : Tensor bool) (N H Q S : nat) :
  shape m = [N; 1; 1; S]%nat -> mask_fits (Some m) [N; H; Q; S].
Proof.
  intros Hs. unfold mask_fits. rewrite Hs. split; [reflexivity|].
  unfold broadcast_shapes. simpl rev. simpl broadcast_rev.
  rewrite !bdim_refl, !bdim_one_r. reflexivity.
Qed.

(** What the mask builders mark as forbidden. *)
Lemma trg_mask_masked_at (m : Tensor R) (N T n h q k : nat) :
  shape m = [N; 1; T; T]%nat ->
  (forall n q k, (n < N)%nat -> (q < T)%nat -> (k < T)%nat ->
     getR m [n; 0; q; k]%nat = if (k <=? q)%nat then 1 else 0) ->
  (n < N)%nat -> (q < T)%nat -> (k < T)%nat ->
  Spec.masked_at (Some m) n h q k = negb (k <=? q)%nat.
Proof.
  intros Hs Hval Hn Hq Hk. unfold Spec.masked_at. rewrite Hs, bindex4.
  change (bi 1 h) with 0%nat. rewrite !bi_id by assumption.
  change (get dzero m ?i) with (getR m i). rewrite Hval by assumption.
  simpl. destruct (k <=? q)%nat; destruct (Req_dec_T _ 0); simpl; try reflexivity; lra.
Qed.

Lemma src_mask_masked_at (m : Tensor bool) (N S n h q k : nat) (b : bool) :
  shape m = [N; 1; 1; S]%nat ->
  getB m [n; 0; 0; k]%nat = b ->
  (n < N)%nat -> (k < S)%nat ->
  Spec.masked_at (Some m) n h q k = negb b.
Proof.
  intros Hs Hval Hn Hk. unfold Spec.masked_at. rewrite Hs, bindex4.
  change (bi 1 h) with 0%nat. change (bi 1 q) with 0%nat.
  rewrite !bi_id by assumption.
  change (get dzero m ?i) with (getB m i). now rewrite Hval.
Qed.

Lemma masked_score_masked {A} {DA : Dtype A} (e : Tensor R) (mask : option (Tensor A))
    (n h q k : nat) :
  Spec.masked_at mask n h q k = true ->
  Spec.masked_score e mask n h q k = sentinel.
Proof.
  unfold Spec.masked_at, Spec.masked_score. destruct mask; [|discriminate].
  now intros ->.
Qed.

Lemma masked_score_unmasked {A} {DA : Dtype A} (e : Tensor R) (mask : option (Tensor A))
    (n h q k : nat) :
  Spec.masked_at mask n h q k = false ->
  Spec.masked_score e mask n h q k = getR e [n; h; q; k].
Proof.
  unfold Spec.masked_at, Spec.masked_score. destruct mask; [|reflexivity].
  now intros ->.
Qed.

(** The same facts for the weights of the specification. *)

Lemma attention_weight_pos {A} {DA : Dtype A} (E : nat) (e : Tensor R)
    (mask : option (Tensor A)) (K n h q k : nat) :
  (0 < K)%nat -> 0 < Spec.attention_weight E e mask K n h q k.
Proof.
  intros HK. unfold Spec.attention_weight, Spec.softmax_weight.
  exact (softmax_weight_pos K
           (fun j => Spec.masked_score e mask n h q j / sqrt (INR E)) k HK).
Qed.

Lemma attention_weight_le {A} {DA : Dtype A} (E : nat) (e : Tensor R)
    (mask : option (Tensor A)) (K n h q k j : nat) :
  (j < K)%nat ->
  Spec.attention_weight E e mask K n h q k
  <= exp ((Spec.masked_score e mask n h q k - Spec.masked_score e mask n h q j)
          / sqrt (INR E)).
Proof.
  intros Hj. unfold Spec.attention_weight, Spec.softmax_weight.
  eapply Rle_trans.
  - exact (softmax_weight_le K
             (fun j => Spec.masked_score e mask n h q j / sqrt (INR E)) k j Hj).
  - right. f_equal. unfold Rdiv. ring.
Qed.

Lemma attention_weight_uniform {A} {DA : Dtype A} (E : nat) (e : Tensor R)
    (mask : option (Tensor A)) (K n h q k : nat) :
  (forall j, (j < K)%nat -> Spec.masked_at mask n h q j = true) ->
  (k < K)%nat ->
  Spec.attention_weight E e mask K n h q k = / INR K.
Proof.
  intros Hall Hk. unfold Spec.attention_weight, Spec.softmax_weight.
  apply (softmax_uniform K
           (fun j => Spec.masked_score e mask n h q j / sqrt (INR E))
           (sentinel / sqrt (INR E)) k); [lia | | exact Hk].
  intros j Hj. now rewrite masked_score_masked by auto.
Qed.

(** Evaluation of the model on concrete tensors: the shape computations
    and list traversals are unfolded, real arithmetic is left alone. *)
Ltac eval_model_in H :=
  cbv [SelfAttention.scores SelfAttention.weights SelfAttention.attention
       SelfAttention.forward
       SelfAttention.values SelfAttention.keys SelfAttention.queries
       SelfAttention.fc_out SelfAttention.heads SelfAttention.head_dim
       SelfAttention.embed_size SelfAttention.energy
       SelfAttention.projected_values SelfAttention.N SelfAttention.query_len
       example_attention example_x example_y example_query example_theta
       torch.size torch.einsum_nqhd_nkhd_nhqk torch.einsum_nhql_nlhd_nqhd
       nn.Linear_forward nn.Linear_init nn.in_features nn.out_features
       nn.weight nn.bias
       Py.bind Py.ret Py.raise reshape bdim bi sub
       getR get build shape data tabulate offset numel
       nth_error nth fold_right flat_map seq map app fst snd last removelast
       sum_n Rsum Nat.mul Nat.add Nat.eqb
       String.eqb Ascii.eqb Bool.eqb String.append] in H.

(** ** Causality (C1) *)

(** C1, as the code has it.  [make_trg_mask] returns the lower-triangular
    ones matrix of shape [trg_len, trg_len] broadcast to
    [N, 1, trg_len, trg_len].  In decoder self-attention the score at
    [(q, k)] with [k > q] is replaced by the sentinel [-1e20] before scaling
    and softmax: the weights are the softmax of the filled scores [e']
    divided by [sqrt E], and the weight at [(q, k)] is at most
    [exp ((-1e20 - s) / sqrt E)], where [s] is the raw score at the diagonal
    [(q, q)] of the same row. *)
Theorem causal_mask_bounds_future_weights
    (tr : Transformer.t) (self : SelfAttention.t) (trg : Tensor Z) (x : Tensor R)
    (N T : nat) :
  SelfAttention_wf self ->
  shape trg = [N; T] ->
  shape x = [N; T; SelfAttention.embed_size self] ->
  exists mask s e' w,
    Transformer.make_trg_mask tr trg = Py.ret mask
    /\ shape mask = [N; 1; T; T]%nat
    /\ (forall n q k, (n < N)%nat -> (q < T)%nat -> (k < T)%nat ->
          getR mask [n; 0; q; k]%nat = if (k <=? q)%nat then 1 else 0)
    /\ SelfAttention.scores self x x x = Py.ret s
    /\ torch.masked_fill (SelfAttention.energy s) (torch.eq0 mask) sentinel = Py.ret e'
    /\ torch.softmax
         (torch.div_scalar e' (sqrt (INR (SelfAttention.embed_size self)))) 3
       = Py.ret w
    /\ SelfAttention.attention self x x x (Some mask) = Py.ret w
    /\ forall n h q k,
         (n < N)%nat -> (h < SelfAttention.heads self)%nat ->
         (q < T)%nat -> (k < T)%nat -> (q < k)%nat ->
         getR e' [n; h; q; k] = - 10 ^ 20
         /\ getR w [n; h; q; k]
            <= exp ((- 10 ^ 20 - getR (SelfAttention.energy s) [n; h; q; q])
                    / sqrt (INR (SelfAttention.embed_size self))).
Proof.
  intros Hwf Htrg Hx.
  destruct (make_trg_mask_spec tr trg N T Htrg) as (mask & Hmask & Hsm & Hmv).
  pose proof (trg_mask_fits mask N (SelfAttention.heads self) T Hsm) as Hfit.
  destruct (attention_spec self x x x (Some mask) N T T T Hwf Hx Hx Hx Hfit)
    as (s & w & Hs & He & Hw & _ & Hval).
  destruct (masked_fill_eq0 (SelfAttention.energy s) mask _ _ _ _ He Hfit)
    as (e' & He' & _ & Hv').
  assert (Hsoft : torch.softmax
                    (torch.div_scalar e' (sqrt (INR (SelfAttention.embed_size self)))) 3
                  = Py.ret w).
  { pose proof Hw as Hw'. unfold SelfAttention.attention in Hw'.
    rewrite Hs, bind_ret_l in Hw'. unfold SelfAttention.weights in Hw'.
    now rewrite He', bind_ret_l in Hw'. }
  exists mask, s, e', w.
  do 7 (split; [assumption|]).
  intros n h q k Hn Hh Hq Hk Hqk.
  assert (Hfuture : Spec.masked_at (Some mask) n h q k = true).
  { rewrite (trg_mask_masked_at mask N T n h q k Hsm Hmv) by assumption.
    destruct (Nat.leb_spec k q); [lia | reflexivity]. }
  assert (Hdiag : Spec.masked_at (Some mask) n h q q = false).
  { rewrite (trg_mask_masked_at mask N T n h q q Hsm Hmv) by assumption.
    now rewrite Nat.leb_refl. }
  split.
  - rewrite Hv' by now apply in_range4.
    now apply (masked_score_masked _ (Some mask)).
  - rewrite Hval by now apply in_range4.
    eapply Rle_trans; [apply (attention_weight_le _ _ _ T n h q k q); assumption|].
    right. f_equal. f_equal.
    rewrite (masked_score_masked _ (Some mask) n h q k Hfuture).
    now rewrite (masked_score_unmasked _ (Some mask) n h q q Hdiag).
Qed.

Lemma causal_mask_bounds_future_weights_witness :
  exists mask s e' w,
    Transformer.make_trg_mask example_transformer example_trg = Py.ret mask
    /\ shape mask = [1; 1; 2; 2]%nat
    /\ (forall n q k, (n < 1)%nat -> (q < 2)%nat -> (k < 2)%nat ->
          getR mask [n; 0; q; k]%nat = if (k <=? q)%nat then 1 else 0)
    /\ SelfAttention.scores example_attention example_x example_x example_x = Py.ret s
    /\ torch.masked_fill (SelfAttention.energy s) (torch.eq0 mask) sentinel = Py.ret e'
    /\ torch.softmax (torch.div_scalar e' (sqrt (INR 1))) 3 = Py.ret w
    /\ SelfAttention.attention example_attention example_x example_x example_x
         (Some mask) = Py.ret w
    /\ forall n h q k,
         (n < 1)%nat -> (h < 1)%nat -> (q < 2)%nat -> (k < 2)%nat -> (q < k)%nat ->
         getR e' [n; h; q; k] = - 10 ^ 20
         /\ getR w [n; h; q; k]
            <= exp ((- 10 ^ 20 - getR (SelfAttention.energy s) [n; h; q; q])
                    / sqrt (INR 1)).
Proof.
  apply (causal_mask_bounds_future_weights example_transformer example_attention
           example_trg example_x 1 2).
  - exact example_attention_wf.
  - reflexivity.
  - reflexivity.
Defined.

Lemma example_energy_00 (s : SelfAttention.Scores) :
  SelfAttention.scores example_attention example_x example_x example_x = Py.ret s ->
  getR (SelfAttention.energy s) [0; 0; 0; 0]%nat = - (big * big).
Proof.
  intros H. eval_model_in H. injection H as <-.
  cbv [SelfAttention.energy getR get build shape data tabulate offset numel
       fold_right flat_map seq app nth sum_n map Rsum bi Nat.mul Nat.add Nat.eqb
       removelast last].
  ring.
Qed.

Lemma big_square_below_sentinel : - (big * big) <= sentinel.
Proof. unfold big, sentinel. lra. Qed.

(** C1 as stated fails.  One sentence of two positions whose first raw
    score is [-4e20]: the future position [(q, k) = (0, 1)] receives at
    least half of the attention of row 0, not 0. *)
Lemma future_weight_not_zero :
  exists mask w,
    Transformer.make_trg_mask example_transformer example_trg = Py.ret mask
    /\ SelfAttention.attention example_attention example_x example_x example_x
         (Some mask) = Py.ret w
    /\ / 2 <= getR w [0; 0; 0; 1]%nat
    /\ getR w [0; 0; 0; 1]%nat <> 0.
Proof.
  destruct (make_trg_mask_spec example_transformer example_trg 1 2 eq_refl)
    as (mask & Hmask & Hsm & Hmv).
  destruct (attention_spec example_attention example_x example_x example_x
              (Some mask) 1 2 2 2 example_attention_wf eq_refl eq_refl eq_refl
              (trg_mask_fits mask 1 _ 2 Hsm))
    as (s & w & Hs & _ & Hw & _ & Hval).
  exists mask, w. split; [exact Hmask|]. split; [exact Hw|].
  assert (Hhalf : / 2 <= getR w [0; 0; 0; 1]%nat).
  { rewrite Hval by (apply in_range4; simpl; lia).
    unfold Spec.attention_weight, Spec.softmax_weight.
    cbv [sum_n seq map Rsum fold_right].
    rewrite (masked_score_masked _ (Some mask) 0 0 0 1)
      by (rewrite (trg_mask_masked_at mask 1 2 0 0 0 1 Hsm Hmv) by lia; reflexivity).
    rewrite (masked_score_unmasked _ (Some mask) 0 0 0 0)
      by (rewrite (trg_mask_masked_at mask 1 2 0 0 0 0 Hsm Hmv) by lia; reflexivity).
    rewrite (example_energy_00 s Hs).
    set (c := sqrt (INR (SelfAttention.embed_size example_attention))).
    assert (Hc : c = 1) by (unfold c; simpl; apply sqrt_1).
    rewrite Hc, !Rdiv_1_r.
    pose proof (exp_pos sentinel) as Hp.
    assert (Hle : exp (- (big * big)) <= exp sentinel).
    { destruct big_square_below_sentinel as [Hlt | Heq].
      - left. now apply exp_increasing.
      - rewrite Heq. lra. }
    apply (Rmult_le_reg_r (exp (- (big * big)) + (exp sentinel + 0))).
    - pose proof (exp_pos (- (big * big))). lra.
    - unfold Rdiv. rewrite Rmult_assoc, Rinv_l.
      + lra.
      + pose proof (exp_pos (- (big * big))). lra. }
  split; [exact Hhalf | lra].
Qed.

(** ** The target mask ignores the tokens (C10) *)

(** C10.  The target mask depends on the shape of the target batch only:
    every model (whatever its target padding index) and every batch of the
    same shape [N, trg_len] get the same mask; and under that mask every
    key position [k <= q] stays allowed, whatever token it holds, the
    padding token included. *)
Theorem trg_mask_ignores_tokens_and_padding
    (tr : Transformer.t) (trg : Tensor Z) (N T : nat) :
  shape trg = [N; T] ->
  exists mask,
    Transformer.make_trg_mask tr trg = Py.ret mask
    /\ (forall tr' trg', shape trg' = [N; T] ->
          Transformer.make_trg_mask tr' trg' = Py.ret mask)
    /\ (forall n h q k, (n < N)%nat -> (q < T)%nat -> (k <= q)%nat ->
          Spec.masked_at (Some mask) n h q k = false).
Proof.
  intros Hs.
  destruct (make_trg_mask_spec tr trg N T Hs) as (mask & Hmask & Hsm & Hmv).
  exists mask. split; [exact Hmask|]. split.
  - intros tr' trg' Hs'. rewrite <- Hmask.
    unfold Transformer.make_trg_mask, torch.unpack2. now rewrite Hs, Hs'.
  - intros n h q k Hn Hq Hk.
    rewrite (trg_mask_masked_at mask N T n h q k Hsm Hmv) by lia.
    destruct (Nat.leb_spec k q); [reflexivity | lia].
Qed.

Lemma trg_mask_ignores_tokens_and_padding_witness :
  exists mask,
    Transformer.make_trg_mask example_transformer example_padded = Py.ret mask
    /\ (forall tr' trg', shape trg' = [1; 2]%nat ->
          Transformer.make_trg_mask tr' trg' = Py.ret mask)
    /\ (forall n h q k, (n < 1)%nat -> (q < 2)%nat -> (k <= q)%nat ->
          Spec.masked_at (Some mask) n h q k = false).
Proof.
  apply (trg_mask_ignores_tokens_and_padding example_transformer example_padded 1 2).
  reflexivity.
Defined.

(** ** The whole attention call *)

Lemma forward_ok {A} {DA : Dtype A} (self : SelfAttention.t) (v k q : Tensor R)
    (mask : option (Tensor A)) (N Lv Lk Lq L : nat) :
  SelfAttention_wf self ->
  shape v = [N; Lv; SelfAttention.embed_size self] ->
  shape k = [N; Lk; SelfAttention.embed_size self] ->
  shape q = [N; Lq; SelfAttention.embed_size self] ->
  mask_fits mask [N; SelfAttention.heads self; Lq; Lk] ->
  bdim Lk Lv = Some L ->
  exists out, SelfAttention.forward self v k q mask = Py.ret out
    /\ shape out = [N; Lq; SelfAttention.embed_size self].
Proof.
  intros Hwf Hv Hk Hq Hm HL.
  destruct (scores_ok self v k q N Lv Lk Lq Hwf Hv Hk Hq)
    as (s & Hs & HN & HQ & Hpv & He).
  destruct (weights_spec self _ mask _ _ _ _ He Hm) as (w & Hw & Hsw & _).
  destruct Hwf as (Hdiv & _ & _ & _ & _ & _ & _ & Hfi & Hfo).
  unfold SelfAttention.forward.
  rewrite Hs, bind_ret_l, Hw, bind_ret_l.
  unfold torch.einsum_nhql_nlhd_nqhd. rewrite Hsw, Hpv. cbv beta iota.
  rewrite !bdim_refl, HL, bind_ret_l, HN, HQ.
  rewrite reshape_ok by (simpl; ring). rewrite bind_ret_l.
  match goal with
  | |- context [nn.Linear_forward ?l ?t] =>
      destruct (Linear_forward_shape l t [N; Lq] _ eq_refl Hfi) as (out & Hout & Hso)
  end.
  exists out. split; [exact Hout|]. rewrite Hso, Hfo. reflexivity.
Qed.

(** ** Masked positions (C5) *)

(** C5, as the code has it.  When a mask is supplied, every score whose
    mask entry is 0 is set to the finite sentinel [-1e20] before scaling
    and softmax, and its weight is at most [exp ((-1e20 - s) / sqrt E)] for
    every raw score [s] of an allowed key of the same row. *)
Theorem masked_scores_get_sentinel {A} {DA : Dtype A}
    (self : SelfAttention.t) (v k q : Tensor R) (m : Tensor A)
    (N Lv Lk Lq : nat) :
  SelfAttention_wf self ->
  shape v = [N; Lv; SelfAttention.embed_size self] ->
  shape k = [N; Lk; SelfAttention.embed_size self] ->
  shape q = [N; Lq; SelfAttention.embed_size self] ->
  mask_fits (Some m) [N; SelfAttention.heads self; Lq; Lk] ->
  exists s e' w,
    SelfAttention.scores self v k q = Py.ret s
    /\ torch.masked_fill (SelfAttention.energy s) (torch.eq0 m) sentinel = Py.ret e'
    /\ SelfAttention.attention self v k q (Some m) = Py.ret w
    /\ forall n h qi ki,
         (n < N)%nat -> (h < SelfAttention.heads self)%nat ->
         (qi < Lq)%nat -> (ki < Lk)%nat ->
         is_zero (get dzero m (bindex (shape m) [n; h; qi; ki])) = true ->
         getR e' [n; h; qi; ki] = - 10 ^ 20
         /\ forall kj, (kj < Lk)%nat ->
              is_zero (get dzero m (bindex (shape m) [n; h; qi; kj])) = false ->
              getR w [n; h; qi; ki]
              <= exp ((- 10 ^ 20 - getR (SelfAttention.energy s) [n; h; qi; kj])
                      / sqrt (INR (SelfAttention.embed_size self))).
Proof.
  intros Hwf Hv Hk Hq Hm.
  destruct (attention_spec self v k q (Some m) N Lv Lk Lq Hwf Hv Hk Hq Hm)
    as (s & w & Hs & He & Hw & _ & Hval).
  destruct (masked_fill_eq0 (SelfAttention.energy s) m _ _ _ _ He Hm)
    as (e' & He' & _ & Hv').
  exists s, e', w. repeat split; try assumption.
  - rewrite Hv' by now apply in_range4.
    now apply (masked_score_masked _ (Some m)).
  - intros kj Hkj Hfree.
    rewrite Hval by now apply in_range4.
    eapply Rle_trans; [apply (attention_weight_le _ _ _ Lk n h qi ki kj); assumption|].
    right. f_equal. f_equal.
    rewrite (masked_score_masked _ (Some m) n h qi ki) by assumption.
    rewrite (masked_score_unmasked _ (Some m) n h qi kj) by assumption.
    reflexivity.
Qed.

(** ** Fully masked rows (C8) *)

(** C8, as the code has it.  When every key of a query position is
    forbidden (value and key sequences of one length, as in self- and
    cross-attention), the row of attention weights is uniform,
    [1 / key_len] each; the call returns normally: it raises nothing and
    emits no warning. *)
Theorem fully_masked_row_is_uniform_and_silent {A} {DA : Dtype A}
    (self : SelfAttention.t) (v k q : Tensor R) (mask : option (Tensor A))
    (N L Lq n h qi : nat) :
  SelfAttention_wf self ->
  shape v = [N; L; SelfAttention.embed_size self] ->
  shape k = [N; L; SelfAttention.embed_size self] ->
  shape q = [N; Lq; SelfAttention.embed_size self] ->
  mask_fits mask [N; SelfAttention.heads self; Lq; L] ->
  (n < N)%nat -> (h < SelfAttention.heads self)%nat -> (qi < Lq)%nat ->
  (forall ki, (ki < L)%nat -> Spec.masked_at mask n h qi ki = true) ->
  exists w,
    SelfAttention.attention self v k q mask = Py.ret w
    /\ (forall ki, (ki < L)%nat -> getR w [n; h; qi; ki] = / INR L)
    /\ Py.warnings (SelfAttention.forward self v k q mask) = []
    /\ Py.failed (SelfAttention.forward self v k q mask) = false.
Proof.
  intros Hwf Hv Hk Hq Hm Hn Hh Hqi Hall.
  destruct (attention_spec self v k q mask N L L Lq Hwf Hv Hk Hq Hm)
    as (s & w & _ & _ & Hw & _ & Hval).
  destruct (forward_ok self v k q mask N L L Lq L Hwf Hv Hk Hq Hm (bdim_refl L))
    as (out & Hout & _).
  exists w. split; [exact Hw|]. split.
  - intros ki Hki. rewrite Hval by now apply in_range4.
    now apply attention_weight_uniform.
  - rewrite Hout. split; reflexivity.
Qed.

Lemma example_src_mask_made :
  Transformer.make_src_mask example_transformer example_src = Py.ret example_src_mask.
Proof. reflexivity. Qed.

Lemma example_padded_mask_made :
  Transformer.make_src_mask example_transformer example_padded
  = Py.ret example_padded_mask.
Proof. reflexivity. Qed.

Lemma example_padded_mask_forbids_all (ki : nat) :
  (ki < 2)%nat -> Spec.masked_at (Some example_padded_mask) 0 0 0 ki = true.
Proof. intros H. destruct ki as [|[|ki]]; [reflexivity | reflexivity | lia]. Defined.

Lemma masked_scores_get_sentinel_witness :
  exists s e' w,
    SelfAttention.scores example_attention example_y example_y example_query = Py.ret s
    /\ torch.masked_fill (SelfAttention.energy s) (torch.eq0 example_src_mask) sentinel
       = Py.ret e'
    /\ SelfAttention.attention example_attention example_y example_y example_query
         (Some example_src_mask) = Py.ret w
    /\ forall n h qi ki,
         (n < 1)%nat -> (h < 1)%nat -> (qi < 1)%nat -> (ki < 2)%nat ->
         is_zero (get dzero example_src_mask
                    (bindex (shape example_src_mask) [n; h; qi; ki])) = true ->
         getR e' [n; h; qi; ki] = - 10 ^ 20
         /\ forall kj, (kj < 2)%nat ->
              is_zero (get dzero example_src_mask
                         (bindex (shape example_src_mask) [n; h; qi; kj])) = false ->
              getR w [n; h; qi; ki]
              <= exp ((- 10 ^ 20 - getR (SelfAttention.energy s) [n; h; qi; kj])
                      / sqrt (INR 1)).
Proof.
  apply (@masked_scores_get_sentinel bool _ example_attention
           example_y example_y example_query example_src_mask 1 2 2 1).
  - exact example_attention_wf.
  - reflexivity.
  - reflexivity.
  - reflexivity.
  - split; reflexivity.
Defined.

(** C5 as stated fails.  A source sentence made of padding only: the
    position [0] is flagged as padding, its score is the sentinel, and its
    cross-attention weight is one half. *)
Lemma padding_column_weight_one_half :
  exists mask w,
    Transformer.make_src_mask example_transformer example_padded = Py.ret mask
    /\ getZ example_padded [0; 0]%nat = Transformer.src_pad_idx example_transformer
    /\ Spec.masked_at (Some mask) 0 0 0 0 = true
    /\ SelfAttention.attention example_attention example_y example_y example_query
         (Some mask) = Py.ret w
    /\ getR w [0; 0; 0; 0]%nat = / 2.
Proof.
  exists example_padded_mask.
  destruct (attention_spec example_attention example_y example_y example_query
              (Some example_padded_mask) 1 2 2 1 example_attention_wf
              eq_refl eq_refl eq_refl (conj eq_refl eq_refl))
    as (s & w & _ & _ & Hw & _ & Hval).
  exists w. repeat split; try reflexivity; try assumption.
  rewrite Hval by (apply in_range4; simpl; lia).
  rewrite (attention_weight_uniform _ _ _ 2 0 0 0 0
             example_padded_mask_forbids_all) by lia.
  simpl. lra.
Qed.

Lemma fully_masked_row_is_uniform_and_silent_witness :
  exists w,
    SelfAttention.attention example_attention example_y example_y example_query
      (Some example_padded_mask) = Py.ret w
    /\ (forall ki, (ki < 2)%nat -> getR w [0; 0; 0; ki]%nat = / INR 2)
    /\ Py.warnings (SelfAttention.forward example_attention example_y example_y
                      example_query (Some example_padded_mask)) = []
    /\ Py.failed (SelfAttention.forward example_attention example_y example_y
                    example_query (Some example_padded_mask)) = false.
Proof.
  apply (@fully_masked_row_is_uniform_and_silent bool _ example_attention
           example_y example_y example_query (Some example_padded_mask) 1 2 1 0 0 0).
  - exact example_attention_wf.
  - reflexivity.
  - reflexivity.
  - reflexivity.
  - split; reflexivity.
  - lia.
  - simpl; lia.
  - lia.
  - exact example_padded_mask_forbids_all.
Defined.

(** C8 as stated fails.  Every key of the only query is forbidden, and the
    call returns a tensor without any warning or exception. *)
Lemma fully_masked_row_raises_no_warning :
  (forall ki, (ki < 2)%nat -> Spec.masked_at (Some example_padded_mask) 0 0 0 ki = true)
  /\ Py.warnings (SelfAttention.forward example_attention example_y example_y
                    example_query (Some example_padded_mask)) = []
  /\ Py.failed (SelfAttention.forward example_attention example_y example_y
                  example_query (Some example_padded_mask)) = false.
Proof.
  split; [exact example_padded_mask_forbids_all|].
  destruct (forward_ok example_attention example_y example_y example_query
              (Some example_padded_mask) 1 2 2 1 2 example_attention_wf
              eq_refl eq_refl eq_refl (conj eq_refl eq_refl) eq_refl)
    as (out & Hout & _).
  rewrite Hout. split; reflexivity.
Qed.

(** The padding case of C5: in cross-attention under the source mask, the
    column of a padding position holds the sentinel in every row, and its
    weights are bounded through every position of the sentence that is not
    padding. *)
Lemma padding_columns_bounded
    (tr : Transformer.t) (self : SelfAttention.t) (src : Tensor Z)
    (enc q : Tensor R) (N S Lq : nat) :
  SelfAttention_wf self ->
  shape src = [N; S] ->
  shape enc = [N; S; SelfAttention.embed_size self] ->
  shape q = [N; Lq; SelfAttention.embed_size self] ->
  exists mask s w,
    Transformer.make_src_mask tr src = Py.ret mask
    /\ SelfAttention.scores self enc enc q = Py.ret s
    /\ SelfAttention.attention self enc enc q (Some mask) = Py.ret w
    /\ forall n h qi k,
         (n < N)%nat -> (h < SelfAttention.heads self)%nat ->
         (qi < Lq)%nat -> (k < S)%nat ->
         getZ src [n; k] = Transformer.src_pad_idx tr ->
         Spec.masked_score (SelfAttention.energy s) (Some mask) n h qi k = sentinel
         /\ forall k', (k' < S)%nat ->
              getZ src [n; k'] <> Transformer.src_pad_idx tr ->
              getR w [n; h; qi; k]
              <= exp ((sentinel - getR (SelfAttention.energy s) [n; h; qi; k'])
                      / sqrt (INR (SelfAttention.embed_size self))).
Proof.
  intros Hwf Hsrc Henc Hq.
  destruct (make_src_mask_spec tr src N S Hsrc) as (mask & Hmask & Hsm & Hmv).
  destruct (attention_spec self enc enc q (Some mask) N S S Lq Hwf Henc Henc Hq
              (src_mask_fits mask N _ Lq S Hsm))
    as (s & w & Hs & _ & Hw & _ & Hval).
  exists mask, s, w. split; [exact Hmask|]. split; [exact Hs|]. split; [exact Hw|].
  intros n h qi k Hn Hh Hqi Hk Hpad.
  assert (Hmk : Spec.masked_at (Some mask) n h qi k = true).
  { rewrite (src_mask_masked_at mask N S n h qi k _ Hsm (Hmv n k Hn Hk) Hn Hk).
    now rewrite Hpad, Z.eqb_refl. }
  split; [now apply masked_score_masked|].
  intros k' Hk' Hnp.
  assert (Hfree : Spec.masked_at (Some mask) n h qi k' = false).
  { rewrite (src_mask_masked_at mask N S n h qi k' _ Hsm (Hmv n k' Hn Hk') Hn Hk').
    destruct (Z.eqb_spec (getZ src [n; k']) (Transformer.src_pad_idx tr));
      [contradiction | reflexivity]. }
  rewrite Hval by now apply in_range4.
  eapply Rle_trans; [apply (attention_weight_le _ _ _ S n h qi k k'); assumption|].
  right. f_equal. f_equal.
  rewrite (masked_score_masked _ (Some mask) n h qi k Hmk).
  now rewrite (masked_score_unmasked _ (Some mask) n h qi k' Hfree).
Qed.

(** ** Repeating the masking step (C9) *)

Lemma flat_map_seq_ext {A} (f g : nat -> list A) (a n : nat) :
  (forall i, (a <= i < a + n)%nat -> f i = g i) ->
  flat_map f (seq a n) = flat_map g (seq a n).
Proof.
  revert a. induction n as [|n IH]; intros a H; simpl.
  - reflexivity.
  - rewrite H by lia. f_equal. apply IH. intros i Hi. apply H. lia.
Qed.

Lemma tabulate_ext {A} (s : list nat) (f g : list nat -> A) :
  (forall idx, in_range s idx -> f idx = g idx) ->
  tabulate s f = tabulate s g.
Proof.
  revert f g. induction s as [|d s IH]; intros f g H; simpl.
  - f_equal. apply H. constructor.
  - apply flat_map_seq_ext. intros i Hi. apply IH.
    intros idx Hidx. apply H. constructor; [lia | exact Hidx].
Qed.

Lemma in_range_length (s idx : list nat) : in_range s idx -> length idx = length s.
Proof. unfold in_range. induction 1; simpl; congruence. Qed.

Lemma in_range4_shape (a b c d : nat) (idx : list nat) :
  in_range [a; b; c; d] idx ->
  exists i j k l, idx = [i; j; k; l] /\ in_range [a; b; c; d] [i; j; k; l].
Proof.
  intros H. pose proof (in_range_length _ _ H) as Hl.
  destruct idx as [|i [|j [|k [|l [|? ?]]]]]; try discriminate.
  exists i, j, k, l. split; [reflexivity | exact H].
Qed.

(** Filling an already filled tensor changes nothing. *)
Lemma masked_fill_idempotent (e e1 : Tensor R) (m : Tensor bool) (c : R)
    (N H Q K : nat) :
  shape e = [N; H; Q; K] ->
  mask_fits (Some m) [N; H; Q; K] ->
  torch.masked_fill e m c = Py.ret e1 ->
  torch.masked_fill e1 m c = Py.ret e1.
Proof.
  intros He [_ Hb]. unfold torch.masked_fill. rewrite He, Hb.
  intros [= <-]. simpl shape. rewrite Hb. unfold Py.ret. do 2 f_equal.
  unfold build. f_equal. apply tabulate_ext. intros idx Hin.
  destruct (in_range4_shape _ _ _ _ _ Hin) as (i & j & k & l & -> & Hin').
  destruct (getB m (bindex (shape m) [i; j; k; l])) eqn:E; [reflexivity|].
  rewrite (bindex4_id _ _ _ _ _ _ _ _ Hin').
  fold (build [N; H; Q; K] (fun idx =>
          if getB m (bindex (shape m) idx) then c
          else getR e (bindex [N; H; Q; K] idx))).
  rewrite getR_build by exact Hin'.
  now rewrite E, (bindex4_id _ _ _ _ _ _ _ _ Hin').
Qed.

(** C9, as the code has it.  Filling the scores with the same mask a second
    time before the softmax changes neither the filled scores nor the
    attention weights. *)
Theorem mask_fill_twice_same_weights {A} {DA : Dtype A}
    (self : SelfAttention.t) (e : Tensor R) (m : Tensor A) (N H Q K : nat) :
  shape e = [N; H; Q; K] ->
  mask_fits (Some m) [N; H; Q; K] ->
  exists e1,
    torch.masked_fill e (torch.eq0 m) sentinel = Py.ret e1
    /\ torch.masked_fill e1 (torch.eq0 m) sentinel = Py.ret e1
    /\ SelfAttention.weights self e1 (Some m) = SelfAttention.weights self e (Some m).
Proof.
  intros He Hm.
  destruct (masked_fill_eq0 e m N H Q K He Hm) as (e1 & He1 & _ & _).
  assert (Hagain : torch.masked_fill e1 (torch.eq0 m) sentinel = Py.ret e1).
  { apply (masked_fill_idempotent e e1 (torch.eq0 m) sentinel N H Q K He);
      [exact Hm | exact He1]. }
  exists e1. split; [exact He1|]. split; [exact Hagain|].
  unfold SelfAttention.weights. now rewrite He1, Hagain.
Qed.

Lemma mask_fill_twice_same_weights_witness :
  exists e1,
    torch.masked_fill example_energy (torch.eq0 example_src_mask) sentinel = Py.ret e1
    /\ torch.masked_fill e1 (torch.eq0 example_src_mask) sentinel = Py.ret e1
    /\ SelfAttention.weights example_attention e1 (Some example_src_mask)
       = SelfAttention.weights example_attention example_energy (Some example_src_mask).
Proof.
  apply (@mask_fill_twice_same_weights bool _ example_attention example_energy
           example_src_mask 1 1 1 2).
  - reflexivity.
  - split; reflexivity.
Defined.

(** C9 as stated fails.  Scores [0, 1] for two allowed keys: the weights
    of the step "mask-fill then softmax" are not a fixed point of that
    step. *)
Lemma mask_then_softmax_not_idempotent :
  exists w1 w2,
    SelfAttention.weights example_attention example_energy (Some example_open_mask)
    = Py.ret w1
    /\ SelfAttention.weights example_attention w1 (Some example_open_mask) = Py.ret w2
    /\ getR w2 [0; 0; 0; 0]%nat <> getR w1 [0; 0; 0; 0]%nat.
Proof.
  destruct (weights_spec example_attention example_energy (Some example_open_mask)
              1 1 1 2 eq_refl (conj eq_refl eq_refl)) as (w1 & Hw1 & Hs1 & Hv1).
  destruct (weights_spec example_attention w1 (Some example_open_mask)
              1 1 1 2 Hs1 (conj eq_refl eq_refl)) as (w2 & Hw2 & _ & Hv2).
  exists w1, w2. split; [exact Hw1|]. split; [exact Hw2|].
  assert (Hr0 : in_range [1; 1; 1; 2]%nat [0; 0; 0; 0]%nat) by (apply in_range4; lia).
  assert (Hr1 : in_range [1; 1; 1; 2]%nat [0; 0; 0; 1]%nat) by (apply in_range4; lia).
  pose proof (Hv1 _ _ _ _ Hr0) as Ha. pose proof (Hv1 _ _ _ _ Hr1) as Hb.
  pose proof (Hv2 _ _ _ _ Hr0) as Hc.
  unfold Spec.attention_weight, Spec.softmax_weight in Ha, Hb, Hc.
  cbv [sum_n seq map Rsum fold_right] in Ha, Hb, Hc.
  rewrite !(masked_score_unmasked example_energy (Some example_open_mask)) in Ha, Hb
    by reflexivity.
  rewrite !(masked_score_unmasked w1 (Some example_open_mask)) in Hc by reflexivity.
  change (getR example_energy [0; 0; 0; 0]%nat) with 0 in Ha, Hb.
  change (getR example_energy [0; 0; 0; 1]%nat) with 1 in Ha, Hb.
  change (INR (SelfAttention.embed_size example_attention)) with 1 in Ha, Hb, Hc.
  rewrite sqrt_1, !Rdiv_1_r in Ha, Hb, Hc. rewrite exp_0 in Ha, Hb.
  set (a := getR w1 [0; 0; 0; 0]%nat) in *.
  set (b := getR w1 [0; 0; 0; 1]%nat) in *.
  rewrite Hc. clear Hc Hv1 Hv2 Hw1 Hw2.
  pose proof (exp_pos 1) as He1. pose proof (exp_ineq1 1 ltac:(lra)) as He2.
  assert (Hapos : 0 < a).
  { rewrite Ha. apply Rdiv_lt_0_compat; lra. }
  assert (Hab : a + b = 1).
  { rewrite Ha, Hb. field. lra. }
  assert (Hba : b = exp 1 * a).
  { rewrite Ha, Hb. field. lra. }
  set (X := exp a). set (Y := exp b).
  assert (HX : 0 < X) by apply exp_pos. assert (HY : 0 < Y) by apply exp_pos.
  intros Heq.
  assert (H1 : X = a * (X + Y)).
  { rewrite <- Heq. field. lra. }
  assert (H2 : a * (X * exp 1) = a * Y).
  { replace (a * Y) with (X * (1 - a)) by lra.
    replace (1 - a) with b by lra. rewrite Hba. ring. }
  apply Rmult_eq_reg_l in H2; [|lra].
  unfold X, Y in H2. rewrite <- exp_plus in H2.
  apply exp_inv in H2. lra.
Qed.

(** ** Construction (C2) *)

Lemma div_mul_exact (E H : nat) : H <> 0%nat -> ((E / H * H = E)%nat <-> (E mod H = 0)%nat).
Proof.
  intros HH. pose proof (Nat.div_mod_eq E H) as Hdm.
  rewrite (Nat.mul_comm (E / H) H). lia.
Qed.

(** C2.  For every embed size [E] and every head count [H] (not zero, so
    that [E % H] is defined), the construction of the attention module
    succeeds when [E % H = 0] and fails with the assertion error of
    [__init__] otherwise.  The failure is the outcome of the construction
    itself; a constructed module always splits tensors of width [E] into
    its heads without error. *)
Theorem construction_checks_divisibility
    (theta : StateDict) (name : string) (E H : nat) :
  H <> 0%nat ->
  ((E mod H = 0)%nat ->
     exists self, SelfAttention.init theta name E H = Py.ret self
       /\ SelfAttention.embed_size self = E
       /\ SelfAttention.heads self = H
       /\ (SelfAttention.head_dim self * H = E)%nat)
  /\ ((E mod H <> 0)%nat ->
        SelfAttention.init theta name E H
        = Py.raise (Py.AssertionError "Embed size needs to be div by heads"))
  /\ (forall self, SelfAttention.init theta name E H = Py.ret self ->
        forall (x : Tensor R) (N L : nat), shape x = [N; L; E] ->
          Py.failed (reshape x [N; L; SelfAttention.heads self;
                                SelfAttention.head_dim self]) = false).
Proof.
  intros HH. split; [|split].
  - intros Hmod. apply (div_mul_exact E H HH) in Hmod.
    unfold SelfAttention.init.
    destruct (Nat.eqb_spec H 0) as [|_]; [contradiction|]. simpl negb. cbv iota.
    rewrite Hmod, Nat.eqb_refl.
    eexists. split; [reflexivity|]. simpl. auto.
  - intros Hmod. unfold SelfAttention.init.
    destruct (Nat.eqb_spec H 0) as [|_]; [contradiction|]. simpl negb. cbv iota.
    destruct (Nat.eqb_spec (E / H * H) E) as [Heq|]; [|reflexivity].
    apply (div_mul_exact E H HH) in Heq. contradiction.
  - intros self Hinit x N L Hx.
    destruct (init_inv theta name E H self Hinit) as ((Hdiv & _) & HE & _ & _).
    rewrite reshape_ok; [reflexivity|].
    rewrite Hx, <- HE. now apply numel_split.
Qed.

Lemma construction_checks_divisibility_witness :
  ((4 mod 2 = 0)%nat ->
     exists self, SelfAttention.init example_theta "" 4 2 = Py.ret self
       /\ SelfAttention.embed_size self = 4%nat
       /\ SelfAttention.heads self = 2%nat
       /\ (SelfAttention.head_dim self * 2 = 4)%nat)
  /\ ((4 mod 2 <> 0)%nat ->
        SelfAttention.init example_theta "" 4 2
        = Py.raise (Py.AssertionError "Embed size needs to be div by heads"))
  /\ (forall self, SelfAttention.init example_theta "" 4 2 = Py.ret self ->
        forall (x : Tensor R) (N L : nat), shape x = [N; L; 4%nat] ->
          Py.failed (reshape x [N; L; SelfAttention.heads self;
                                SelfAttention.head_dim self]) = false).
Proof.
  apply (construction_checks_divisibility example_theta "" 4 2). lia.
Defined.

Example construction_5_2_fails :
  SelfAttention.init example_theta "" 5 2
  = Py.raise (Py.AssertionError "Embed size needs to be div by heads").
Proof. reflexivity. Qed.

Example construction_4_2_succeeds :
  SelfAttention.init example_theta "" 4 2 = Py.ret example_heads.
Proof. reflexivity. Qed.

Lemma example_heads_wf : SelfAttention_wf example_heads.
Proof. unfold SelfAttention_wf. simpl. repeat split; reflexivity. Defined.

(** ** Shape errors (C7) *)

Lemma bdim_none (a b : nat) :
  a <> b -> a <> 1%nat -> b <> 1%nat -> bdim a b = None.
Proof.
  intros Hab Ha Hb. unfold bdim.
  destruct (Nat.eqb_spec a b); [contradiction|].
  destruct (Nat.eqb_spec a 1); [contradiction|].
  destruct (Nat.eqb_spec b 1); [contradiction|reflexivity].
Qed.

(** The contraction of the weights with the values rejects lengths that do
    not broadcast. *)
Lemma forward_fails_on_lengths {A} {DA : Dtype A} (self : SelfAttention.t)
    (v k q : Tensor R) (mask : option (Tensor A)) (N Lv Lk Lq : nat) :
  SelfAttention_wf self ->
  shape v = [N; Lv; SelfAttention.embed_size self] ->
  shape k = [N; Lk; SelfAttention.embed_size self] ->
  shape q = [N; Lq; SelfAttention.embed_size self] ->
  mask_fits mask [N; SelfAttention.heads self; Lq; Lk] ->
  bdim Lk Lv = None ->
  SelfAttention.forward self v k q mask = Py.raise Py.RuntimeError.
Proof.
  intros Hwf Hv Hk Hq Hm HL.
  destruct (scores_ok self v k q N Lv Lk Lq Hwf Hv Hk Hq)
    as (s & Hs & HN & HQ & Hpv & He).
  destruct (weights_spec self _ mask _ _ _ _ He Hm) as (w & Hw & Hsw & _).
  unfold SelfAttention.forward.
  rewrite Hs, bind_ret_l, Hw, bind_ret_l.
  unfold torch.einsum_nhql_nlhd_nqhd. rewrite Hsw, Hpv. cbv beta iota.
  rewrite !bdim_refl, HL. reflexivity.
Qed.

(** Only the element count of the value and key tensors is checked when
    they are split into heads. *)
Lemma forward_same_storage {A} {DA : Dtype A} (self : SelfAttention.t)
    (v k q : Tensor R) (mask : option (Tensor A)) (N Nv Nk Lv Lk Lq : nat) :
  SelfAttention_wf self ->
  shape v = [Nv; Lv; SelfAttention.embed_size self] ->
  shape k = [Nk; Lk; SelfAttention.embed_size self] ->
  shape q = [N; Lq; SelfAttention.embed_size self] ->
  numel (shape v) = numel [N; Lv; SelfAttention.heads self; SelfAttention.head_dim self] ->
  numel (shape k) = numel [N; Lk; SelfAttention.heads self; SelfAttention.head_dim self] ->
  SelfAttention.forward self v k q mask
  = SelfAttention.forward self
      (mkTensor [N; Lv; SelfAttention.embed_size self] (data v))
      (mkTensor [N; Lk; SelfAttention.embed_size self] (data k)) q mask.
Proof.
  intros (Hdiv & _) Hv Hk Hq Ev Ek.
  set (E := SelfAttention.embed_size self) in *.
  unfold SelfAttention.forward, SelfAttention.scores.
  rewrite (size_ok q 0 N) by (rewrite Hq; reflexivity). rewrite !bind_ret_l.
  rewrite (size_ok v 1 Lv) by (rewrite Hv; reflexivity).
  rewrite (size_ok (mkTensor [N; Lv; E] (data v)) 1 Lv) by reflexivity.
  rewrite !bind_ret_l.
  rewrite (size_ok k 1 Lk) by (rewrite Hk; reflexivity).
  rewrite (size_ok (mkTensor [N; Lk; E] (data k)) 1 Lk) by reflexivity.
  rewrite !bind_ret_l.
  rewrite (size_ok q 1 Lq) by (rewrite Hq; reflexivity). rewrite !bind_ret_l.
  rewrite (reshape_ok v) by exact Ev.
  rewrite (reshape_ok k) by exact Ek.
  rewrite (reshape_ok (mkTensor [N; Lv; E] (data v))) by now apply numel_split.
  rewrite (reshape_ok (mkTensor [N; Lk; E] (data k))) by now apply numel_split.
  reflexivity.
Qed.

Lemma reshape_fails_forward_v {A} {DA : Dtype A} (self : SelfAttention.t)
    (v k q : Tensor R) (mask : option (Tensor A)) (N Nv Nk Lv Lk Lq E : nat) :
  shape v = [Nv; Lv; E] -> shape k = [Nk; Lk; E] -> shape q = [N; Lq; E] ->
  numel (shape v) <> numel [N; Lv; SelfAttention.heads self; SelfAttention.head_dim self] ->
  SelfAttention.forward self v k q mask = Py.raise Py.RuntimeError.
Proof.
  intros Hv Hk Hq Ev.
  unfold SelfAttention.forward, SelfAttention.scores.
  rewrite (size_ok q 0 N) by (rewrite Hq; reflexivity). rewrite !bind_ret_l.
  rewrite (size_ok v 1 Lv) by (rewrite Hv; reflexivity). rewrite !bind_ret_l.
  rewrite (size_ok k 1 Lk) by (rewrite Hk; reflexivity). rewrite !bind_ret_l.
  rewrite (size_ok q 1 Lq) by (rewrite Hq; reflexivity). rewrite !bind_ret_l.
  rewrite (reshape_fails v) by exact Ev. reflexivity.
Qed.

Lemma reshape_fails_forward_k {A} {DA : Dtype A} (self : SelfAttention.t)
    (v k q : Tensor R) (mask : option (Tensor A)) (N Nv Nk Lv Lk Lq E : nat) :
  shape v = [Nv; Lv; E] -> shape k = [Nk; Lk; E] -> shape q = [N; Lq; E] ->
  numel (shape v) = numel [N; Lv; SelfAttention.heads self; SelfAttention.head_dim self] ->
  numel (shape k) <> numel [N; Lk; SelfAttention.heads self; SelfAttention.head_dim self] ->
  SelfAttention.forward self v k q mask = Py.raise Py.RuntimeError.
Proof.
  intros Hv Hk Hq Ev Ek.
  unfold SelfAttention.forward, SelfAttention.scores.
  rewrite (size_ok q 0 N) by (rewrite Hq; reflexivity). rewrite !bind_ret_l.
  rewrite (size_ok v 1 Lv) by (rewrite Hv; reflexivity). rewrite !bind_ret_l.
  rewrite (size_ok k 1 Lk) by (rewrite Hk; reflexivity). rewrite !bind_ret_l.
  rewrite (size_ok q 1 Lq) by (rewrite Hq; reflexivity). rewrite !bind_ret_l.
  rewrite (reshape_ok v) by exact Ev. rewrite bind_ret_l.
  rewrite (reshape_fails k) by exact Ek. reflexivity.
Qed.

Lemma batch_from_numel (self : SelfAttention.t) (N N' L : nat) :
  SelfAttention_wf self ->
  (0 < SelfAttention.embed_size self)%nat -> (0 < L)%nat ->
  numel [N'; L; SelfAttention.embed_size self]
  = numel [N; L; SelfAttention.heads self; SelfAttention.head_dim self] ->
  N' = N.
Proof.
  intros (Hdiv & _) HE HL. rewrite <- (numel_split N L _ _ _ Hdiv).
  simpl. rewrite !Nat.mul_1_r. intros H.
  apply Nat.mul_cancel_r in H; [exact H|]. nia.
Qed.

(** C7, as the code has it.  The call fails, with the runtime error of the
    tensor library and before anything is returned, when the value or the
    key tensor has a non-empty sequence and a batch size other than the
    query's, or when the value and key lengths differ and neither is 1. *)
Theorem mismatched_shapes_fail {A} {DA : Dtype A} (self : SelfAttention.t)
    (v k q : Tensor R) (mask : option (Tensor A)) (N Nv Nk Lv Lk Lq : nat) :
  SelfAttention_wf self ->
  (0 < SelfAttention.embed_size self)%nat ->
  shape v = [Nv; Lv; SelfAttention.embed_size self] ->
  shape k = [Nk; Lk; SelfAttention.embed_size self] ->
  shape q = [N; Lq; SelfAttention.embed_size self] ->
  mask_fits mask [N; SelfAttention.heads self; Lq; Lk] ->
  (Nv <> N /\ 0 < Lv)%nat \/ (Nk <> N /\ 0 < Lk)%nat
  \/ (Lv <> Lk /\ Lv <> 1 /\ Lk <> 1)%nat ->
  SelfAttention.forward self v k q mask = Py.raise Py.RuntimeError.
Proof.
  intros Hwf HE Hv Hk Hq Hm Hbad.
  destruct (Nat.eq_dec (numel (shape v))
              (numel [N; Lv; SelfAttention.heads self; SelfAttention.head_dim self]))
    as [Ev|Ev];
    [|exact (reshape_fails_forward_v self v k q mask N Nv Nk Lv Lk Lq _ Hv Hk Hq Ev)].
  destruct (Nat.eq_dec (numel (shape k))
              (numel [N; Lk; SelfAttention.heads self; SelfAttention.head_dim self]))
    as [Ek|Ek];
    [|exact (reshape_fails_forward_k self v k q mask N Nv Nk Lv Lk Lq _ Hv Hk Hq Ev Ek)].
  rewrite (forward_same_storage self v k q mask N Nv Nk Lv Lk Lq Hwf Hv Hk Hq Ev Ek).
  apply (forward_fails_on_lengths self
           (mkTensor [N; Lv; SelfAttention.embed_size self] (data v))
           (mkTensor [N; Lk; SelfAttention.embed_size self] (data k))
           q mask N Lv Lk Lq Hwf eq_refl eq_refl Hq Hm).
  destruct Hbad as [[HN HL] | [[HN HL] | (H1 & H2 & H3)]].
  - exfalso. apply HN. rewrite Hv in Ev.
    exact (batch_from_numel self N Nv Lv Hwf HE HL Ev).
  - exfalso. apply HN. rewrite Hk in Ek.
    exact (batch_from_numel self N Nk Lk Hwf HE HL Ek).
  - apply bdim_none; auto.
Qed.

Lemma mismatched_shapes_fail_witness :
  SelfAttention.forward example_heads other_batch_values long_keys
    some_queries (@None (Tensor bool))
  = Py.raise Py.RuntimeError.
Proof.
  apply (@mismatched_shapes_fail bool _ example_heads
           other_batch_values long_keys some_queries None 2 3 2 5 5 3).
  - exact example_heads_wf.
  - simpl; lia.
  - reflexivity.
  - reflexivity.
  - reflexivity.
  - exact I.
  - left. split; lia.
Defined.

(** C7 as stated fails.  A value sequence of length 1 against a key
    sequence of length 5: the contraction broadcasts the single value, and
    the call returns a tensor of shape [2, 3, 4]. *)
Lemma length_one_values_are_broadcast :
  shape short_values = [2; 1; 4]%nat
  /\ shape long_keys = [2; 5; 4]%nat
  /\ shape some_queries = [2; 3; 4]%nat
  /\ exists out,
       SelfAttention.forward example_heads short_values long_keys some_queries
         (@None (Tensor bool)) = Py.ret out
       /\ shape out = [2; 3; 4]%nat.
Proof.
  repeat split.
  exact (forward_ok example_heads short_values long_keys some_queries
           (@None (Tensor bool)) 2 1 5 3 5 example_heads_wf
           eq_refl eq_refl eq_refl I eq_refl).
Qed.

(** ** The logits of the model (C6) *)

Lemma Linear_forward_inv (l : nn.Linear) (x y : Tensor R) :
  nn.Linear_forward l x = Py.ret y ->
  shape x = removelast (shape x) ++ [nn.in_features l]
  /\ shape y = removelast (shape x) ++ [nn.out_features l]
  /\ forall idx, in_range (shape y) idx ->
       getR y idx
       = sum_n (nn.in_features l)
           (fun i => getR x (removelast idx ++ [i]) * getR (nn.weight l) [last idx 0%nat; i])
         + match nn.bias l with Some b => getR b [last idx 0%nat] | None => 0 end.
Proof.
  unfold nn.Linear_forward.
  destruct (shape x) as [|d s] eqn:Hs; [discriminate|].
  destruct (Nat.eqb_spec (last (d :: s) 0%nat) (nn.in_features l)) as [Hl|]; [|discriminate].
  intros [= <-]. split; [|split].
  - rewrite <- Hl. apply app_removelast_last. discriminate.
  - reflexivity.
  - intros idx Hin. simpl shape in Hin. now rewrite getR_build.
Qed.

Lemma scenario_model_init (theta : StateDict) :
  Transformer.init_default theta 10 10 0 0 = Py.ret (scenario_model theta).
Proof.
  assert (Hw : Py.warnings (Transformer.init_default theta 10 10 0 0) = [])
    by (unfold Transformer.init_default, Transformer.init, Encoder.init,
          Decoder.init, DecoderBLock.init, TransformerBlock.init;
        rewrite (Dropout_init_valid 0) by lra; lazy; reflexivity).
  assert (Hf : Py.failed (Transformer.init_default theta 10 10 0 0) = false)
    by (unfold Transformer.init_default, Transformer.init, Encoder.init,
          Decoder.init, DecoderBLock.init, TransformerBlock.init;
        rewrite (Dropout_init_valid 0) by lra; lazy; reflexivity).
  unfold scenario_model, Py.warnings, Py.failed, Py.value in *.
  destruct (Transformer.init_default theta 10 10 0 0) as [w [e|model]].
  - discriminate.
  - cbn [fst snd] in *. now subst w.
Qed.

(** ** Shapes through the whole model *)

Lemma mapM_inv {A B} (f : A -> Py.M B) (l : list A) (bs : list B) :
  mapM f l = Py.ret bs -> Forall2 (fun a b => f a = Py.ret b) l bs.
Proof.
  revert bs. induction l as [|a l IH]; intros bs H; simpl in H.
  - injection H as <-. constructor.
  - apply bind_ret_inv in H as (b & Hb & H).
    apply bind_ret_inv in H as (bs' & Hbs & H).
    injection H as <-. constructor; auto.
Qed.

Lemma Forall2_Forall_r {A B} (R : A -> B -> Prop) (P : B -> Prop)
    (l : list A) (l' : list B) :
  (forall a b, R a b -> P b) -> Forall2 R l l' -> Forall P l'.
Proof. intros H. induction 1; constructor; eauto. Qed.

Lemma SelfAttention_init_wf (theta : StateDict) (name : string) (E H : nat)
    (self : SelfAttention.t) :
  SelfAttention.init theta name E H = Py.ret self ->
  SelfAttention_wf self /\ SelfAttention.embed_size self = E.
Proof.
  intros Hi. destruct (init_inv theta name E H self Hi) as (Hwf & HE & _). auto.
Qed.

Lemma TransformerBlock_init_wf (theta : StateDict) (name : string)
    (E H : nat) (p : R) (fe : nat) (b : TransformerBlock.t) :
  TransformerBlock.init theta name E H p fe = Py.ret b -> TransformerBlock_wf E b.
Proof.
  intros Hi. unfold TransformerBlock.init in Hi.
  apply bind_ret_inv in Hi as (a & Ha & Hi).
  apply bind_ret_inv in Hi as (dr & _ & Hi). injection Hi as <-.
  destruct (SelfAttention_init_wf _ _ _ _ _ Ha) as (Hwf & HE).
  unfold TransformerBlock_wf. simpl.
  refine (conj Hwf (conj HE (conj eq_refl (conj eq_refl _)))).
  eexists. eexists. split; [reflexivity|]. simpl. auto.
Qed.

Lemma DecoderBLock_init_wf (theta : StateDict) (name : string)
    (E H fe : nat) (p : R) (d : DecoderBLock.t) :
  DecoderBLock.init theta name E H fe p = Py.ret d -> DecoderBLock_wf E d.
Proof.
  intros Hi. unfold DecoderBLock.init in Hi.
  apply bind_ret_inv in Hi as (a & Ha & Hi).
  apply bind_ret_inv in Hi as (tb & Htb & Hi).
  apply bind_ret_inv in Hi as (dr & _ & Hi). injection Hi as <-.
  destruct (SelfAttention_init_wf _ _ _ _ _ Ha) as (Hwf & HE).
  unfold DecoderBLock_wf. simpl.
  refine (conj Hwf (conj HE (conj eq_refl _))).
  eapply TransformerBlock_init_wf; eassumption.
Qed.

Lemma Encoder_init_wf (theta : StateDict) (name : string)
    (vocab E layers H fe : nat) (p : R) (max_length : nat) (e : Encoder.t) :
  Encoder.init theta name vocab E layers H fe p max_length = Py.ret e ->
  Encoder_wf E vocab max_length e.
Proof.
  intros Hi. unfold Encoder.init in Hi.
  apply bind_ret_inv in Hi as (ls & Hls & Hi).
  apply bind_ret_inv in Hi as (dr & _ & Hi). injection Hi as <-.
  unfold Encoder_wf. simpl.
  refine (conj eq_refl (conj eq_refl (conj eq_refl (conj eq_refl _)))).
  apply mapM_inv in Hls.
  eapply Forall2_Forall_r; [|exact Hls].
  intros i b Hb. eapply TransformerBlock_init_wf; exact Hb.
Qed.

Lemma Decoder_init_wf (theta : StateDict) (name : string)
    (vocab E layers H fe : nat) (p : R) (max_length : nat) (d : Decoder.t) :
  Decoder.init theta name vocab E layers H fe p max_length = Py.ret d ->
  Decoder_wf E vocab max_length d.
Proof.
  intros Hi. unfold Decoder.init in Hi.
  apply bind_ret_inv in Hi as (ls & Hls & Hi).
  apply bind_ret_inv in Hi as (dr & _ & Hi). injection Hi as <-.
  unfold Decoder_wf. simpl.
  refine (conj eq_refl (conj eq_refl (conj eq_refl (conj eq_refl
            (conj _ (conj eq_refl eq_refl)))))).
  apply mapM_inv in Hls.
  eapply Forall2_Forall_r; [|exact Hls].
  intros i b Hb. eapply DecoderBLock_init_wf; exact Hb.
Qed.

Lemma Transformer_init_wf (theta : StateDict) (sv tv : nat) (sp tp : Z)
    (E layers fe H : nat) (p : R) (max_length : nat) (m : Transformer.t) :
  Transformer.init theta sv tv sp tp E layers fe H p max_length = Py.ret m ->
  Encoder_wf E sv max_length (Transformer.encoder m)
  /\ Decoder_wf E tv max_length (Transformer.decoder m).
Proof.
  intros Hi. unfold Transformer.init in Hi.
  apply bind_ret_inv in Hi as (e & He & Hi).
  apply bind_ret_inv in Hi as (d & Hd & Hi). injection Hi as <-. simpl.
  split; [eapply Encoder_init_wf | eapply Decoder_init_wf]; eassumption.
Qed.

Lemma broadcast_rev_refl (l : list nat) : broadcast_rev l l = Some l.
Proof.
  induction l as [|x l IH]; simpl.
  - reflexivity.
  - now rewrite bdim_refl, IH.
Qed.

Lemma broadcast_shapes_refl (s : list nat) : broadcast_shapes s s = Some s.
Proof.
  unfold broadcast_shapes. rewrite broadcast_rev_refl. simpl.
  now rewrite rev_involutive.
Qed.

Lemma add_same_shape (a b : Tensor R) (s : list nat) :
  shape a = s -> shape b = s ->
  exists c, torch.add a b = Py.ret c /\ shape c = s.
Proof.
  intros Ha Hb. unfold torch.add. rewrite Ha, Hb, broadcast_shapes_refl.
  eexists. split; reflexivity.
Qed.

Lemma LayerNorm_forward_shape (l : nn.LayerNorm) (x : Tensor R) (pre : list nat) (d : nat) :
  shape x = pre ++ [d] ->
  nn.normalized_shape l = d ->
  exists y, nn.LayerNorm_forward l x = Py.ret y /\ shape y = pre ++ [d].
Proof.
  intros Hs Hn. unfold nn.LayerNorm_forward. rewrite Hs.
  rewrite last_last, Hn, Nat.eqb_refl.
  destruct pre; simpl; eexists; split; reflexivity.
Qed.

Lemma feed_forward_shape (l1 l2 : nn.Linear) (x : Tensor R) (pre : list nat) :
  shape x = pre ++ [nn.in_features l1] ->
  nn.in_features l2 = nn.out_features l1 ->
  exists y,
    nn.Sequential_forward [nn.LinearLayer l1; nn.ReLU; nn.LinearLayer l2] x = Py.ret y
    /\ shape y = pre ++ [nn.out_features l2].
Proof.
  intros Hx H12. unfold nn.Sequential_forward. cbn [foldM nn.Layer_forward].
  destruct (Linear_forward_shape l1 x pre _ Hx eq_refl) as (y1 & -> & Hy1).
  rewrite !bind_ret_l.
  destruct (Linear_forward_shape l2 (nn.ReLU_forward y1) pre _ Hy1 H12)
    as (y2 & -> & Hy2).
  rewrite bind_ret_l. exists y2. split; [reflexivity | exact Hy2].
Qed.

Lemma TransformerBlock_forward_heads_ok {A} {DA : Dtype A} (E : nat)
    (b : TransformerBlock.t) (v k q : Tensor R) (mask : option (Tensor A))
    (N L Lq : nat) :
  TransformerBlock_wf E b ->
  shape v = [N; L; E] -> shape k = [N; L; E] -> shape q = [N; Lq; E] ->
  mask_fits mask [N; SelfAttention.heads (TransformerBlock.attention b); Lq; L] ->
  exists out, TransformerBlock.forward b v k q mask = Py.ret out
    /\ shape out = [N; Lq; E].
Proof.
  intros (Hwf & HE & Hn1 & Hn2 & l1 & l2 & Hff & Hi1 & Hi2 & Ho2) Hv Hk Hq Hm.
  unfold TransformerBlock.forward, nn.Dropout_forward.
  rewrite <- HE in Hv, Hk, Hq.
  destruct (forward_ok _ v k q mask N L L Lq L Hwf Hv Hk Hq Hm (bdim_refl L))
    as (att & -> & Hatt).
  rewrite bind_ret_l. rewrite HE in Hatt, Hq.
  destruct (add_same_shape att q _ Hatt Hq) as (s1 & -> & Hs1). rewrite bind_ret_l.
  destruct (LayerNorm_forward_shape (TransformerBlock.norm1 b) s1 [N; Lq] E Hs1 Hn1)
    as (x & -> & Hx).
  rewrite bind_ret_l, Hff.
  destruct (feed_forward_shape l1 l2 x [N; Lq]) as (f & -> & Hf);
    [now rewrite Hi1 | exact Hi2 |].
  rewrite bind_ret_l. rewrite Ho2 in Hf.
  destruct (add_same_shape f x _ Hf Hx) as (s2 & -> & Hs2). rewrite bind_ret_l.
  destruct (LayerNorm_forward_shape (TransformerBlock.norm2 b) s2 [N; Lq] E Hs2 Hn2)
    as (out & -> & Hout).
  rewrite bind_ret_l. exists out. split; [reflexivity | exact Hout].
Qed.

Lemma TransformerBlock_forward_ok {A} {DA : Dtype A} (E : nat)
    (b : TransformerBlock.t) (v k q : Tensor R) (mask : option (Tensor A))
    (N L Lq : nat) :
  TransformerBlock_wf E b ->
  shape v = [N; L; E] -> shape k = [N; L; E] -> shape q = [N; Lq; E] ->
  (forall H, mask_fits mask [N; H; Lq; L]) ->
  exists out, TransformerBlock.forward b v k q mask = Py.ret out
    /\ shape out = [N; Lq; E].
Proof.
  intros Hwf Hv Hk Hq Hm.
  exact (TransformerBlock_forward_heads_ok E b v k q mask N L Lq Hwf Hv Hk Hq (Hm _)).
Qed.

Lemma DecoderBLock_forward_ok {A B} {DA : Dtype A} {DB : Dtype B} (E : nat)
    (d : DecoderBLock.t) (x enc : Tensor R)
    (sm : option (Tensor A)) (tm : option (Tensor B)) (N T S : nat) :
  DecoderBLock_wf E d ->
  shape x = [N; T; E] -> shape enc = [N; S; E] ->
  (forall H, mask_fits sm [N; H; T; S]) ->
  (forall H, mask_fits tm [N; H; T; T]) ->
  exists out, DecoderBLock.forward d x enc enc sm tm = Py.ret out
    /\ shape out = [N; T; E].
Proof.
  intros (Hwf & HE & Hn & Htb) Hx Henc Hsm Htm.
  unfold DecoderBLock.forward, nn.Dropout_forward.
  rewrite <- HE in Hx.
  destruct (forward_ok _ x x x tm N T T T T Hwf Hx Hx Hx (Htm _) (bdim_refl T))
    as (att & -> & Hatt).
  rewrite bind_ret_l. rewrite HE in Hatt, Hx.
  destruct (add_same_shape att x _ Hatt Hx) as (s1 & -> & Hs1). rewrite bind_ret_l.
  destruct (LayerNorm_forward_shape (DecoderBLock.norm d) s1 [N; T] E Hs1 Hn)
    as (q & -> & Hq).
  rewrite bind_ret_l.
  exact (TransformerBlock_forward_ok E _ enc enc q sm N S T Htb Henc Henc Hq Hsm).
Qed.

Lemma foldM_invariant {A S} (f : S -> A -> Py.M S) (P : S -> Prop) (Q : A -> Prop)
    (l : list A) (s : S) :
  (forall s a, P s -> Q a -> exists s', f s a = Py.ret s' /\ P s') ->
  Forall Q l -> P s ->
  exists s', foldM f s l = Py.ret s' /\ P s'.
Proof.
  intros Hstep HQ. revert s. induction HQ as [|a l Ha _ IH]; intros s Hs; simpl.
  - eauto.
  - destruct (Hstep s a Hs Ha) as (s1 & -> & Hs1). rewrite bind_ret_l. auto.
Qed.

Lemma forallb_flat_map_seq {A} (P : A -> bool) (g : nat -> list A) (a n : nat) :
  (forall i, (a <= i < a + n)%nat -> forallb P (g i) = true) ->
  forallb P (flat_map g (seq a n)) = true.
Proof.
  revert a. induction n as [|n IH]; intros a H; simpl.
  - reflexivity.
  - rewrite forallb_app, H by lia. simpl. apply IH. intros i Hi. apply H. lia.
Qed.

Lemma forallb_tabulate {A} (P : A -> bool) (s : list nat) (f : list nat -> A) :
  (forall idx, in_range s idx -> P (f idx) = true) ->
  forallb P (tabulate s f) = true.
Proof.
  revert f. induction s as [|d s IH]; intros f H; simpl.
  - rewrite H by constructor. reflexivity.
  - apply forallb_flat_map_seq. intros i Hi. apply IH.
    intros idx Hidx. apply H. constructor; [lia | exact Hidx].
Qed.

Lemma in_range2_shape (a b : nat) (idx : list nat) :
  in_range [a; b] idx -> exists i j, idx = [i; j] /\ (i < a)%nat /\ (j < b)%nat.
Proof.
  intros H. pose proof (in_range_length _ _ H) as Hl.
  destruct idx as [|i [|j [|? ?]]]; try discriminate.
  exists i, j. split; [reflexivity|].
  inversion H as [|? ? ? ? H1 H2]; subst. inversion H2; subst. auto.
Qed.

(** The position indices [0 .. L-1] of every sentence of the batch. *)
Lemma positions_ok (N L max_length : nat) :
  (L <= max_length)%nat ->
  exists pos, torch.expand (torch.arange L) [N; L] = Py.ret pos
    /\ shape pos = [N; L]
    /\ tokens_in max_length pos.
Proof.
  intros HL. unfold torch.expand.
  change (shape (torch.arange L)) with [L].
  change (length [L] <=? length [N; L])%nat with true. cbv iota.
  assert (Hb : broadcast_shapes [L] [N; L] = Some [N; L]).
  { unfold broadcast_shapes. simpl rev. simpl broadcast_rev.
    rewrite bdim_refl. reflexivity. }
  rewrite Hb.
  destruct (list_eq_dec Nat.eq_dec [N; L] [N; L]) as [_|Hne]; [|contradiction].
  eexists. split; [reflexivity|]. split; [reflexivity|].
  unfold tokens_in. simpl data. apply Forall_forall. intros z Hz.
  assert (Hall : forallb (fun i => (0 <=? i)%Z && (i <? Z.of_nat max_length)%Z)
                   (tabulate [N; L]
                      (fun idx => get dzero (torch.arange L) (bindex [L] idx))) = true).
  { apply forallb_tabulate. intros idx Hin.
    destruct (in_range2_shape _ _ _ Hin) as (n & l & -> & Hn & Hl).
    change (bindex [L] [n; l]) with [bi L l]. rewrite bi_id by exact Hl.
    unfold torch.arange. rewrite get_build by now apply in_range1.
    simpl nth. apply andb_true_iff. split; [apply Z.leb_le | apply Z.ltb_lt]; lia. }
  rewrite forallb_forall in Hall. specialize (Hall z Hz).
  apply andb_true_iff in Hall as [H1 H2].
  apply Z.leb_le in H1. apply Z.ltb_lt in H2. lia.
Qed.

Lemma Embedding_forward_ok (e : nn.Embedding) (x : Tensor Z) :
  tokens_in (nn.num_embeddings e) x ->
  exists y, nn.Embedding_forward e x = Py.ret y
    /\ shape y = shape x ++ [nn.embedding_dim e].
Proof.
  intros Hx. unfold nn.Embedding_forward.
  assert (Hc : forallb (fun i => (0 <=? i)%Z && (i <? Z.of_nat (nn.num_embeddings e))%Z)
                 (data x) = true).
  { apply forallb_forall. intros z Hz. unfold tokens_in in Hx.
    rewrite Forall_forall in Hx. specialize (Hx z Hz).
    apply andb_true_iff. split; [apply Z.leb_le | apply Z.ltb_lt]; lia. }
  rewrite Hc. eexists. split; reflexivity.
Qed.

(** Token plus position embeddings: the input of the first block. *)
Lemma embeddings_ok (word pos : nn.Embedding) (x : Tensor Z)
    (N L E vocab max_length : nat) :
  nn.num_embeddings word = vocab -> nn.embedding_dim word = E ->
  nn.num_embeddings pos = max_length -> nn.embedding_dim pos = E ->
  shape x = [N; L] -> tokens_in vocab x -> (L <= max_length)%nat ->
  exists positions w p out,
    torch.expand (torch.arange L) [N; L] = Py.ret positions
    /\ nn.Embedding_forward word x = Py.ret w
    /\ nn.Embedding_forward pos positions = Py.ret p
    /\ torch.add w p = Py.ret out
    /\ shape out = [N; L; E].
Proof.
  intros Hwn Hwd Hpn Hpd Hx Htok HL.
  destruct (positions_ok N L max_length HL) as (ps & Hps & Hpss & Hpt).
  destruct (Embedding_forward_ok word x) as (w & Hw & Hws); [now rewrite Hwn|].
  destruct (Embedding_forward_ok pos ps) as (p & Hp & Hpsh); [now rewrite Hpn|].
  destruct (add_same_shape w p [N; L; E]) as (out & Hout & Hos).
  - rewrite Hws, Hx, Hwd. reflexivity.
  - rewrite Hpsh, Hpss, Hpd. reflexivity.
  - exists ps, w, p, out. auto.
Qed.

Lemma Encoder_forward_ok {A} {DA : Dtype A} (E vocab max_length : nat)
    (e : Encoder.t) (x : Tensor Z) (mask : option (Tensor A)) (N S : nat) :
  Encoder_wf E vocab max_length e ->
  shape x = [N; S] -> tokens_in vocab x -> (S <= max_length)%nat ->
  (forall H, mask_fits mask [N; H; S; S]) ->
  exists out, Encoder.forward e x mask = Py.ret out /\ shape out = [N; S; E].
Proof.
  intros (Hwn & Hwd & Hpn & Hpd & Hls) Hx Htok HS Hm.
  unfold Encoder.forward, torch.unpack2, nn.Dropout_forward.
  rewrite Hx, bind_ret_l.
  destruct (embeddings_ok _ _ x N S E vocab max_length Hwn Hwd Hpn Hpd Hx Htok HS)
    as (ps & w & p & s & Hps & Hw & Hp & Hs & Hss).
  rewrite Hps, bind_ret_l, Hw, bind_ret_l, Hp, bind_ret_l, Hs, bind_ret_l.
  apply (foldM_invariant _ (fun t => shape t = [N; S; E]) (TransformerBlock_wf E));
    [|exact Hls|exact Hss].
  intros t b Ht Hb.
  exact (TransformerBlock_forward_ok E b t t t mask N S S Hb Ht Ht Ht Hm).
Qed.

Lemma Decoder_forward_ok {A B} {DA : Dtype A} {DB : Dtype B}
    (E vocab max_length : nat) (d : Decoder.t) (x : Tensor Z) (enc : Tensor R)
    (sm : option (Tensor A)) (tm : option (Tensor B)) (N T S : nat) :
  Decoder_wf E vocab max_length d ->
  shape x = [N; T] -> tokens_in vocab x -> (T <= max_length)%nat ->
  shape enc = [N; S; E] ->
  (forall H, mask_fits sm [N; H; T; S]) ->
  (forall H, mask_fits tm [N; H; T; T]) ->
  exists h out,
    Decoder.hidden d x enc sm tm = Py.ret h
    /\ shape h = [N; T; E]
    /\ Decoder.forward d x enc sm tm = Py.ret out
    /\ shape out = [N; T; vocab].
Proof.
  intros (Hwn & Hwd & Hpn & Hpd & Hls & Hfi & Hfo) Hx Htok HT Henc Hsm Htm.
  assert (Hh : exists h, Decoder.hidden d x enc sm tm = Py.ret h /\ shape h = [N; T; E]).
  { unfold Decoder.hidden, torch.unpack2, nn.Dropout_forward.
    rewrite Hx, bind_ret_l.
    destruct (embeddings_ok _ _ x N T E vocab max_length Hwn Hwd Hpn Hpd Hx Htok HT)
      as (ps & w & p & s & Hps & Hw & Hp & Hs & Hss).
    rewrite Hps, bind_ret_l, Hw, bind_ret_l, Hp, bind_ret_l, Hs, bind_ret_l.
    apply (foldM_invariant _ (fun t => shape t = [N; T; E]) (DecoderBLock_wf E));
      [|exact Hls|exact Hss].
    intros t b Ht Hb.
    exact (DecoderBLock_forward_ok E b t enc sm tm N T S Hb Ht Henc Hsm Htm). }
  destruct Hh as (h & Hh & Hhs).
  destruct (Linear_forward_shape (Decoder.fc_out d) h [N; T] E Hhs Hfi)
    as (out & Hout & Hos).
  exists h, out. split; [exact Hh|]. split; [exact Hhs|]. split.
  - unfold Decoder.forward. now rewrite Hh, bind_ret_l.
  - now rewrite Hos, Hfo.
Qed.

(** The entry point returns, on batches it accepts, a tensor of shape
    [N, target_len, vocab_size]. *)
Lemma Transformer_forward_ok (theta : StateDict) (sv tv : nat) (sp tp : Z)
    (E layers fe H : nat) (p : R) (max_length : nat) (model : Transformer.t)
    (src trg : Tensor Z) (N S T : nat) :
  Transformer.init theta sv tv sp tp E layers fe H p max_length = Py.ret model ->
  shape src = [N; S] -> shape trg = [N; T] ->
  tokens_in sv src -> tokens_in tv trg ->
  (S <= max_length)%nat -> (T <= max_length)%nat ->
  exists sm tm enc h out,
    Transformer.make_src_mask model src = Py.ret sm
    /\ Transformer.make_trg_mask model trg = Py.ret tm
    /\ Encoder.forward (Transformer.encoder model) src (Some sm) = Py.ret enc
    /\ Decoder.hidden (Transformer.decoder model) trg enc (Some sm) (Some tm) = Py.ret h
    /\ shape h = [N; T; E]
    /\ Transformer.forward model src trg = Py.ret out
    /\ shape out = [N; T; tv].
Proof.
  intros Hinit Hsrc Htrg Hts Htt HS HT.
  destruct (Transformer_init_wf _ _ _ _ _ _ _ _ _ _ _ _ Hinit) as (Hewf & Hdwf).
  destruct (make_src_mask_spec model src N S Hsrc) as (sm & Hsm & Hsms & _).
  destruct (make_trg_mask_spec model trg N T Htrg) as (tm & Htm & Htms & _).
  destruct (Encoder_forward_ok E sv max_length _ src (Some sm) N S Hewf Hsrc Hts HS)
    as (enc & Henc & Hencs).
  { intros H'. now apply src_mask_fits. }
  destruct (Decoder_forward_ok E tv max_length _ trg enc (Some sm) (Some tm) N T S
              Hdwf Htrg Htt HT Hencs)
    as (h & out & Hh & Hhs & Hout & Hos).
  { intros H'. now apply src_mask_fits. }
  { intros H'. now apply trg_mask_fits. }
  exists sm, tm, enc, h, out. repeat split; try assumption.
  unfold Transformer.forward. now rewrite Hsm, bind_ret_l, Htm, bind_ret_l, Henc, bind_ret_l.
Qed.

Lemma init_fc_out (theta : StateDict) (sv tv : nat) (sp tp : Z)
    (E layers fe H : nat) (p : R) (max_length : nat) (model : Transformer.t) :
  Transformer.init theta sv tv sp tp E layers fe H p max_length = Py.ret model ->
  Decoder.fc_out (Transformer.decoder model)
  = nn.Linear_init theta "decoder.fc_out" E tv true.
Proof.
  intros Hi. unfold Transformer.init in Hi.
  apply bind_ret_inv in Hi as (e & He & Hi).
  apply bind_ret_inv in Hi as (d & Hd & Hi). injection Hi as <-.
  unfold Decoder.init in Hd.
  apply bind_ret_inv in Hd as (ls & Hls & Hd).
  apply bind_ret_inv in Hd as (dr & _ & Hd). injection Hd as <-.
  reflexivity.
Qed.

(** The logits are the affine image of the last decoder block's output
    under the final projection. *)
Lemma logits_are_projection (theta : StateDict) (E tv : nat) (h out : Tensor R)
    (N T : nat) :
  nn.Linear_forward (nn.Linear_init theta "decoder.fc_out" E tv true) h = Py.ret out ->
  shape out = [N; T; tv] ->
  forall n t v, (n < N)%nat -> (t < T)%nat -> (v < tv)%nat ->
    getR out [n; t; v]
    = sum_n E (fun e => getR h [n; t; e] * theta "decoder.fc_out.weight"%string [v; e])
      + theta "decoder.fc_out.bias"%string [v].
Proof.
  intros Hlin Hs n t v Hn Ht Hv.
  destruct (Linear_forward_inv _ _ _ Hlin) as (_ & _ & Hval).
  cbn [nn.Linear_init nn.in_features nn.out_features nn.weight nn.bias] in Hval.
  rewrite Hval by (rewrite Hs; now apply in_range3).
  cbn [removelast last app]. f_equal.
  - apply sum_n_ext. intros e He. f_equal.
    apply getR_build. now apply in_range2.
  - apply getR_build. now apply in_range1.
Qed.

(** C6.  For every model built by [Transformer.__init__] and every pair of
    batches it accepts (source [N, src_len] and target [N, target_len],
    tokens within the vocabularies, lengths within the positional range),
    the entry point returns a tensor of shape [N, target_len, vocab_size];
    every entry of it is the affine image, under the final projection, of
    the output [h] of the last decoder block: nothing is applied after the
    projection. *)
Theorem forward_returns_raw_logits (theta : StateDict) (sv tv : nat) (sp tp : Z)
    (E layers fe H : nat) (p : R) (max_length : nat) (model : Transformer.t)
    (src trg : Tensor Z) (N S T : nat) :
  Transformer.init theta sv tv sp tp E layers fe H p max_length = Py.ret model ->
  shape src = [N; S] -> shape trg = [N; T] ->
  tokens_in sv src -> tokens_in tv trg ->
  (S <= max_length)%nat -> (T <= max_length)%nat ->
  exists sm tm enc h out,
    Transformer.make_src_mask model src = Py.ret sm
    /\ Transformer.make_trg_mask model trg = Py.ret tm
    /\ Encoder.forward (Transformer.encoder model) src (Some sm) = Py.ret enc
    /\ Decoder.hidden (Transformer.decoder model) trg enc (Some sm) (Some tm) = Py.ret h
    /\ shape h = [N; T; E]
    /\ Transformer.forward model src trg = Py.ret out
    /\ shape out = [N; T; tv]
    /\ forall n t v, (n < N)%nat -> (t < T)%nat -> (v < tv)%nat ->
         getR out [n; t; v]
         = sum_n E (fun e => getR h [n; t; e] * theta "decoder.fc_out.weight"%string [v; e])
           + theta "decoder.fc_out.bias"%string [v].
Proof.
  intros Hinit Hsrc Htrg Hts Htt HS HT.
  destruct (Transformer_forward_ok theta sv tv sp tp E layers fe H p max_length
              model src trg N S T Hinit Hsrc Htrg Hts Htt HS HT)
    as (sm & tm & enc & h & out & Hsm & Htm & Henc & Hh & Hhs & Hout & Hos).
  exists sm, tm, enc, h, out.
  do 7 (split; [assumption|]).
  apply logits_are_projection; [|exact Hos].
  rewrite <- (init_fc_out _ _ _ _ _ _ _ _ _ _ _ _ Hinit).
  unfold Transformer.forward in Hout.
  rewrite Hsm, bind_ret_l, Htm, bind_ret_l, Henc, bind_ret_l in Hout.
  unfold Decoder.forward in Hout. now rewrite Hh, bind_ret_l in Hout.
Qed.

Lemma scenario_src_tokens : tokens_in 10 scenario_src.
Proof. unfold tokens_in. simpl. repeat (apply Forall_cons; [lia|]). apply Forall_nil. Defined.

Lemma scenario_trg_tokens : tokens_in 10 scenario_trg.
Proof. unfold tokens_in. simpl. repeat (apply Forall_cons; [lia|]). apply Forall_nil. Defined.

(** The scenario of the script, for arbitrary parameter values: the output
    has shape [2, 7, 10]. *)
Lemma scenario_output_shape (theta : StateDict) :
  exists model out,
    Transformer.init_default theta 10 10 0 0 = Py.ret model
    /\ Transformer.forward model scenario_src scenario_trg = Py.ret out
    /\ shape out = [2; 7; 10]%nat.
Proof.
  destruct (Transformer_forward_ok theta 10 10 0 0 256 6 4 8 0 100
              (scenario_model theta) scenario_src scenario_trg 2 9 7
              (scenario_model_init theta) eq_refl eq_refl
              scenario_src_tokens scenario_trg_tokens ltac:(lia) ltac:(lia))
    as (_ & _ & _ & _ & out & _ & _ & _ & _ & _ & Hout & Hos).
  exists (scenario_model theta), out.
  split; [apply scenario_model_init|]. split; assumption.
Qed.

Lemma forward_returns_raw_logits_witness :
  exists sm tm enc h out,
    Transformer.make_src_mask (scenario_model example_theta) scenario_src = Py.ret sm
    /\ Transformer.make_trg_mask (scenario_model example_theta) scenario_trg = Py.ret tm
    /\ Encoder.forward (Transformer.encoder (scenario_model example_theta))
         scenario_src (Some sm) = Py.ret enc
    /\ Decoder.hidden (Transformer.decoder (scenario_model example_theta))
         scenario_trg enc (Some sm) (Some tm) = Py.ret h
    /\ shape h = [2; 7; 256]%nat
    /\ Transformer.forward (scenario_model example_theta) scenario_src scenario_trg
       = Py.ret out
    /\ shape out = [2; 7; 10]%nat
    /\ forall n t v, (n < 2)%nat -> (t < 7)%nat -> (v < 10)%nat ->
         getR out [n; t; v]
         = sum_n 256 (fun e => getR h [n; t; e]
                               * example_theta "decoder.fc_out.weight"%string [v; e])
           + example_theta "decoder.fc_out.bias"%string [v].
Proof.
  apply (forward_returns_raw_logits example_theta 10 10 0 0 256 6 4 8 0 100
           (scenario_model example_theta) scenario_src scenario_trg 2 9 7).
  - exact (scenario_model_init example_theta).
  - reflexivity.
  - reflexivity.
  - exact scenario_src_tokens.
  - exact scenario_trg_tokens.
  - lia.
  - lia.
Defined.

(** ** Head splitting and raw scores: steps 1 to 3 of the algorithm *)

(** Splitting the embedding into heads reads the same storage: head [h],
    component [d] is component [h * D + d] of the embedding. *)
Lemma split_heads_is_view (x : Tensor R) (N L H D n l h d : nat) :
  shape x = [N; L; (D * H)%nat] ->
  getR (mkTensor [N; L; H; D] (data x)) [n; l; h; d]
  = getR x [n; l; (h * D + d)%nat].
Proof.
  intros Hx. unfold getR, get. rewrite Hx. simpl shape. simpl data.
  f_equal. simpl. ring.
Qed.

Lemma Linear_forward_value4 (l : nn.Linear) (x : Tensor R) (a b c d : nat) :
  shape x = [a; b; c; d] ->
  nn.in_features l = d ->
  nn.bias l = None ->
  exists y, nn.Linear_forward l x = Py.ret y
    /\ shape y = [a; b; c; nn.out_features l]
    /\ forall i j k o, in_range [a; b; c; nn.out_features l] [i; j; k; o] ->
         getR y [i; j; k; o]
         = sum_n d (fun e => getR x [i; j; k; e] * getR (nn.weight l) [o; e]).
Proof.
  intros Hx Hin Hb. unfold nn.Linear_forward. rewrite Hx.
  cbn [last removelast app]. rewrite Hin, Nat.eqb_refl.
  eexists. split; [reflexivity|]. split; [reflexivity|].
  intros i j k o Hr. rewrite getR_build by exact Hr.
  cbn [last removelast app]. rewrite Hb. ring.
Qed.

(** The raw score of query [q] and key [k] in head [h] is the inner
    product of the projected head slices. *)
Lemma energy_is_inner_product (self : SelfAttention.t) (v k q : Tensor R)
    (N Lv Lk Lq : nat) :
  SelfAttention_wf self ->
  nn.bias (SelfAttention.keys self) = None ->
  nn.bias (SelfAttention.queries self) = None ->
  nn.bias (SelfAttention.values self) = None ->
  shape v = [N; Lv; SelfAttention.embed_size self] ->
  shape k = [N; Lk; SelfAttention.embed_size self] ->
  shape q = [N; Lq; SelfAttention.embed_size self] ->
  exists s, SelfAttention.scores self v k q = Py.ret s
    /\ forall n h qi ki,
         in_range [N; SelfAttention.heads self; Lq; Lk] [n; h; qi; ki] ->
         getR (SelfAttention.energy s) [n; h; qi; ki]
         = sum_n (SelfAttention.head_dim self) (fun d =>
             sum_n (SelfAttention.head_dim self) (fun i =>
               getR q [n; qi; (h * SelfAttention.head_dim self + i)%nat]
               * getR (nn.weight (SelfAttention.queries self)) [d; i])
             * sum_n (SelfAttention.head_dim self) (fun i =>
                 getR k [n; ki; (h * SelfAttention.head_dim self + i)%nat]
                 * getR (nn.weight (SelfAttention.keys self)) [d; i])).
Proof.
  intros (Hdiv & Hvi & Hvo & Hki & Hko & Hqi & Hqo & _) Hbk Hbq Hbv Hv Hk Hq.
  set (H := SelfAttention.heads self) in *.
  set (D := SelfAttention.head_dim self) in *.
  unfold SelfAttention.scores.
  rewrite (size_ok q 0 N) by (rewrite Hq; reflexivity). rewrite bind_ret_l.
  rewrite (size_ok v 1 Lv) by (rewrite Hv; reflexivity). rewrite bind_ret_l.
  rewrite (size_ok k 1 Lk) by (rewrite Hk; reflexivity). rewrite bind_ret_l.
  rewrite (size_ok q 1 Lq) by (rewrite Hq; reflexivity). rewrite bind_ret_l.
  rewrite (reshape_ok v) by (rewrite Hv; now apply numel_split). rewrite bind_ret_l.
  rewrite (reshape_ok k) by (rewrite Hk; now apply numel_split). rewrite bind_ret_l.
  rewrite (reshape_ok q) by (rewrite Hq; now apply numel_split). rewrite bind_ret_l.
  fold H D.
  destruct (Linear_forward_value4 (SelfAttention.values self)
              (mkTensor [N; Lv; H; D] (data v)) N Lv H D eq_refl Hvi Hbv)
    as (pv & -> & Hpv & _).
  rewrite bind_ret_l.
  destruct (Linear_forward_value4 (SelfAttention.keys self)
              (mkTensor [N; Lk; H; D] (data k)) N Lk H D eq_refl Hki Hbk)
    as (pk & -> & Hpk & Hpkv).
  rewrite bind_ret_l.
  destruct (Linear_forward_value4 (SelfAttention.queries self)
              (mkTensor [N; Lq; H; D] (data q)) N Lq H D eq_refl Hqi Hbq)
    as (pq & -> & Hpq & Hpqv).
  rewrite bind_ret_l.
  rewrite Hko in Hpk, Hpkv. rewrite Hqo in Hpq, Hpqv.
  unfold torch.einsum_nqhd_nkhd_nhqk. rewrite Hpq, Hpk. cbv beta iota.
  rewrite !bdim_refl, bind_ret_l.
  eexists. split; [reflexivity|].
  intros n h qi ki Hr. cbn [SelfAttention.energy].
  rewrite getR_build by exact Hr.
  apply in_range4_inv in Hr as (Hn & Hh & Hqi' & Hki').
  apply sum_n_ext. intros d Hd.
  rewrite !bi_id by assumption.
  rewrite Hpqv by now apply in_range4.
  rewrite Hpkv by now apply in_range4.
  f_equal; apply sum_n_ext; intros i Hi; f_equal.
  - apply split_heads_is_view. now rewrite Hdiv.
  - apply split_heads_is_view. now rewrite Hdiv.
Qed.

(* ===================================================================== *)
(** * Further properties of the code *)
(* ===================================================================== *)

(** ** The source mask *)

(** X1.  [make_src_mask] returns, for a batch of shape [N, src_len], a mask
    of shape [N, 1, 1, src_len] that is false exactly at the padding
    tokens; it broadcasts to the scores of every head count and query
    length, where it forbids the key [k] of sentence [n] for every head and
    every query exactly when that token is the padding token. *)
Theorem src_mask_marks_padding_for_all_heads_and_queries
    (tr : Transformer.t) (src : Tensor Z) (N S : nat) :
  shape src = [N; S] ->
  exists m,
    Transformer.make_src_mask tr src = Py.ret m
    /\ shape m = [N; 1; 1; S]%nat
    /\ (forall H Q, mask_fits (Some m) [N; H; Q; S])
    /\ forall n h q k, (n < N)%nat -> (k < S)%nat ->
         Spec.masked_at (Some m) n h q k
         = (getZ src [n; k] =? Transformer.src_pad_idx tr)%Z.
Proof.
  intros Hs.
  destruct (make_src_mask_spec tr src N S Hs) as (m & Hm & Hsm & Hv).
  exists m. split; [exact Hm|]. split; [exact Hsm|]. split.
  - intros H Q. now apply src_mask_fits.
  - intros n h q k Hn Hk.
    rewrite (src_mask_masked_at m N S n h q k _ Hsm (Hv n k Hn Hk) Hn Hk).
    apply negb_involutive.
Qed.

Lemma src_mask_marks_padding_for_all_heads_and_queries_witness :
  exists m,
    Transformer.make_src_mask example_transformer example_src = Py.ret m
    /\ shape m = [1; 1; 1; 2]%nat
    /\ (forall H Q, mask_fits (Some m) [1; H; Q; 2]%nat)
    /\ forall n h q k, (n < 1)%nat -> (k < 2)%nat ->
         Spec.masked_at (Some m) n h q k
         = (getZ example_src [n; k] =? Transformer.src_pad_idx example_transformer)%Z.
Proof.
  apply (src_mask_marks_padding_for_all_heads_and_queries
           example_transformer example_src 1 2).
  reflexivity.
Defined.

(** ** The output of the attention module: lines 41 to 48 *)

Lemma merge_heads_is_view (x : Tensor R) (N L H D n l j : nat) :
  shape x = [N; L; H; D] -> (j < H * D)%nat ->
  getR (mkTensor [N; L; (H * D)%nat] (data x)) [n; l; j]
  = getR x [n; l; (j / D)%nat; (j mod D)%nat].
Proof.
  intros Hx Hj. unfold getR, get. rewrite Hx. simpl shape. simpl data.
  f_equal. simpl.
  assert (HD : D <> 0%nat) by (intros ->; lia).
  pose proof (Nat.div_mod_eq j D) as Hdm.
  set (a := (j / D)%nat) in *. set (b := (j mod D)%nat) in *.
  rewrite Hdm. ring.
Qed.

(** The whole call, step by step: raw scores, weights, the weighted sum of
    the projected values in each head, and the projection of the merged
    heads. *)
Lemma forward_trace {A} {DA : Dtype A} (self : SelfAttention.t) (v k q : Tensor R)
    (mask : option (Tensor A)) (N L Lq : nat) :
  SelfAttention_wf self ->
  shape v = [N; L; SelfAttention.embed_size self] ->
  shape k = [N; L; SelfAttention.embed_size self] ->
  shape q = [N; Lq; SelfAttention.embed_size self] ->
  mask_fits mask [N; SelfAttention.heads self; Lq; L] ->
  exists s w ctx out,
    SelfAttention.scores self v k q = Py.ret s
    /\ SelfAttention.attention self v k q mask = Py.ret w
    /\ (forall n h qi l,
          in_range [N; SelfAttention.heads self; Lq; L] [n; h; qi; l] ->
          getR w [n; h; qi; l]
          = Spec.attention_weight (SelfAttention.embed_size self)
              (SelfAttention.energy s) mask L n h qi l)
    /\ torch.einsum_nhql_nlhd_nqhd w (SelfAttention.projected_values s) = Py.ret ctx
    /\ shape ctx = [N; Lq; SelfAttention.heads self; SelfAttention.head_dim self]
    /\ (forall n qi h d,
          in_range [N; Lq; SelfAttention.heads self; SelfAttention.head_dim self]
            [n; qi; h; d] ->
          getR ctx [n; qi; h; d]
          = sum_n L (fun l =>
              getR w [n; h; qi; l]
              * getR (SelfAttention.projected_values s) [n; l; h; d]))
    /\ SelfAttention.forward self v k q mask = Py.ret out
    /\ shape out = [N; Lq; SelfAttention.embed_size self]
    /\ forall n qi e,
         in_range [N; Lq; SelfAttention.embed_size self] [n; qi; e] ->
         getR out [n; qi; e]
         = sum_n (SelfAttention.heads self * SelfAttention.head_dim self) (fun j =>
             getR ctx [n; qi; (j / SelfAttention.head_dim self)%nat;
                       (j mod SelfAttention.head_dim self)%nat]
             * getR (nn.weight (SelfAttention.fc_out self)) [e; j])
           + match nn.bias (SelfAttention.fc_out self) with
             | Some b => getR b [e]
             | None => 0
             end.
Proof.
  intros Hwf Hv Hk Hq Hm.
  destruct (scores_ok self v k q N L L Lq Hwf Hv Hk Hq)
    as (s & Hs & HN & HQ & Hpv & He).
  destruct (weights_spec self _ mask _ _ _ _ He Hm) as (w & Hw & Hsw & Hwv).
  destruct Hwf as (Hdiv & _ & _ & _ & _ & _ & _ & Hfi & Hfo).
  set (H := SelfAttention.heads self) in *.
  set (D := SelfAttention.head_dim self) in *.
  assert (Hctx : exists ctx,
    torch.einsum_nhql_nlhd_nqhd w (SelfAttention.projected_values s) = Py.ret ctx
    /\ shape ctx = [N; Lq; H; D]
    /\ forall n qi h d, in_range [N; Lq; H; D] [n; qi; h; d] ->
         getR ctx [n; qi; h; d]
         = sum_n L (fun l => getR w [n; h; qi; l]
                             * getR (SelfAttention.projected_values s) [n; l; h; d])).
  { unfold torch.einsum_nhql_nlhd_nqhd. rewrite Hsw, Hpv. cbv beta iota.
    rewrite !bdim_refl. eexists. split; [reflexivity|]. split; [reflexivity|].
    intros n qi h d Hr. rewrite getR_build by exact Hr.
    apply in_range4_inv in Hr as (Hn & Hqi & Hh & Hd).
    apply sum_n_ext. intros l Hl. now rewrite !bi_id by assumption. }
  destruct Hctx as (ctx & Hctx & Hsc & Hcv).
  assert (Hout : exists out,
    SelfAttention.forward self v k q mask = Py.ret out
    /\ nn.Linear_forward (SelfAttention.fc_out self)
         (mkTensor [N; Lq; (H * D)%nat] (data ctx)) = Py.ret out).
  { unfold SelfAttention.forward.
    rewrite Hs, bind_ret_l, Hw, bind_ret_l, Hctx, bind_ret_l, HN, HQ.
    rewrite reshape_ok by (rewrite Hsc; cbn [numel fold_right]; lia).
    rewrite bind_ret_l. fold H D.
    destruct (Linear_forward_shape (SelfAttention.fc_out self)
                (mkTensor [N; Lq; (H * D)%nat] (data ctx)) [N; Lq] _ eq_refl Hfi)
      as (out & Hout & _).
    exists out. split; exact Hout. }
  destruct Hout as (out & Hout & Hlin).
  destruct (Linear_forward_inv _ _ _ Hlin) as (_ & Hso & Hov).
  cbn [shape removelast app] in Hso. rewrite Hfo in Hso. rewrite Hfi in Hov.
  exists s, w, ctx, out.
  split; [exact Hs|]. split.
  { unfold SelfAttention.attention. now rewrite Hs, bind_ret_l. }
  split; [exact Hwv|]. split; [exact Hctx|]. split; [exact Hsc|].
  split; [exact Hcv|]. split; [exact Hout|]. split; [exact Hso|].
  intros n qi e Hr. rewrite Hov by (rewrite Hso; exact Hr).
  cbn [removelast last app]. f_equal.
  apply sum_n_ext. intros j Hj. f_equal.
  now apply merge_heads_is_view.
Qed.

(** X3.  For value, key and query tensors of shapes [N, L, E], [N, L, E]
    and [N, query_len, E], the attention module returns a tensor of shape
    [N, query_len, E], whatever the head count; entry [e] of position [q] is
    the output projection of the merged heads, where component [d] of head
    [h] is the sum over the keys of the attention weight times the
    projected value. *)
Theorem attention_output_is_projected_weighted_values {A} {DA : Dtype A}
    (self : SelfAttention.t) (v k q : Tensor R) (mask : option (Tensor A))
    (N L Lq : nat) :
  SelfAttention_wf self ->
  shape v = [N; L; SelfAttention.embed_size self] ->
  shape k = [N; L; SelfAttention.embed_size self] ->
  shape q = [N; Lq; SelfAttention.embed_size self] ->
  mask_fits mask [N; SelfAttention.heads self; Lq; L] ->
  exists s w out,
    SelfAttention.scores self v k q = Py.ret s
    /\ SelfAttention.attention self v k q mask = Py.ret w
    /\ SelfAttention.forward self v k q mask = Py.ret out
    /\ shape out = [N; Lq; SelfAttention.embed_size self]
    /\ forall n qi e,
         (n < N)%nat -> (qi < Lq)%nat -> (e < SelfAttention.embed_size self)%nat ->
         getR out [n; qi; e]
         = sum_n (SelfAttention.heads self * SelfAttention.head_dim self) (fun j =>
             sum_n L (fun l =>
               getR w [n; (j / SelfAttention.head_dim self)%nat; qi; l]
               * getR (SelfAttention.projected_values s)
                   [n; l; (j / SelfAttention.head_dim self)%nat;
                    (j mod SelfAttention.head_dim self)%nat])
             * getR (nn.weight (SelfAttention.fc_out self)) [e; j])
           + match nn.bias (SelfAttention.fc_out self) with
             | Some b => getR b [e]
             | None => 0
             end.
Proof.
  intros Hwf Hv Hk Hq Hm.
  destruct (forward_trace self v k q mask N L Lq Hwf Hv Hk Hq Hm)
    as (s & w & ctx & out & Hs & Hw & _ & _ & _ & Hcv & Hout & Hso & Hov).
  exists s, w, out. do 4 (split; [assumption|]).
  intros n qi e Hn Hqi He. rewrite Hov by now apply in_range3.
  f_equal. apply sum_n_ext. intros j Hj. f_equal.
  apply Hcv.
  assert (HD : SelfAttention.head_dim self <> 0%nat) by (intros E0; rewrite E0 in Hj; lia).
  apply in_range4; try assumption.
  - apply Nat.Div0.div_lt_upper_bound. lia.
  - now apply Nat.mod_upper_bound.
Qed.

Lemma attention_output_is_projected_weighted_values_witness :
  exists s w out,
    SelfAttention.scores example_heads long_keys long_keys some_queries = Py.ret s
    /\ SelfAttention.attention example_heads long_keys long_keys some_queries
         (@None (Tensor bool)) = Py.ret w
    /\ SelfAttention.forward example_heads long_keys long_keys some_queries
         (@None (Tensor bool)) = Py.ret out
    /\ shape out = [2; 3; 4]%nat
    /\ forall n qi e,
         (n < 2)%nat -> (qi < 3)%nat -> (e < 4)%nat ->
         getR out [n; qi; e]
         = sum_n (2 * 2) (fun j =>
             sum_n 5 (fun l =>
               getR w [n; (j / 2)%nat; qi; l]
               * getR (SelfAttention.projected_values s)
                   [n; l; (j / 2)%nat; (j mod 2)%nat])
             * getR (nn.weight (SelfAttention.fc_out example_heads)) [e; j])
           + match nn.bias (SelfAttention.fc_out example_heads) with
             | Some b => getR b [e]
             | None => 0
             end.
Proof.
  apply (@attention_output_is_projected_weighted_values bool _ example_heads
           long_keys long_keys some_queries None 2 5 3).
  - exact example_heads_wf.
  - reflexivity.
  - reflexivity.
  - reflexivity.
  - exact I.
Defined.

(** ** Attention averages the values *)

Lemma Rsum_map_le (f g : nat -> R) (a n : nat) :
  (forall i, (a <= i < a + n)%nat -> f i <= g i) ->
  Rsum (map f (seq a n)) <= Rsum (map g (seq a n)).
Proof.
  revert a. induction n as [|n IH]; intros a H; simpl.
  - lra.
  - specialize (IH (S a) ltac:(intros i Hi; apply H; lia)).
    specialize (H a ltac:(lia)). lra.
Qed.

Lemma sum_n_le (n : nat) (f g : nat -> R) :
  (forall i, (i < n)%nat -> f i <= g i) -> sum_n n f <= sum_n n g.
Proof. intros H. apply Rsum_map_le. intros i Hi. apply H. lia. Qed.

(** A weighted sum with non-negative weights of total 1 stays between the
    bounds of its terms. *)
Lemma sum_n_convex (n : nat) (w x : nat -> R) (lo hi : R) :
  (forall l, (l < n)%nat -> 0 <= w l) ->
  sum_n n w = 1 ->
  (forall l, (l < n)%nat -> lo <= x l <= hi) ->
  lo <= sum_n n (fun l => w l * x l) <= hi.
Proof.
  intros Hw H1 Hx. split.
  - replace lo with (sum_n n w * lo) by (rewrite H1; ring).
    unfold sum_n at 1. rewrite <- Rsum_map_scale.
    apply sum_n_le. intros l Hl.
    apply Rmult_le_compat_l; [now apply Hw | now apply Hx].
  - replace hi with (sum_n n w * hi) by (rewrite H1; ring).
    unfold sum_n at 2. rewrite <- Rsum_map_scale.
    apply sum_n_le. intros l Hl.
    apply Rmult_le_compat_l; [now apply Hw | now apply Hx].
Qed.

(** X4.  In every head, the output of the attention for a query, before
    the heads are merged and projected, is a weighted average of the
    projected values: each component lies between the smallest and the
    largest value of that component over the keys, whatever the mask. *)
Theorem head_output_within_value_range {A} {DA : Dtype A}
    (self : SelfAttention.t) (v k q : Tensor R) (mask : option (Tensor A))
    (N L Lq n qi h d : nat) :
  SelfAttention_wf self ->
  shape v = [N; L; SelfAttention.embed_size self] ->
  shape k = [N; L; SelfAttention.embed_size self] ->
  shape q = [N; Lq; SelfAttention.embed_size self] ->
  mask_fits mask [N; SelfAttention.heads self; Lq; L] ->
  (n < N)%nat -> (qi < Lq)%nat ->
  (h < SelfAttention.heads self)%nat -> (d < SelfAttention.head_dim self)%nat ->
  (0 < L)%nat ->
  exists s w ctx,
    SelfAttention.scores self v k q = Py.ret s
    /\ SelfAttention.attention self v k q mask = Py.ret w
    /\ torch.einsum_nhql_nlhd_nqhd w (SelfAttention.projected_values s) = Py.ret ctx
    /\ forall lo hi,
         (forall l, (l < L)%nat ->
            lo <= getR (SelfAttention.projected_values s) [n; l; h; d] <= hi) ->
         lo <= getR ctx [n; qi; h; d] <= hi.
Proof.
  intros Hwf Hv Hk Hq Hm Hn Hqi Hh Hd HL.
  destruct (forward_trace self v k q mask N L Lq Hwf Hv Hk Hq Hm)
    as (s & w & ctx & out & Hs & Hw & Hwv & Hctx & _ & Hcv & _).
  exists s, w, ctx. do 3 (split; [assumption|]).
  intros lo hi Hb. rewrite Hcv by now apply in_range4.
  apply sum_n_convex.
  - intros l Hl. rewrite Hwv by now apply in_range4.
    left. now apply attention_weight_pos.
  - rewrite (sum_n_ext L _ (fun l =>
               Spec.attention_weight (SelfAttention.embed_size self)
                 (SelfAttention.energy s) mask L n h qi l)).
    + unfold Spec.attention_weight, Spec.softmax_weight.
      now apply softmax_sums_to_one.
    + intros l Hl. apply Hwv. now apply in_range4.
  - exact Hb.
Qed.

Lemma head_output_within_value_range_witness :
  exists s w ctx,
    SelfAttention.scores example_heads long_keys long_keys some_queries = Py.ret s
    /\ SelfAttention.attention example_heads long_keys long_keys some_queries
         (Some example_keys_mask) = Py.ret w
    /\ torch.einsum_nhql_nlhd_nqhd w (SelfAttention.projected_values s) = Py.ret ctx
    /\ forall lo hi,
         (forall l, (l < 5)%nat ->
            lo <= getR (SelfAttention.projected_values s) [1; l; 1; 0]%nat <= hi) ->
         lo <= getR ctx [1; 2; 1; 0]%nat <= hi.
Proof.
  apply (@head_output_within_value_range bool _ example_heads
           long_keys long_keys some_queries (Some example_keys_mask)
           2 5 3 1 2 1 0).
  - exact example_heads_wf.
  - reflexivity.
  - reflexivity.
  - reflexivity.
  - split; [reflexivity|]. vm_compute. reflexivity.
  - lia.
  - lia.
  - simpl; lia.
  - simpl; lia.
  - lia.
Defined.

(** ** Masks that forbid nothing, masks of another length *)

Lemma weights_all_allowed {A} {DA : Dtype A} (self : SelfAttention.t)
    (e : Tensor R) (m : Tensor A) (N H Q K : nat) :
  shape e = [N; H; Q; K] ->
  mask_fits (Some m) [N; H; Q; K] ->
  (forall n h q k, in_range [N; H; Q; K] [n; h; q; k] ->
     Spec.masked_at (Some m) n h q k = false) ->
  SelfAttention.weights self e (Some m)
  = SelfAttention.weights self e (@None (Tensor A)).
Proof.
  intros He Hm Hfree.
  destruct (masked_fill_eq0 e m N H Q K He Hm) as (e' & He' & Hs' & Hv').
  unfold SelfAttention.weights. rewrite He', !bind_ret_l.
  f_equal. unfold torch.div_scalar, build. rewrite Hs', He. f_equal.
  apply tabulate_ext. intros idx Hin.
  destruct (in_range4_shape _ _ _ _ _ Hin) as (n & h & q & k & -> & Hin').
  rewrite Hv' by exact Hin'.
  now rewrite (masked_score_unmasked e (Some m) n h q k (Hfree n h q k Hin')).
Qed.

(** X5.  For a source batch that holds no padding token, the source mask
    changes nothing: the attention module returns with it exactly what it
    returns without a mask. *)
Theorem unpadded_source_mask_changes_nothing
    (tr : Transformer.t) (self : SelfAttention.t) (src : Tensor Z)
    (v k q : Tensor R) (N S Lq : nat) :
  SelfAttention_wf self ->
  shape src = [N; S] ->
  (forall n j, (n < N)%nat -> (j < S)%nat ->
     getZ src [n; j] <> Transformer.src_pad_idx tr) ->
  shape v = [N; S; SelfAttention.embed_size self] ->
  shape k = [N; S; SelfAttention.embed_size self] ->
  shape q = [N; Lq; SelfAttention.embed_size self] ->
  exists m,
    Transformer.make_src_mask tr src = Py.ret m
    /\ SelfAttention.forward self v k q (Some m)
       = SelfAttention.forward self v k q (@None (Tensor bool)).
Proof.
  intros Hwf Hsrc Hnp Hv Hk Hq.
  destruct (make_src_mask_spec tr src N S Hsrc) as (m & Hm & Hsm & Hmv).
  exists m. split; [exact Hm|].
  destruct (scores_ok self v k q N S S Lq Hwf Hv Hk Hq) as (s & Hs & _ & _ & _ & He).
  unfold SelfAttention.forward. rewrite Hs, !bind_ret_l.
  rewrite (weights_all_allowed self (SelfAttention.energy s) m N _ Lq S He
             (src_mask_fits m N _ Lq S Hsm)); [reflexivity|].
  intros n h qi j Hin. apply in_range4_inv in Hin as (Hn & _ & _ & Hj).
  rewrite (src_mask_masked_at m N S n h qi j _ Hsm (Hmv n j Hn Hj) Hn Hj).
  destruct (Z.eqb_spec (getZ src [n; j]) (Transformer.src_pad_idx tr)) as [Heq|];
    [|reflexivity].
  exfalso. exact (Hnp n j Hn Hj Heq).
Qed.

Lemma unpadded_source_mask_changes_nothing_witness :
  exists m,
    Transformer.make_src_mask example_transformer example_unpadded = Py.ret m
    /\ SelfAttention.forward example_attention example_y example_y example_query (Some m)
       = SelfAttention.forward example_attention example_y example_y example_query
           (@None (Tensor bool)).
Proof.
  apply (unpadded_source_mask_changes_nothing example_transformer example_attention
           example_unpadded example_y example_y example_query 1 2 1).
  - exact example_attention_wf.
  - reflexivity.
  - intros n j Hn Hj. destruct n as [|n]; [|lia].
    destruct j as [|[|j]]; [discriminate | discriminate | lia].
  - reflexivity.
  - reflexivity.
  - reflexivity.
Defined.

(** X6.  A source mask built from a batch of another length is rejected:
    when the mask's key length differs from the key length of the call and
    neither is 1, the mask fill raises the runtime error of the tensor
    library. *)
Theorem source_mask_of_other_length_fails
    (tr : Transformer.t) (self : SelfAttention.t) (src : Tensor Z)
    (v k q : Tensor R) (N N' S Lv Lk Lq : nat) :
  SelfAttention_wf self ->
  shape src = [N'; S] ->
  shape v = [N; Lv; SelfAttention.embed_size self] ->
  shape k = [N; Lk; SelfAttention.embed_size self] ->
  shape q = [N; Lq; SelfAttention.embed_size self] ->
  S <> Lk -> S <> 1%nat -> Lk <> 1%nat ->
  exists m,
    Transformer.make_src_mask tr src = Py.ret m
    /\ SelfAttention.forward self v k q (Some m) = Py.raise Py.RuntimeError.
Proof.
  intros Hwf Hsrc Hv Hk Hq HS HS1 HK1.
  destruct (make_src_mask_spec tr src N' S Hsrc) as (m & Hm & Hsm & _).
  exists m. split; [exact Hm|].
  destruct (scores_ok self v k q N Lv Lk Lq Hwf Hv Hk Hq) as (s & Hs & _ & _ & _ & He).
  unfold SelfAttention.forward, SelfAttention.weights, torch.masked_fill.
  rewrite Hs, bind_ret_l, He.
  change (shape (torch.eq0 m)) with (shape m). rewrite Hsm.
  unfold broadcast_shapes. simpl rev. simpl broadcast_rev.
  rewrite (bdim_none Lk S) by auto. reflexivity.
Qed.

Lemma source_mask_of_other_length_fails_witness :
  exists m,
    Transformer.make_src_mask example_transformer example_pair = Py.ret m
    /\ SelfAttention.forward example_heads long_keys long_keys some_queries (Some m)
       = Py.raise Py.RuntimeError.
Proof.
  apply (source_mask_of_other_length_fails example_transformer example_heads
           example_pair long_keys long_keys some_queries 2 2 2 5 5 3).
  - exact example_heads_wf.
  - reflexivity.
  - reflexivity.
  - reflexivity.
  - reflexivity.
  - lia.
  - lia.
  - lia.
Defined.

(** ** Blocks keep the shape of the residual stream *)

(** X7.  A [TransformerBlock] constructed with [H] heads maps a query
    tensor of shape [N, query_len, E], with value and key tensors of shape
    [N, L, E] of any length [L] and any mask that broadcasts to the scores
    [N, H, query_len, L] (or no mask), to a tensor of the query's shape:
    both residual additions and both normalisations go through. *)
Theorem transformer_block_keeps_query_shape {A} {DA : Dtype A}
    (theta : StateDict) (name : string) (E H : nat) (p : R) (fe : nat)
    (b : TransformerBlock.t) (v k q : Tensor R) (mask : option (Tensor A))
    (N L Lq : nat) :
  TransformerBlock.init theta name E H p fe = Py.ret b ->
  shape v = [N; L; E] -> shape k = [N; L; E] -> shape q = [N; Lq; E] ->
  mask_fits mask [N; H; Lq; L] ->
  exists out, TransformerBlock.forward b v k q mask = Py.ret out
    /\ shape out = [N; Lq; E].
Proof.
  intros Hinit Hv Hk Hq Hm.
  pose proof (TransformerBlock_init_wf theta name E H p fe b Hinit) as Hwf.
  unfold TransformerBlock.init in Hinit.
  apply bind_ret_inv in Hinit as (a & Ha & Hinit).
  apply bind_ret_inv in Hinit as (dr & _ & Hinit).
  destruct (init_inv theta _ E H a Ha) as (_ & _ & HH & _).
  assert (Hheads : SelfAttention.heads (TransformerBlock.attention b) = H).
  { injection Hinit as <-. exact HH. }
  apply (TransformerBlock_forward_heads_ok E b v k q mask N L Lq); try assumption.
  now rewrite Hheads.
Qed.

Lemma ret_value_or_default {A} (m : Py.M A) (d : A) :
  Py.warnings m = [] -> Py.failed m = false ->
  m = Py.ret (match Py.value m with Some a => a | None => d end).
Proof.
  unfold Py.warnings, Py.failed, Py.value.
  destruct m as [w [e|a]]; cbn [fst snd]; [discriminate|].
  now intros -> _.
Qed.

Ltac unfold_constructors :=
  unfold Transformer.init, Encoder.init, Decoder.init, DecoderBLock.init,
    TransformerBlock.init;
  rewrite (Dropout_init_valid 0) by lra.

Lemma example_block_init :
  TransformerBlock.init example_theta "block" 4 2 0 4 = Py.ret example_block.
Proof. unfold_constructors. reflexivity. Qed.

Lemma example_decoder_block_init :
  DecoderBLock.init example_theta "layer" 4 2 4 0 = Py.ret example_decoder_block.
Proof.
  apply ret_value_or_default; unfold_constructors; lazy; reflexivity.
Qed.

Lemma example_encoder_init :
  Encoder.init example_theta "encoder" 3 4 2 2 4 0 10 = Py.ret example_encoder.
Proof.
  apply ret_value_or_default; unfold_constructors; lazy; reflexivity.
Qed.

Lemma example_model_init :
  Transformer.init example_theta 3 3 0 0 4 1 4 2 0 10 = Py.ret example_model.
Proof.
  apply ret_value_or_default; unfold_constructors; lazy; reflexivity.
Qed.

Lemma transformer_block_keeps_query_shape_witness :
  exists out,
    TransformerBlock.forward example_block example_encoded example_encoded
      example_target_state (Some example_head_mask) = Py.ret out
    /\ shape out = [2; 3; 4]%nat.
Proof.
  apply (@transformer_block_keeps_query_shape bool _ example_theta "block" 4 2 0 4
           example_block example_encoded example_encoded example_target_state
           (Some example_head_mask) 2 5 3 example_block_init).
  - reflexivity.
  - reflexivity.
  - reflexivity.
  - split; reflexivity.
Defined.

(** X8.  A constructed [DecoderBLock], given a target state of shape
    [N, trg_len, E], an encoder output of shape [N, src_len, E] of any
    source length, and the two masks built from batches of these shapes,
    returns a tensor of the target state's shape: the causal mask fits the
    self-attention scores and the source mask fits the cross-attention
    scores. *)
Theorem decoder_block_keeps_target_shape
    (theta : StateDict) (name : string) (E H fe : nat) (p : R)
    (d : DecoderBLock.t) (tr : Transformer.t) (src trg : Tensor Z)
    (x enc : Tensor R) (N S T : nat) :
  DecoderBLock.init theta name E H fe p = Py.ret d ->
  shape src = [N; S] -> shape trg = [N; T] ->
  shape x = [N; T; E] -> shape enc = [N; S; E] ->
  exists sm tm out,
    Transformer.make_src_mask tr src = Py.ret sm
    /\ Transformer.make_trg_mask tr trg = Py.ret tm
    /\ DecoderBLock.forward d x enc enc (Some sm) (Some tm) = Py.ret out
    /\ shape out = [N; T; E].
Proof.
  intros Hinit Hsrc Htrg Hx Henc.
  destruct (make_src_mask_spec tr src N S Hsrc) as (sm & Hsm & Hsms & _).
  destruct (make_trg_mask_spec tr trg N T Htrg) as (tm & Htm & Htms & _).
  destruct (DecoderBLock_forward_ok E d x enc (Some sm) (Some tm) N T S
              (DecoderBLock_init_wf theta name E H fe p d Hinit) Hx Henc)
    as (out & Hout & Hos).
  - intros H'. now apply src_mask_fits.
  - intros H'. now apply trg_mask_fits.
  - exists sm, tm, out. auto.
Qed.

Lemma decoder_block_keeps_target_shape_witness :
  exists sm tm out,
    Transformer.make_src_mask example_transformer example_src25 = Py.ret sm
    /\ Transformer.make_trg_mask example_transformer example_trg23 = Py.ret tm
    /\ DecoderBLock.forward example_decoder_block example_target_state
         example_encoded example_encoded (Some sm) (Some tm) = Py.ret out
    /\ shape out = [2; 3; 4]%nat.
Proof.
  apply (decoder_block_keeps_target_shape example_theta "layer" 4 2 4 0
           example_decoder_block example_transformer example_src25 example_trg23
           example_target_state example_encoded 2 5 3 example_decoder_block_init).
  - reflexivity.
  - reflexivity.
  - reflexivity.
  - reflexivity.
Defined.

(** ** The encoder *)

(** X9.  A constructed [Encoder] maps a batch of shape [N, src_len], whose
    tokens lie in the vocabulary and whose length is within the positional
    range, together with the source mask of that batch, to a tensor of
    shape [N, src_len, E]: every layer runs without error. *)
Theorem encoder_returns_one_vector_per_token
    (theta : StateDict) (name : string) (vocab E layers H fe : nat) (p : R)
    (max_length : nat) (e : Encoder.t) (tr : Transformer.t) (src : Tensor Z)
    (N S : nat) :
  Encoder.init theta name vocab E layers H fe p max_length = Py.ret e ->
  shape src = [N; S] -> tokens_in vocab src -> (S <= max_length)%nat ->
  exists sm out,
    Transformer.make_src_mask tr src = Py.ret sm
    /\ Encoder.forward e src (Some sm) = Py.ret out
    /\ shape out = [N; S; E]
    /\ length (Encoder.layers e) = layers.
Proof.
  intros Hinit Hsrc Htok HS.
  destruct (make_src_mask_spec tr src N S Hsrc) as (sm & Hsm & Hsms & _).
  destruct (Encoder_forward_ok E vocab max_length e src (Some sm) N S
              (Encoder_init_wf theta name vocab E layers H fe p max_length e Hinit)
              Hsrc Htok HS)
    as (out & Hout & Hos).
  { intros H'. now apply src_mask_fits. }
  exists sm, out. do 3 (split; [assumption|]).
  unfold Encoder.init in Hinit.
  apply bind_ret_inv in Hinit as (ls & Hls & Hinit).
  apply bind_ret_inv in Hinit as (dr & _ & Hinit). injection Hinit as <-.
  cbn [Encoder.layers]. apply mapM_inv in Hls.
  rewrite <- (Forall2_length Hls). apply length_seq.
Qed.

Lemma example_src25_tokens : tokens_in 3 example_src25.
Proof. unfold tokens_in. simpl. repeat (apply Forall_cons; [lia|]). apply Forall_nil. Defined.

Lemma example_trg23_tokens : tokens_in 3 example_trg23.
Proof. unfold tokens_in. simpl. repeat (apply Forall_cons; [lia|]). apply Forall_nil. Defined.

Lemma encoder_returns_one_vector_per_token_witness :
  exists sm out,
    Transformer.make_src_mask example_transformer example_src25 = Py.ret sm
    /\ Encoder.forward example_encoder example_src25 (Some sm) = Py.ret out
    /\ shape out = [2; 5; 4]%nat
    /\ length (Encoder.layers example_encoder) = 2%nat.
Proof.
  apply (encoder_returns_one_vector_per_token example_theta "encoder" 3 4 2 2 4 0 10
           example_encoder example_transformer example_src25 2 5 example_encoder_init).
  - reflexivity.
  - exact example_src25_tokens.
  - lia.
Defined.

Lemma positions_explicit (N L : nat) :
  torch.expand (torch.arange L) [N; L]
  = Py.ret (build [N; L] (fun idx => get dzero (torch.arange L) (bindex [L] idx))).
Proof.
  unfold torch.expand.
  change (shape (torch.arange L)) with [L].
  change (length [L] <=? length [N; L])%nat with true. cbv iota.
  assert (Hb : broadcast_shapes [L] [N; L] = Some [N; L]).
  { unfold broadcast_shapes. simpl rev. simpl broadcast_rev.
    rewrite bdim_refl. reflexivity. }
  rewrite Hb.
  destruct (list_eq_dec Nat.eq_dec [N; L] [N; L]) as [_|Hne]; [|contradiction].
  reflexivity.
Qed.

Lemma position_value (N L n l : nat) :
  (n < N)%nat -> (l < L)%nat ->
  get dzero (torch.arange L) (bindex [L] [n; l]) = Z.of_nat l.
Proof.
  intros Hn Hl. change (bindex [L] [n; l]) with [bi L l].
  rewrite bi_id by exact Hl. unfold torch.arange.
  rewrite get_build by now apply in_range1. reflexivity.
Qed.

Lemma tokens_in_check (vocab : nat) (x : Tensor Z) :
  tokens_in vocab x ->
  forallb (fun i => (0 <=? i)%Z && (i <? Z.of_nat vocab)%Z) (data x) = true.
Proof.
  intros Hx. apply forallb_forall. intros z Hz. unfold tokens_in in Hx.
  rewrite Forall_forall in Hx. specialize (Hx z Hz).
  apply andb_true_iff. split; [apply Z.leb_le | apply Z.ltb_lt]; lia.
Qed.

Lemma positions_check (N L max_length : nat) :
  (L <= max_length)%nat ->
  forallb (fun i => (0 <=? i)%Z && (i <? Z.of_nat max_length)%Z)
    (tabulate [N; L] (fun idx => get dzero (torch.arange L) (bindex [L] idx))) = true.
Proof.
  intros HL. apply forallb_tabulate. intros idx Hin.
  destruct (in_range2_shape _ _ _ Hin) as (n & l & -> & Hn & Hl).
  rewrite (position_value N L n l Hn Hl).
  apply andb_true_iff. split; [apply Z.leb_le | apply Z.ltb_lt]; lia.
Qed.

Lemma token_in_vocabulary (vocab : nat) (x : Tensor Z) (N L n l : nat) :
  shape x = [N; L] -> length (data x) = (N * L)%nat -> tokens_in vocab x ->
  (n < N)%nat -> (l < L)%nat ->
  (Z.to_nat (getZ x [n; l]) < vocab)%nat.
Proof.
  intros Hx Hlen Htok Hn Hl.
  assert (Hin : In (getZ x [n; l]) (data x)).
  { unfold getZ, get. apply nth_In. rewrite Hx, Hlen.
    pose proof (offset_lt [N; L] [n; l] (in_range2 _ _ _ _ Hn Hl)) as Ho.
    simpl in Ho |- *. lia. }
  unfold tokens_in in Htok. rewrite Forall_forall in Htok.
  specialize (Htok _ Hin). lia.
Qed.

(** X10.  The input of the first layer of an encoder constructed with
    dropout rate 0 (the default of the model), for which the dropout of
    line 101 returns its argument in training as in inference mode.  For a
    batch of shape [N, src_len] with tokens in the vocabulary and a length
    within the positional range, that input is, at sentence [n], position
    [l] and component [c], the word embedding of the token at [(n, l)] plus
    the position embedding of the index [l], the same for every sentence
    of the batch; the layers are then applied to it in order, each one as
    self-attention (value, key and query are the previous output) under
    the same mask. *)
Theorem encoder_input_is_token_plus_position {A} {DA : Dtype A}
    (theta : StateDict) (name : string) (vocab E layers H fe : nat)
    (max_length : nat) (e : Encoder.t) (x : Tensor Z) (mask : option (Tensor A))
    (N S : nat) :
  Encoder.init theta name vocab E layers H fe 0 max_length = Py.ret e ->
  shape x = [N; S] -> length (data x) = (N * S)%nat ->
  tokens_in vocab x -> (S <= max_length)%nat ->
  exists emb,
    shape emb = [N; S; E]
    /\ (forall n l c, (n < N)%nat -> (l < S)%nat -> (c < E)%nat ->
          getR emb [n; l; c]
          = theta (sub (sub name "word_embedding") "weight")
              [Z.to_nat (getZ x [n; l]); c]
            + theta (sub (sub name "position_embedding") "weight") [l; c])
    /\ Encoder.forward e x mask
       = foldM (fun out layer => TransformerBlock.forward layer out out out mask)
           emb (Encoder.layers e).
Proof.
  intros Hinit Hx Hlen Htok HS.
  unfold Encoder.init in Hinit.
  apply bind_ret_inv in Hinit as (ls & _ & Hinit).
  apply bind_ret_inv in Hinit as (dr & _ & Hinit). injection Hinit as <-.
  unfold Encoder.forward, torch.unpack2, nn.Dropout_forward.
  cbn [Encoder.word_embedding Encoder.position_embedding Encoder.layers Encoder.dropout].
  rewrite Hx, bind_ret_l, positions_explicit, bind_ret_l.
  unfold nn.Embedding_forward at 1.
  cbn [nn.Embedding_init nn.num_embeddings nn.embedding_dim nn.emb_weight].
  rewrite (tokens_in_check vocab x Htok), bind_ret_l.
  unfold nn.Embedding_forward.
  cbn [nn.Embedding_init nn.num_embeddings nn.embedding_dim nn.emb_weight].
  change (data (build [N; S] ?f)) with (tabulate [N; S] f).
  rewrite (positions_check N S max_length HS), bind_ret_l.
  unfold torch.add. change (shape (build ?s ?f)) with s. rewrite Hx.
  change ([N; S] ++ [E]) with [N; S; E]. rewrite broadcast_shapes_refl, bind_ret_l.
  eexists. split; [|split]. 3: reflexivity. 1: reflexivity.
  intros n l c Hn Hl Hc.
  rewrite getR_build by now apply in_range3.
  change (bindex [N; S; E] [n; l; c]) with [bi N n; bi S l; bi E c].
  rewrite !bi_id by assumption.
  rewrite !getR_build by now apply in_range3.
  cbn [removelast last].
  f_equal.
  - apply getR_build. apply in_range2; [|exact Hc].
    exact (token_in_vocabulary vocab x N S n l Hx Hlen Htok Hn Hl).
  - change (shape (build [N; S] ?f) ++ [E]) with [N; S; E].
    change (bindex [N; S; E] [n; l; c]) with [bi N n; bi S l; bi E c].
    rewrite !bi_id by assumption.
    rewrite getR_build by now apply in_range3.
    cbn [removelast last].
    unfold getZ. rewrite get_build by now apply in_range2.
    rewrite (position_value N S n l Hn Hl), Nat2Z.id.
    apply getR_build. apply in_range2; [lia | exact Hc].
Qed.

Lemma encoder_input_is_token_plus_position_witness :
  exists emb,
    shape emb = [2; 5; 4]%nat
    /\ (forall n l c, (n < 2)%nat -> (l < 5)%nat -> (c < 4)%nat ->
          getR emb [n; l; c]
          = example_theta (sub (sub "encoder" "word_embedding") "weight")
              [Z.to_nat (getZ example_src25 [n; l]); c]
            + example_theta (sub (sub "encoder" "position_embedding") "weight") [l; c])
    /\ Encoder.forward example_encoder example_src25 (@None (Tensor bool))
       = foldM (fun out layer =>
                  TransformerBlock.forward layer out out out (@None (Tensor bool)))
           emb (Encoder.layers example_encoder).
Proof.
  apply (@encoder_input_is_token_plus_position bool _ example_theta "encoder"
           3 4 2 2 4 10 example_encoder example_src25 None 2 5
           example_encoder_init).
  - reflexivity.
  - reflexivity.
  - exact example_src25_tokens.
  - lia.
Defined.

(** ** Batches the model rejects *)

Lemma forallb_false_of_not_Forall {A} (P : A -> bool) (Q : A -> Prop) (l : list A) :
  (forall a, P a = true -> Q a) -> ~ Forall Q l -> forallb P l = false.
Proof.
  intros HPQ Hn. destruct (forallb P l) eqn:E; [|reflexivity].
  exfalso. apply Hn. apply Forall_forall. intros a Ha.
  apply HPQ. rewrite forallb_forall in E. now apply E.
Qed.

Lemma Embedding_forward_unknown (e : nn.Embedding) (x : Tensor Z) :
  ~ tokens_in (nn.num_embeddings e) x ->
  nn.Embedding_forward e x = Py.raise Py.IndexError.
Proof.
  intros Hn. unfold nn.Embedding_forward.
  rewrite (forallb_false_of_not_Forall _
             (fun i => (0 <= i < Z.of_nat (nn.num_embeddings e))%Z) (data x));
    [reflexivity | | exact Hn].
  intros a Ha. apply andb_true_iff in Ha as [H1 H2].
  apply Z.leb_le in H1. apply Z.ltb_lt in H2. lia.
Qed.

Lemma Embedding_forward_cases (e : nn.Embedding) (x : Tensor Z) :
  (exists y, nn.Embedding_forward e x = Py.ret y
     /\ shape y = shape x ++ [nn.embedding_dim e])
  \/ nn.Embedding_forward e x = Py.raise Py.IndexError.
Proof.
  unfold nn.Embedding_forward.
  destruct (forallb _ (data x)).
  - left. eexists. split; reflexivity.
  - right. reflexivity.
Qed.

(** The positions of a non-empty batch longer than the positional range
    are not all within it. *)
Lemma positions_too_long (N L max_length : nat) :
  (0 < N)%nat -> (max_length < L)%nat ->
  ~ tokens_in max_length
      (build [N; L] (fun idx => get dzero (torch.arange L) (bindex [L] idx))).
Proof.
  intros HN HL Htok. unfold tokens_in in Htok. rewrite Forall_forall in Htok.
  assert (Hr : in_range [N; L] [0; max_length]%nat) by now apply in_range2.
  specialize (Htok (Z.of_nat max_length)).
  assert (Hin : In (Z.of_nat max_length)
                  (data (build [N; L] (fun idx =>
                           get dzero (torch.arange L) (bindex [L] idx))))).
  { rewrite <- (position_value N L 0 max_length HN HL).
    rewrite <- (nth_tabulate [N; L] [0; max_length]%nat
                  (fun idx => get dzero (torch.arange L) (bindex [L] idx)) 0%Z Hr).
    apply nth_In. unfold build. cbn [data]. rewrite length_tabulate.
    now apply offset_lt. }
  specialize (Htok Hin). lia.
Qed.

Lemma Encoder_forward_fails {A} {DA : Dtype A} (e : Encoder.t) (x : Tensor Z)
    (mask : option (Tensor A)) (N S : nat) :
  shape x = [N; S] ->
  ~ tokens_in (nn.num_embeddings (Encoder.word_embedding e)) x
  \/ ((0 < N)%nat /\ (nn.num_embeddings (Encoder.position_embedding e) < S)%nat) ->
  Encoder.forward e x mask = Py.raise Py.IndexError.
Proof.
  intros Hx Hbad. unfold Encoder.forward, torch.unpack2.
  rewrite Hx, bind_ret_l, positions_explicit, bind_ret_l.
  destruct Hbad as [Hw | [HN HS]].
  - now rewrite (Embedding_forward_unknown _ x Hw).
  - destruct (Embedding_forward_cases (Encoder.word_embedding e) x)
      as [(w & -> & _) | ->]; [|reflexivity].
    rewrite bind_ret_l.
    now rewrite (Embedding_forward_unknown _ _ (positions_too_long N S _ HN HS)).
Qed.

Lemma Decoder_forward_fails {A B} {DA : Dtype A} {DB : Dtype B} (d : Decoder.t)
    (x : Tensor Z) (enc : Tensor R) (sm : option (Tensor A)) (tm : option (Tensor B))
    (N T : nat) :
  shape x = [N; T] ->
  ~ tokens_in (nn.num_embeddings (Decoder.word_embedding d)) x
  \/ ((0 < N)%nat /\ (nn.num_embeddings (Decoder.position_embedding d) < T)%nat) ->
  Decoder.forward d x enc sm tm = Py.raise Py.IndexError.
Proof.
  intros Hx Hbad. unfold Decoder.forward, Decoder.hidden, torch.unpack2.
  rewrite Hx, bind_ret_l, positions_explicit, bind_ret_l.
  destruct Hbad as [Hw | [HN HT]].
  - now rewrite (Embedding_forward_unknown _ x Hw).
  - destruct (Embedding_forward_cases (Decoder.word_embedding d) x)
      as [(w & -> & _) | ->]; [|reflexivity].
    rewrite bind_ret_l.
    now rewrite (Embedding_forward_unknown _ _ (positions_too_long N T _ HN HT)).
Qed.

(** On a two-dimensional batch a constructed encoder returns or raises an
    index error. *)
Lemma Encoder_forward_cases {A} {DA : Dtype A} (E vocab max_length : nat)
    (e : Encoder.t) (x : Tensor Z) (mask : option (Tensor A)) (N S : nat) :
  Encoder_wf E vocab max_length e ->
  shape x = [N; S] ->
  (forall H, mask_fits mask [N; H; S; S]) ->
  (exists out, Encoder.forward e x mask = Py.ret out /\ shape out = [N; S; E])
  \/ Encoder.forward e x mask = Py.raise Py.IndexError.
Proof.
  intros (Hwn & Hwd & Hpn & Hpd & Hls) Hx Hm.
  unfold Encoder.forward, torch.unpack2, nn.Dropout_forward.
  rewrite Hx, bind_ret_l, positions_explicit, bind_ret_l.
  destruct (Embedding_forward_cases (Encoder.word_embedding e) x)
    as [(w & -> & Hw) | ->]; [|right; reflexivity].
  rewrite bind_ret_l.
  destruct (Embedding_forward_cases (Encoder.position_embedding e)
              (build [N; S] (fun idx => get dzero (torch.arange S) (bindex [S] idx))))
    as [(p & -> & Hp) | ->]; [|right; reflexivity].
  rewrite bind_ret_l.
  destruct (add_same_shape w p [N; S; E]) as (s & -> & Hs).
  - now rewrite Hw, Hx, Hwd.
  - rewrite Hp, Hpd. reflexivity.
  - rewrite bind_ret_l. left.
    apply (foldM_invariant _ (fun t => shape t = [N; S; E]) (TransformerBlock_wf E));
      [|exact Hls|exact Hs].
    intros t b Ht Hb.
    exact (TransformerBlock_forward_ok E b t t t mask N S S Hb Ht Ht Ht Hm).
Qed.

Lemma forward_raises_when_decoder_raises (theta : StateDict) (sv tv : nat) (sp tp : Z)
    (E layers fe H : nat) (p : R) (max_length : nat) (model : Transformer.t)
    (src trg : Tensor Z) (N N' S T : nat) :
  Transformer.init theta sv tv sp tp E layers fe H p max_length = Py.ret model ->
  shape src = [N; S] -> shape trg = [N'; T] ->
  (forall enc sm tm,
     Decoder.forward (Transformer.decoder model) trg enc
       (@Some (Tensor bool) sm) (@Some (Tensor R) tm) = Py.raise Py.IndexError) ->
  Transformer.forward model src trg = Py.raise Py.IndexError.
Proof.
  intros Hinit Hsrc Htrg Hdec.
  destruct (Transformer_init_wf _ _ _ _ _ _ _ _ _ _ _ _ Hinit) as (Hewf & _).
  destruct (make_src_mask_spec model src N S Hsrc) as (sm & Hsm & Hsms & _).
  destruct (make_trg_mask_spec model trg N' T Htrg) as (tm & Htm & _).
  unfold Transformer.forward. rewrite Hsm, bind_ret_l, Htm, bind_ret_l.
  destruct (Encoder_forward_cases E sv max_length _ src (Some sm) N S Hewf Hsrc)
    as [(enc & -> & _) | ->]; [ | | reflexivity].
  - intros H'. now apply src_mask_fits.
  - rewrite bind_ret_l. apply Hdec.
Qed.

(** X11.  A constructed model rejects a non-empty batch that is longer
    than its positional range: when the source or the target has more than
    [max_length] positions the call raises an index error. *)
Theorem batch_longer_than_max_length_raises_index_error
    (theta : StateDict) (sv tv : nat) (sp tp : Z)
    (E layers fe H : nat) (p : R) (max_length : nat) (model : Transformer.t)
    (src trg : Tensor Z) (N N' S T : nat) :
  Transformer.init theta sv tv sp tp E layers fe H p max_length = Py.ret model ->
  shape src = [N; S] -> shape trg = [N'; T] ->
  ((0 < N)%nat /\ (max_length < S)%nat) \/ ((0 < N')%nat /\ (max_length < T)%nat) ->
  Transformer.forward model src trg = Py.raise Py.IndexError.
Proof.
  intros Hinit Hsrc Htrg Hbad.
  destruct (Transformer_init_wf _ _ _ _ _ _ _ _ _ _ _ _ Hinit)
    as ((_ & _ & Hepn & _) & (_ & _ & Hdpn & _)).
  destruct Hbad as [Hs | Ht].
  - destruct (make_src_mask_spec model src N S Hsrc) as (sm & Hsm & _).
    destruct (make_trg_mask_spec model trg N' T Htrg) as (tm & Htm & _).
    unfold Transformer.forward. rewrite Hsm, bind_ret_l, Htm, bind_ret_l.
    rewrite (Encoder_forward_fails _ src (Some sm) N S Hsrc); [reflexivity|].
    right. now rewrite Hepn.
  - apply (forward_raises_when_decoder_raises theta sv tv sp tp E layers fe H p
             max_length model src trg N N' S T Hinit Hsrc Htrg).
    intros enc sm tm. apply (Decoder_forward_fails _ trg enc _ _ N' T Htrg).
    right. now rewrite Hdpn.
Qed.

Lemma batch_longer_than_max_length_raises_index_error_witness :
  Transformer.forward example_model example_long example_trg = Py.raise Py.IndexError.
Proof.
  apply (batch_longer_than_max_length_raises_index_error example_theta 3 3 0 0
           4 1 4 2 0 10 example_model example_long example_trg 1 1 11 2
           example_model_init).
  - reflexivity.
  - reflexivity.
  - left. split; lia.
Defined.

(** X12.  A constructed model rejects a token outside its vocabulary: when
    some token of the source is not an index below the source vocabulary
    size, or some token of the target is not one below the target
    vocabulary size, the call raises an index error. *)
Theorem token_outside_vocabulary_raises_index_error
    (theta : StateDict) (sv tv : nat) (sp tp : Z)
    (E layers fe H : nat) (p : R) (max_length : nat) (model : Transformer.t)
    (src trg : Tensor Z) (N N' S T : nat) :
  Transformer.init theta sv tv sp tp E layers fe H p max_length = Py.ret model ->
  shape src = [N; S] -> shape trg = [N'; T] ->
  ~ tokens_in sv src \/ ~ tokens_in tv trg ->
  Transformer.forward model src trg = Py.raise Py.IndexError.
Proof.
  intros Hinit Hsrc Htrg Hbad.
  destruct (Transformer_init_wf _ _ _ _ _ _ _ _ _ _ _ _ Hinit)
    as ((Hewn & _) & (Hdwn & _)).
  destruct Hbad as [Hs | Ht].
  - destruct (make_src_mask_spec model src N S Hsrc) as (sm & Hsm & _).
    destruct (make_trg_mask_spec model trg N' T Htrg) as (tm & Htm & _).
    unfold Transformer.forward. rewrite Hsm, bind_ret_l, Htm, bind_ret_l.
    rewrite (Encoder_forward_fails _ src (Some sm) N S Hsrc); [reflexivity|].
    left. now rewrite Hewn.
  - apply (forward_raises_when_decoder_raises theta sv tv sp tp E layers fe H p
             max_length model src trg N N' S T Hinit Hsrc Htrg).
    intros enc sm tm. apply (Decoder_forward_fails _ trg enc _ _ N' T Htrg).
    left. now rewrite Hdwn.
Qed.

Lemma example_unknown_token : ~ tokens_in 3 example_unknown.
Proof.
  unfold tokens_in. simpl. intros Hf.
  inversion Hf as [|? ? _ Hf']. inversion Hf' as [|? ? H7 _]. lia.
Defined.

Lemma token_outside_vocabulary_raises_index_error_witness :
  Transformer.forward example_model example_src example_unknown
  = Py.raise Py.IndexError.
Proof.
  apply (token_outside_vocabulary_raises_index_error example_theta 3 3 0 0
           4 1 4 2 0 10 example_model example_src example_unknown 1 1 2 2
           example_model_init).
  - reflexivity.
  - reflexivity.
  - right. exact example_unknown_token.
Defined.

Lemma make_src_mask_returns (self : Transformer.t) (src : Tensor Z) :
  (1 <= length (shape src))%nat ->
  exists m, Transformer.make_src_mask self src = Py.ret m.
Proof.
  intros Hr. unfold Transformer.make_src_mask, unsqueeze.
  change (shape (torch.ne src (Transformer.src_pad_idx self))) with (shape src).
  destruct (shape src) as [|a l]; [simpl in Hr; lia|].
  simpl. eexists. reflexivity.
Qed.

Lemma rank_two_shape {A} (t : Tensor A) :
  length (shape t) = 2%nat -> exists a b, shape t = [a; b].
Proof.
  destruct (shape t) as [|a [|b [|c l]]]; try discriminate. eauto.
Qed.

Lemma unpack2_wrong_rank {A} (t : Tensor A) :
  length (shape t) <> 2%nat -> torch.unpack2 t = Py.raise Py.ValueError.
Proof.
  unfold torch.unpack2.
  destruct (shape t) as [|a [|b [|c l]]]; try reflexivity. now intros [].
Qed.

(** X13.  Token batches must be two-dimensional.  For every model, a source
    with at least one dimension and a target, one of which is not
    two-dimensional (a single unbatched sequence, say), make the call raise
    a value error: the unpacking of the shape into batch size and length
    fails, in [make_trg_mask] for the target and in the encoder for the
    source. *)
Theorem batch_of_wrong_rank_raises_value_error
    (model : Transformer.t) (src trg : Tensor Z) :
  (1 <= length (shape src))%nat ->
  length (shape src) <> 2%nat \/ length (shape trg) <> 2%nat ->
  Transformer.forward model src trg = Py.raise Py.ValueError.
Proof.
  intros Hr Hbad.
  destruct (make_src_mask_returns model src Hr) as (sm & Hsm).
  unfold Transformer.forward. rewrite Hsm, bind_ret_l.
  destruct (Nat.eq_dec (length (shape trg)) 2) as [Ht | Ht].
  - destruct (rank_two_shape trg Ht) as (N' & T & Htrg).
    destruct (make_trg_mask_spec model trg N' T Htrg) as (tm & -> & _).
    rewrite bind_ret_l.
    destruct Hbad as [Hs | Hs]; [|contradiction].
    unfold Encoder.forward. now rewrite (unpack2_wrong_rank src Hs).
  - unfold Transformer.make_trg_mask. now rewrite (unpack2_wrong_rank trg Ht).
Qed.

Lemma batch_of_wrong_rank_raises_value_error_witness :
  Transformer.forward example_transformer example_flat example_trg
  = Py.raise Py.ValueError.
Proof.
  apply (batch_of_wrong_rank_raises_value_error example_transformer
           example_flat example_trg).
  - simpl. lia.
  - left. simpl. lia.
Defined.

(** ** Construction of the whole model *)

Lemma SelfAttention_init_zero_heads (theta : StateDict) (name : string) (E : nat) :
  SelfAttention.init theta name E 0 = Py.raise Py.ZeroDivisionError.
Proof. reflexivity. Qed.

Lemma SelfAttention_init_not_divisible (theta : StateDict) (name : string) (E H : nat) :
  H <> 0%nat -> (E mod H <> 0)%nat ->
  SelfAttention.init theta name E H
  = Py.raise (Py.AssertionError "Embed size needs to be div by heads").
Proof.
  intros HH Hmod. unfold SelfAttention.init.
  destruct (Nat.eqb_spec H 0) as [|_]; [contradiction|]. simpl negb. cbv iota.
  destruct (Nat.eqb_spec (E / H * H) E) as [Heq|]; [|reflexivity].
  apply (div_mul_exact E H HH) in Heq. contradiction.
Qed.

Lemma SelfAttention_init_divisible (theta : StateDict) (name : string) (E H : nat) :
  H <> 0%nat -> (E mod H = 0)%nat ->
  exists self, SelfAttention.init theta name E H = Py.ret self.
Proof.
  intros HH Hmod. apply (div_mul_exact E H HH) in Hmod.
  unfold SelfAttention.init.
  destruct (Nat.eqb_spec H 0) as [|_]; [contradiction|]. simpl negb. cbv iota.
  rewrite Hmod, Nat.eqb_refl. eexists. reflexivity.
Qed.

Lemma mapM_ok {A B} (f : A -> Py.M B) (l : list A) :
  (forall a, In a l -> exists b, f a = Py.ret b) ->
  exists bs, mapM f l = Py.ret bs /\ length bs = length l.
Proof.
  induction l as [|a l IH]; intros Hf; simpl.
  - eexists. split; reflexivity.
  - destruct (Hf a (or_introl eq_refl)) as (b & ->). rewrite bind_ret_l.
    destruct IH as (bs & -> & Hlen); [intros a' Ha'; apply Hf; now right|].
    rewrite bind_ret_l. eexists. split; [reflexivity|]. simpl. now rewrite Hlen.
Qed.

Lemma mapM_first_raises {B} (f : nat -> Py.M B) (n : nat) (e : Py.Exception) :
  f 0%nat = @Py.raise B e -> mapM f (seq 0 (S n)) = Py.raise e.
Proof. intros Hf. simpl. rewrite Hf. reflexivity. Qed.

Lemma TransformerBlock_init_ok (theta : StateDict) (name : string)
    (E H : nat) (p : R) (fe : nat) :
  H <> 0%nat -> (E mod H = 0)%nat -> 0 <= p <= 1 ->
  exists b, TransformerBlock.init theta name E H p fe = Py.ret b.
Proof.
  intros HH Hmod Hp. unfold TransformerBlock.init.
  destruct (SelfAttention_init_divisible theta (sub name "attention") E H HH Hmod)
    as (a & ->).
  rewrite bind_ret_l, (Dropout_init_valid p Hp), bind_ret_l.
  eexists. reflexivity.
Qed.

Lemma DecoderBLock_init_ok (theta : StateDict) (name : string)
    (E H fe : nat) (p : R) :
  H <> 0%nat -> (E mod H = 0)%nat -> 0 <= p <= 1 ->
  exists d, DecoderBLock.init theta name E H fe p = Py.ret d.
Proof.
  intros HH Hmod Hp. unfold DecoderBLock.init.
  destruct (SelfAttention_init_divisible theta (sub name "attention") E H HH Hmod)
    as (a & ->).
  rewrite bind_ret_l.
  destruct (TransformerBlock_init_ok theta (sub name "transformer_block") E H p fe
              HH Hmod Hp) as (b & ->).
  rewrite bind_ret_l, (Dropout_init_valid p Hp), bind_ret_l.
  eexists. reflexivity.
Qed.

Lemma TransformerBlock_init_bad_rate (theta : StateDict) (name : string)
    (E H : nat) (p : R) (fe : nat) :
  H <> 0%nat -> (E mod H = 0)%nat -> p < 0 \/ 1 < p ->
  TransformerBlock.init theta name E H p fe = Py.raise Py.ValueError.
Proof.
  intros HH Hmod Hp. unfold TransformerBlock.init.
  destruct (SelfAttention_init_divisible theta (sub name "attention") E H HH Hmod)
    as (a & ->).
  rewrite bind_ret_l, (Dropout_init_invalid p Hp). reflexivity.
Qed.

(** X14.  The outcome of the construction of the whole model, decided by
    the check of the attention module and by the rate check of the dropout
    layers.  Call the head count fitting when the model has no layers (no
    attention module is built then, whatever the head count) or when the
    head count is not zero and divides the embed size.  With a fitting head
    count and a dropout rate in [[0, 1]] the model is constructed, and its
    encoder and decoder hold [num_layers] blocks each; with a fitting head
    count and a rate outside [[0, 1]] the construction raises a value
    error.  With at least one layer, zero heads raise a division error and
    a head count that does not divide the embed size raises the assertion
    error, whatever the rate. *)
Theorem model_construction_outcome
    (theta : StateDict) (sv tv : nat) (sp tp : Z)
    (E layers fe H : nat) (p : R) (max_length : nat) :
  (layers = 0%nat \/ (H <> 0%nat /\ (E mod H = 0)%nat) -> 0 <= p <= 1 ->
     exists model,
       Transformer.init theta sv tv sp tp E layers fe H p max_length = Py.ret model
       /\ length (Encoder.layers (Transformer.encoder model)) = layers
       /\ length (Decoder.layers (Transformer.decoder model)) = layers)
  /\ (layers = 0%nat \/ (H <> 0%nat /\ (E mod H = 0)%nat) -> p < 0 \/ 1 < p ->
        Transformer.init theta sv tv sp tp E layers fe H p max_length
        = Py.raise Py.ValueError)
  /\ ((0 < layers)%nat -> H = 0%nat ->
        Transformer.init theta sv tv sp tp E layers fe H p max_length
        = Py.raise Py.ZeroDivisionError)
  /\ ((0 < layers)%nat -> H <> 0%nat -> (E mod H <> 0)%nat ->
        Transformer.init theta sv tv sp tp E layers fe H p max_length
        = Py.raise (Py.AssertionError "Embed size needs to be div by heads")).
Proof.
  split; [|split; [|split]].
  - intros Hok Hp.
    assert (Hfit : forall i, In i (seq 0 layers) ->
                     H <> 0%nat /\ (E mod H = 0)%nat).
    { intros i Hi. destruct Hok as [->|Hok]; [inversion Hi | exact Hok]. }
    unfold Transformer.init, Encoder.init, Decoder.init.
    rewrite (Dropout_init_valid p Hp).
    destruct (mapM_ok (fun i => TransformerBlock.init theta
                         (sub "encoder" (sub "layers" (string_of_nat i))) E H p fe)
                (seq 0 layers)) as (bs & -> & Hbs).
    { intros i Hi. destruct (Hfit i Hi) as [HH Hmod].
      now apply TransformerBlock_init_ok. }
    rewrite !bind_ret_l.
    destruct (mapM_ok (fun i => DecoderBLock.init theta
                         (sub "decoder" (sub "layers" (string_of_nat i))) E H fe p)
                (seq 0 layers)) as (ds & -> & Hds).
    { intros i Hi. destruct (Hfit i Hi) as [HH Hmod].
      now apply DecoderBLock_init_ok. }
    rewrite !bind_ret_l. eexists. split; [reflexivity|].
    cbn [Transformer.encoder Transformer.decoder Encoder.layers Decoder.layers].
    rewrite Hbs, Hds, length_seq. split; reflexivity.
  - intros Hok Hp. unfold Transformer.init, Encoder.init.
    destruct layers as [|n].
    + cbn [seq mapM]. rewrite bind_ret_l, (Dropout_init_invalid p Hp). reflexivity.
    + destruct Hok as [Hl | [HH Hmod]]; [discriminate|].
      rewrite (mapM_first_raises _ n Py.ValueError); [reflexivity|].
      now apply TransformerBlock_init_bad_rate.
  - intros Hl ->. destruct layers as [|n]; [lia|].
    unfold Transformer.init, Encoder.init.
    rewrite (mapM_first_raises _ n Py.ZeroDivisionError); [reflexivity|].
    unfold TransformerBlock.init. now rewrite SelfAttention_init_zero_heads.
  - intros Hl HH Hmod. destruct layers as [|n]; [lia|].
    unfold Transformer.init, Encoder.init.
    rewrite (mapM_first_raises _ n
               (Py.AssertionError "Embed size needs to be div by heads"));
      [reflexivity|].
    unfold TransformerBlock.init.
    now rewrite (SelfAttention_init_not_divisible theta _ E H HH Hmod).
Qed.

Lemma model_construction_outcome_witness :
  (exists model,
     Transformer.init example_theta 3 3 0 0 5 0 4 0 (1 / 2) 10 = Py.ret model
     /\ length (Encoder.layers (Transformer.encoder model)) = 0%nat
     /\ length (Decoder.layers (Transformer.decoder model)) = 0%nat)
  /\ Transformer.init example_theta 3 3 0 0 4 1 4 2 2 10
     = Py.raise Py.ValueError
  /\ Transformer.init example_theta 3 3 0 0 5 1 4 0 2 10
     = Py.raise Py.ZeroDivisionError
  /\ Transformer.init example_theta 3 3 0 0 5 1 4 2 0 10
     = Py.raise (Py.AssertionError "Embed size needs to be div by heads").
Proof.
  split; [|split; [|split]].
  - apply (proj1 (model_construction_outcome example_theta 3 3 0 0 5 0 4 0
                    (1 / 2) 10)).
    + left. reflexivity.
    + lra.
  - apply (proj1 (proj2
             (model_construction_outcome example_theta 3 3 0 0 4 1 4 2 2 10))).
    + right. split; [lia | reflexivity].
    + right. lra.
  - apply (proj1 (proj2 (proj2
             (model_construction_outcome example_theta 3 3 0 0 5 1 4 0 2 10))));
      [lia | reflexivity].
  - apply (proj2 (proj2 (proj2
             (model_construction_outcome example_theta 3 3 0 0 5 1 4 2 0 10))));
      [lia | lia | simpl; lia].
Defined.

Lemma Transformer_init_layers (theta : StateDict) (sv tv : nat) (sp tp : Z)
    (E layers fe H : nat) (p : R) (max_length : nat) (m : Transformer.t) :
  Transformer.init theta sv tv sp tp E layers fe H p max_length = Py.ret m ->
  length (Encoder.layers (Transformer.encoder m)) = layers
  /\ length (Decoder.layers (Transformer.decoder m)) = layers.
Proof.
  intros Hi. unfold Transformer.init in Hi.
  apply bind_ret_inv in Hi as (e & He & Hi).
  apply bind_ret_inv in Hi as (d & Hd & Hi). injection Hi as <-.
  cbn [Transformer.encoder Transformer.decoder].
  unfold Encoder.init in He. apply bind_ret_inv in He as (bs & Hbs & He).
  unfold Decoder.init in Hd. apply bind_ret_inv in Hd as (ds & Hds & Hd).
  apply bind_ret_inv in He as (dre & _ & He).
  apply bind_ret_inv in Hd as (drd & _ & Hd).
  injection He as <-. injection Hd as <-.
  cbn [Encoder.layers Decoder.layers].
  apply mapM_inv, Forall2_length in Hbs. apply mapM_inv, Forall2_length in Hds.
  rewrite length_seq in Hbs, Hds. split; symmetry; assumption.
Qed.

(** ** Source and target batches of different sizes *)

(** The cross attention of a decoder block reshapes the encoder output
    with the batch size of the target. *)
Lemma DecoderBLock_forward_batch_mismatch {A B} {DA : Dtype A} {DB : Dtype B}
    (E : nat) (d : DecoderBLock.t) (x enc : Tensor R)
    (sm : option (Tensor A)) (tm : option (Tensor B)) (N N' T S : nat) :
  DecoderBLock_wf E d ->
  shape x = [N'; T; E] -> shape enc = [N; S; E] ->
  (forall H, mask_fits tm [N'; H; T; T]) ->
  N <> N' -> (0 < S)%nat -> (0 < E)%nat ->
  DecoderBLock.forward d x enc enc sm tm = Py.raise Py.RuntimeError.
Proof.
  intros (Hwf & HE & Hn & Htb) Hx Henc Htm HN HS HEpos.
  unfold DecoderBLock.forward, nn.Dropout_forward.
  rewrite <- HE in Hx.
  destruct (forward_ok _ x x x tm N' T T T T Hwf Hx Hx Hx (Htm _) (bdim_refl T))
    as (att & -> & Hatt).
  rewrite bind_ret_l. rewrite HE in Hatt, Hx.
  destruct (add_same_shape att x _ Hatt Hx) as (s1 & -> & Hs1). rewrite bind_ret_l.
  destruct (LayerNorm_forward_shape (DecoderBLock.norm d) s1 [N'; T] E Hs1 Hn)
    as (q & -> & Hq).
  rewrite bind_ret_l.
  destruct Htb as ((Hdiv & _) & HE' & _).
  unfold TransformerBlock.forward.
  rewrite (reshape_fails_forward_v _ enc enc q sm N' N N S S T E Henc Henc Hq);
    [reflexivity|].
  rewrite <- (numel_split N' S _ _ E) by (rewrite <- HE'; exact Hdiv).
  rewrite Henc. cbn [numel fold_right]. intros Heq. apply HN.
  assert (Hnz : (S * (E * 1) <> 0)%nat)
    by (rewrite Nat.mul_1_r; apply Nat.neq_mul_0; lia).
  exact (proj1 (Nat.mul_cancel_r N N' _ Hnz) Heq).
Qed.

(** X15.  The source and the target batch must hold the same number of
    sequences.  A constructed model with at least one layer and a positive
    embed size, called on batches it would otherwise accept (tokens of the
    vocabularies, lengths within [max_length], a source that is not
    empty) whose batch sizes differ, raises a runtime error: the first
    decoder block reshapes the encoder output with the batch size of the
    target. *)
Theorem different_batch_sizes_raise_runtime_error
    (theta : StateDict) (sv tv : nat) (sp tp : Z)
    (E layers fe H : nat) (p : R) (max_length : nat) (model : Transformer.t)
    (src trg : Tensor Z) (N N' S T : nat) :
  Transformer.init theta sv tv sp tp E layers fe H p max_length = Py.ret model ->
  (0 < layers)%nat -> (0 < E)%nat ->
  shape src = [N; S] -> shape trg = [N'; T] ->
  tokens_in sv src -> tokens_in tv trg ->
  (0 < S <= max_length)%nat -> (T <= max_length)%nat ->
  N <> N' ->
  Transformer.forward model src trg = Py.raise Py.RuntimeError.
Proof.
  intros Hinit Hl HE Hsrc Htrg Hts Htt [HS HSm] HTm HN.
  destruct (Transformer_init_wf _ _ _ _ _ _ _ _ _ _ _ _ Hinit) as (Hewf & Hdwf).
  destruct (Transformer_init_layers _ _ _ _ _ _ _ _ _ _ _ _ Hinit) as (_ & Hlen).
  destruct (make_src_mask_spec model src N S Hsrc) as (sm & Hsm & Hsms & _).
  destruct (make_trg_mask_spec model trg N' T Htrg) as (tm & Htm & Htms & _).
  unfold Transformer.forward. rewrite Hsm, bind_ret_l, Htm, bind_ret_l.
  destruct (Encoder_forward_ok E sv max_length _ src (Some sm) N S Hewf Hsrc Hts HSm)
    as (enc & -> & Henc); [intros H'; now apply src_mask_fits|].
  rewrite bind_ret_l.
  destruct Hdwf as (Hwn & Hwd & Hpn & Hpd & Hls & _).
  unfold Decoder.forward, Decoder.hidden, torch.unpack2, nn.Dropout_forward.
  rewrite Htrg, bind_ret_l.
  destruct (embeddings_ok _ _ trg N' T E tv max_length Hwn Hwd Hpn Hpd Htrg Htt HTm)
    as (ps & w & q & s & Hps & Hw & Hq & Hs & Hss).
  rewrite Hps, bind_ret_l, Hw, bind_ret_l, Hq, bind_ret_l, Hs, bind_ret_l.
  destruct (Decoder.layers (Transformer.decoder model)) as [|d ds];
    [simpl in Hlen; lia|].
  pose proof (Forall_inv Hls) as Hd.
  cbn [foldM].
  rewrite (DecoderBLock_forward_batch_mismatch E d s enc (Some sm) (Some tm)
             N N' T S Hd Hss Henc); try assumption; [reflexivity|].
  intros H'. now apply trg_mask_fits.
Qed.

Lemma different_batch_sizes_raise_runtime_error_witness :
  Transformer.forward example_model example_pair example_trg
  = Py.raise Py.RuntimeError.
Proof.
  apply (different_batch_sizes_raise_runtime_error example_theta 3 3 0 0
           4 1 4 2 0 10 example_model example_pair example_trg 2 1 2 2
           example_model_init); try lia; try reflexivity.
  - unfold tokens_in. simpl. repeat (constructor; [lia|]). constructor.
  - unfold tokens_in. simpl. repeat (constructor; [lia|]). constructor.
Defined.

(** ** The scores of a constructed attention module *)

Lemma init_projections (theta : StateDict) (name : string) (E H : nat)
    (self : SelfAttention.t) :
  SelfAttention.init theta name E H = Py.ret self ->
  nn.bias (SelfAttention.keys self) = None
  /\ nn.bias (SelfAttention.queries self) = None
  /\ nn.bias (SelfAttention.values self) = None
  /\ nn.weight (SelfAttention.queries self)
     = build [E / H; E / H]%nat (theta (sub (sub name "queries") "weight"))
  /\ nn.weight (SelfAttention.keys self)
     = build [E / H; E / H]%nat (theta (sub (sub name "keys") "weight")).
Proof.
  unfold SelfAttention.init.
  destruct (Nat.eqb_spec H 0) as [|Hnz]; [discriminate|]. simpl.
  destruct (Nat.eqb_spec (E / H * H) E) as [Hdiv|]; [|discriminate].
  intros [= <-]. simpl. repeat split; reflexivity.
Qed.

(** X16.  The raw scores of a constructed attention module.  For every
    module built by [__init__] from parameters [theta], the score of query
    position [qi] and key position [ki] in head [h] is the inner product of
    the two projected head slices: slice [h] of the query and of the key,
    each [E / H] wide, multiplied by the query and the key weight.  All
    heads share the same two weight matrices, no bias enters, and the
    values play no part. *)
Theorem scores_are_inner_products_of_projected_heads
    (theta : StateDict) (name : string) (E H : nat) (self : SelfAttention.t)
    (v k q : Tensor R) (N Lv Lk Lq : nat) :
  SelfAttention.init theta name E H = Py.ret self ->
  shape v = [N; Lv; E] -> shape k = [N; Lk; E] -> shape q = [N; Lq; E] ->
  exists s, SelfAttention.scores self v k q = Py.ret s
    /\ forall n h qi ki,
         (n < N)%nat -> (h < H)%nat -> (qi < Lq)%nat -> (ki < Lk)%nat ->
         getR (SelfAttention.energy s) [n; h; qi; ki]
         = sum_n (E / H) (fun d =>
             sum_n (E / H) (fun i =>
               getR q [n; qi; (h * (E / H) + i)%nat]
               * theta (sub (sub name "queries") "weight") [d; i])
             * sum_n (E / H) (fun i =>
                 getR k [n; ki; (h * (E / H) + i)%nat]
                 * theta (sub (sub name "keys") "weight") [d; i])).
Proof.
  intros Hinit Hv Hk Hq.
  destruct (init_inv theta name E H self Hinit) as (Hwf & HE & HH & HD).
  destruct (init_projections theta name E H self Hinit)
    as (Hbk & Hbq & Hbv & Hwq & Hwk).
  rewrite <- HE in Hv, Hk, Hq.
  destruct (energy_is_inner_product self v k q N Lv Lk Lq Hwf Hbk Hbq Hbv Hv Hk Hq)
    as (s & Hs & Hval).
  exists s. split; [exact Hs|].
  intros n h qi ki Hn Hh Hqi Hki.
  rewrite Hval by (rewrite HH; now apply in_range4).
  rewrite HD, Hwq, Hwk.
  apply sum_n_ext. intros d Hd. f_equal.
  - apply sum_n_ext. intros i Hi.
    rewrite getR_build by now apply in_range2. reflexivity.
  - apply sum_n_ext. intros i Hi.
    rewrite getR_build by now apply in_range2. reflexivity.
Qed.

Lemma scores_are_inner_products_of_projected_heads_witness :
  exists s, SelfAttention.scores example_heads short_values long_keys some_queries
            = Py.ret s
    /\ forall n h qi ki,
         (n < 2)%nat -> (h < 2)%nat -> (qi < 3)%nat -> (ki < 5)%nat ->
         getR (SelfAttention.energy s) [n; h; qi; ki]
         = sum_n (4 / 2) (fun d =>
             sum_n (4 / 2) (fun i =>
               getR some_queries [n; qi; (h * (4 / 2) + i)%nat]
               * example_theta (sub (sub "" "queries") "weight") [d; i])
             * sum_n (4 / 2) (fun i =>
                 getR long_keys [n; ki; (h * (4 / 2) + i)%nat]
                 * example_theta (sub (sub "" "keys") "weight") [d; i])).
Proof.
  apply (scores_are_inner_products_of_projected_heads example_theta "" 4 2
           example_heads short_values long_keys some_queries 2 1 5 3);
    reflexivity.
Defined.
